(** * slarchive: the archive / restore protocol of dhslab-archive

  A shallow embedding of [src/slarchive.py]: the file enumerator
  ([get_files]), the bundle builder ([create_tarball]), the integrity
  check ([test_tarball_integrity]) and the two drivers ([run_archive],
  [run_restore]), over an explicit model of what they act on: the local
  file system, the S3 bucket, the Globus endpoint, the random source and
  the clock.

  Python's exceptions and [sys.exit] are results of a small state-and-error
  monad; the state changes made before a failure stay, as they do in the
  program. *)

From Stdlib Require Import ZArith Ascii String List Lia Bool.
From Stdlib Require Import QArith Lqa DecimalString.
From stdpp Require Import base gmap strings list.

Import ListNotations.
Local Open Scope Z_scope.
Set Warnings "-register-all".

(** ** Patterns

  The program tells its own artifacts from the user's files by name, with
  [re.match] in [get_files] and with [glob.glob] in the drivers.  Both are
  library code; they are modelled by the regular language of the pattern.
  Names are strings of 8-bit characters, read as code points. *)

Module Re.

Inductive regex : Type :=
| Void
| Eps
| Cls (p : ascii -> bool)
| Cat (r s : regex)
| Alt (r s : regex)
| Star (r : regex).

(** [r+] *)
Definition Plus (r : regex) : regex := Cat r (Star r).

(** A literal run of characters. *)
Fixpoint Lit (s : string) : regex :=
  match s with
  | EmptyString => Eps
  | String c s' => Cat (Cls (Ascii.eqb c)) (Lit s')
  end.

(** A pattern written as the sequence of its pieces. *)
Fixpoint Seq (rs : list regex) : regex :=
  match rs with
  | [] => Eps
  | r :: rs' => Cat r (Seq rs')
  end.

(** The words of a pattern. *)
Inductive lang : regex -> list ascii -> Prop :=
| lang_eps : lang Eps []
| lang_cls p c : p c = true -> lang (Cls p) [c]
| lang_cat r s u v : lang r u -> lang s v -> lang (Cat r s) (u ++ v)
| lang_alt_l r s u : lang r u -> lang (Alt r s) u
| lang_alt_r r s u : lang s u -> lang (Alt r s) u
| lang_star_nil r : lang (Star r) []
| lang_star_app r u v : lang r u -> lang (Star r) v -> lang (Star r) (u ++ v).

Fixpoint nullable (r : regex) : bool :=
  match r with
  | Void => false
  | Eps => true
  | Cls _ => false
  | Cat r s => nullable r && nullable s
  | Alt r s => nullable r || nullable s
  | Star _ => true
  end.

Fixpoint deriv (c : ascii) (r : regex) : regex :=
  match r with
  | Void => Void
  | Eps => Void
  | Cls p => if p c then Eps else Void
  | Cat r s =>
      if nullable r then Alt (Cat (deriv c r) s) (deriv c s)
      else Cat (deriv c r) s
  | Alt r s => Alt (deriv c r) (deriv c s)
  | Star r => Cat (deriv c r) (Star r)
  end.

(** The whole word is in the language ([fnmatch], whose translated
    pattern ends in [\Z]). *)
Fixpoint fullmatch (r : regex) (w : list ascii) : bool :=
  match w with
  | [] => nullable r
  | c :: w' => fullmatch (deriv c r) w'
  end.

(** Some prefix of the word is in the language ([re.match]). *)
Fixpoint prefixmatch (r : regex) (w : list ascii) : bool :=
  nullable r ||
  match w with
  | [] => false
  | c :: w' => prefixmatch (deriv c r) w'
  end.

Definition re_match (r : regex) (s : string) : bool :=
  prefixmatch r (list_ascii_of_string s).

Definition fnmatch (r : regex) (s : string) : bool :=
  fullmatch r (list_ascii_of_string s).

(** Character classes of Python's [re] on [str] patterns. *)
Definition any_char : ascii -> bool := fun _ => true.

(** [.] without DOTALL: anything but a newline. *)
Definition dot : ascii -> bool := fun c => negb (Ascii.eqb c "010"%char).

(** [\s]: the characters [str.isspace] accepts, below 256. *)
Definition space : ascii -> bool := fun c =>
  let n := nat_of_ascii c in
  ((9 <=? n) && (n <=? 13) || (28 <=? n) && (n <=? 32)
   || (n =? 133) || (n =? 160))%nat.

(** [\S] *)
Definition nonspace : ascii -> bool := fun c => negb (space c).

End Re.

(** ** Python values the program branches on *)

(** The exceptions the modelled code can raise. *)
Inductive pyexc : Type :=
| ValueError
| TypeError
| IndexError
| KeyError
| UnboundLocalError
| FileNotFoundError
| IsADirectoryError
| NotADirectoryError
| OSError
| ReadError
| JSONDecodeError
| ClientError (code : string).

(** How a call ends other than by returning: [sys.exit(code)] or an
    exception that nothing caught. *)
Inductive failure : Type :=
| SysExit (code : Z)
| Raised (e : pyexc).

(** [str.split('.')] *)
Fixpoint split_dot_aux (acc : string) (s : string) : list string :=
  match s with
  | EmptyString => [acc]
  | String c s' =>
      if Ascii.eqb c "."%char then acc :: split_dot_aux EmptyString s'
      else split_dot_aux (acc +:+ String c EmptyString) s'
  end.

Definition split_dot (s : string) : list string := split_dot_aux EmptyString s.

(** [needle in hay] on strings *)
Fixpoint str_contains (needle hay : string) : bool :=
  String.prefix needle hay ||
  match hay with
  | EmptyString => false
  | String _ hay' => str_contains needle hay'
  end.

(** [name.startswith('.')] *)
Definition startswith_dot (name : string) : bool :=
  match name with
  | String c _ => Ascii.eqb c "."%char
  | EmptyString => false
  end.

(** ** Paths

    A path is the list of its components from the root; [main] hands the
    drivers absolute, normalised paths ([os.path.abspath]), on which
    [abspath] is the identity. *)

Definition path : Type := list string.

Definition os_path_join (a b : path) : path := a ++ b.

Definition os_path_basename (p : path) : string := List.last p EmptyString.

Definition os_path_dirname (p : path) : path := removelast p.

Definition os_path_abspath (p : path) : path := p.

(** [os.path.relpath(p, start)]: drop the common prefix, climb out of what
    is left of [start]. *)
Fixpoint os_path_relpath (p start : path) : path :=
  match p, start with
  | x :: p', y :: start' =>
      if String.eqb x y then os_path_relpath p' start'
      else repeat ".."%string (length start) ++ p
  | [], [] => ["."%string]
  | _, _ => repeat ".."%string (length start) ++ p
  end.

(** ** Manifests and file contents *)

(** [archive_dict], the record [run_archive] returns and dumps as the JSON
    sidecar.  [Timestamp] is the clock reading that [strftime] formats. *)
Record manifest : Type := {
  Id : string;
  Timestamp : Z;
  Location : string;
  Filename : string;
  LocalPath : path;
  ArchivePath : string;
  Files : list path;
  Sizes : list Z;
  MD5Sums : list string;
  TarballMD5sum : string;
  Username : string
}.

(** A member of a tar container, as [tarfile] reports it. *)
Record tarinfo (B : Type) : Type := {
  ti_name : path;
  ti_isfile : bool;
  ti_size : Z;
  ti_data : B
}.

Arguments ti_name {B} _.
Arguments ti_isfile {B} _.
Arguments ti_size {B} _.
Arguments ti_data {B} _.

(** What a file holds.  A gzip-compressed tar container and a JSON sidecar
    are kept in parsed form (what [tarfile.open] and [json.load] read from
    them); any other content is raw bytes, on which both readers fail. *)
Inductive blob : Type :=
| Raw (bs : list Byte.byte)
| Json (m : manifest)
| TarGz (ms : list (tarinfo blob)).

(** A regular file: what [stat] reports and what reading it gives. *)
Record file : Type := {
  f_size : Z;
  f_ctime : Z;
  f_data : blob
}.

(** The local file system: a tree whose directories list their entries in
    the order [os.scandir] yields them. *)
Inductive node : Type :=
| File (f : file)
| Dir (es : list (string * node)).

Definition is_dir_node (n : node) : bool :=
  match n with Dir _ => true | File _ => false end.

Fixpoint assoc (x : string) (es : list (string * node)) : option node :=
  match es with
  | [] => None
  | (y, c) :: es' => if String.eqb x y then Some c else assoc x es'
  end.

Fixpoint fs_lookup (p : path) (n : node) : option node :=
  match p with
  | [] => Some n
  | x :: q =>
      match n with
      | Dir es =>
          match assoc x es with
          | Some c => fs_lookup q c
          | None => None
          end
      | File _ => None
      end
  end.

(** Apply [g] to the entries named [x]. *)
Definition alter_entry (x : string) (g : node -> node)
    (es : list (string * node)) : list (string * node) :=
  map (fun e => if String.eqb x (fst e) then (fst e, g (snd e)) else e) es.

(** Apply [g] to the node at [p], if there is one. *)
Fixpoint alter_at (g : node -> node) (p : path) (n : node) : node :=
  match p with
  | [] => g n
  | x :: q =>
      match n with
      | Dir es => Dir (alter_entry x (alter_at g q) es)
      | File _ => n
      end
  end.

(** Unlink the name [x] in a directory. *)
Definition dir_remove (x : string) (n : node) : node :=
  match n with
  | Dir es => Dir (List.filter (fun e => negb (String.eqb x (fst e))) es)
  | File _ => n
  end.

(** Bind the name [x] to [c] in a directory: in place when the name is
    there, as a new last entry otherwise. *)
Definition dir_put (x : string) (c : node) (n : node) : node :=
  match n with
  | Dir es =>
      match assoc x es with
      | Some _ => Dir (alter_entry x (fun _ => c) es)
      | None => Dir (es ++ [(x, c)])
      end
  | File _ => n
  end.

(** No directory lists a name twice. *)
Fixpoint wf_node (n : node) : Prop :=
  match n with
  | File _ => True
  | Dir es =>
      List.NoDup (map fst es) /\
      (fix all (l : list (string * node)) : Prop :=
         match l with
         | [] => True
         | e :: l' => wf_node (snd e) /\ all l'
         end) es
  end.

(** [os.walk(top)]: a triple (directory, its subdirectory names, its other
    names) per directory, each directory before its subdirectories.  A
    [top] that is no directory yields nothing. *)
Definition dirnames (es : list (string * node)) : list string :=
  map fst (List.filter (fun e => is_dir_node (snd e)) es).

Definition filenames (es : list (string * node)) : list string :=
  map fst (List.filter (fun e => negb (is_dir_node (snd e))) es).

Fixpoint walk_topdown (root : path) (n : node)
    : list (path * list string * list string) :=
  match n with
  | File _ => []
  | Dir es =>
      (root, dirnames es, filenames es)
        :: flat_map (fun e => walk_topdown (root ++ [fst e]) (snd e)) es
  end.

(** [os.walk(top, topdown=False)]: each directory after its
    subdirectories. *)
Fixpoint walk_bottomup (root : path) (n : node)
    : list (path * list string * list string) :=
  match n with
  | File _ => []
  | Dir es =>
      flat_map (fun e => walk_bottomup (root ++ [fst e]) (snd e)) es
        ++ [(root, dirnames es, filenames es)]
  end.

(** ** The world the program runs in *)

(** An object of the bucket, as [head_object] describes it.  [o_restore]
    lists the values of the [Restore] field that successive [head_object]
    calls will read, in order; the last one stays for good, and an empty
    list means the field is absent. *)
Record s3object : Type := {
  o_size : Z;
  o_data : blob;
  o_class : option string;
  o_restore : list (option string)
}.

(** The calls made to the outside: the S3 client, the Globus command line
    and [time.sleep]. *)
Inductive call : Type :=
| HeadBucket (bucket : string)
| HeadObject (bucket key : string)
| UploadFile (bucket key storage_class : string)
| DownloadFile (bucket key : string) (dest : path)
| RestoreObject (bucket key : string) (days : Z) (tier : string)
| GlobusLs (where_ : string)
| GlobusMkdir (where_ : string)
| GlobusTransfer (source : path) (dest where_ : string)
| GlobusTaskWait (task : string)
| GlobusTaskShow (task : string)
| Sleep (seconds : Z).

Record world : Type := {
  w_fs : node;
  (** bucket, then key *)
  w_s3 : gmap string (gmap string s3object);
  (** the Globus endpoint: directory locator ([endpoint:path]), then name *)
  w_globus : gmap string (gmap string file);
  (** the task id the next [globus transfer] prints, [None] when the
      command fails; and the status its task ends with *)
  w_globus_task : option string;
  w_globus_status : string;
  (** the draws [random] will make *)
  w_rng : list nat;
  w_clock : Z;
  (** the outside calls made so far, oldest first *)
  w_calls : list call
}.

Definition set_fs (g : node -> node) (w : world) : world :=
  {| w_fs := g (w_fs w); w_s3 := w_s3 w; w_globus := w_globus w;
     w_globus_task := w_globus_task w; w_globus_status := w_globus_status w;
     w_rng := w_rng w; w_clock := w_clock w; w_calls := w_calls w |}.

Definition set_s3 (g : gmap string (gmap string s3object) ->
                       gmap string (gmap string s3object))
    (w : world) : world :=
  {| w_fs := w_fs w; w_s3 := g (w_s3 w); w_globus := w_globus w;
     w_globus_task := w_globus_task w; w_globus_status := w_globus_status w;
     w_rng := w_rng w; w_clock := w_clock w; w_calls := w_calls w |}.

Definition set_globus (g : gmap string (gmap string file) ->
                           gmap string (gmap string file))
    (w : world) : world :=
  {| w_fs := w_fs w; w_s3 := w_s3 w; w_globus := g (w_globus w);
     w_globus_task := w_globus_task w; w_globus_status := w_globus_status w;
     w_rng := w_rng w; w_clock := w_clock w; w_calls := w_calls w |}.

Definition set_rng (g : list nat -> list nat) (w : world) : world :=
  {| w_fs := w_fs w; w_s3 := w_s3 w; w_globus := w_globus w;
     w_globus_task := w_globus_task w; w_globus_status := w_globus_status w;
     w_rng := g (w_rng w); w_clock := w_clock w; w_calls := w_calls w |}.

Definition set_clock (g : Z -> Z) (w : world) : world :=
  {| w_fs := w_fs w; w_s3 := w_s3 w; w_globus := w_globus w;
     w_globus_task := w_globus_task w; w_globus_status := w_globus_status w;
     w_rng := w_rng w; w_clock := g (w_clock w); w_calls := w_calls w |}.

Definition log_call (c : call) (w : world) : world :=
  {| w_fs := w_fs w; w_s3 := w_s3 w; w_globus := w_globus w;
     w_globus_task := w_globus_task w; w_globus_status := w_globus_status w;
     w_rng := w_rng w; w_clock := w_clock w; w_calls := w_calls w ++ [c] |}.

(** ** The monad *)

(** How a computation ends: with a value, with a failure, or never
    ([Hang]: a polling loop whose backend keeps reporting the same ongoing
    status for good). *)
Inductive outcome (A : Type) : Type :=
| Done (a : A)
| Fail (e : failure)
| Hang.

Arguments Done {A} a.
Arguments Fail {A} e.
Arguments Hang {A}.

Definition M (A : Type) : Type := world -> outcome A * world.

Definition ret {A : Type} (a : A) : M A := fun w => (Done a, w).

Definition bind {A B : Type} (c : M A) (k : A -> M B) : M B :=
  fun w =>
    match c w with
    | (Done a, w') => k a w'
    | (Fail e, w') => (Fail e, w')
    | (Hang, w') => (Hang, w')
    end.

Notation "x <- c1 ;; c2" := (bind c1 (fun x => c2))
  (at level 20, c1 at level 99, c2 at level 200, only parsing).
Notation "c1 ;; c2" := (bind c1 (fun _ => c2))
  (at level 100, c2 at level 200, only parsing).

Definition raise {A : Type} (e : pyexc) : M A := fun w => (Fail (Raised e), w).

Definition sys_exit {A : Type} (code : Z) : M A :=
  fun w => (Fail (SysExit code), w).

Definition hang {A : Type} : M A := fun w => (Hang, w).

Definition get_world : M world := fun w => (Done w, w).

Definition modify (g : world -> world) : M unit := fun w => (Done tt, g w).

(** [try: c  except Exception: h] -- [SystemExit] is no [Exception] and
    passes through. *)
Definition try_except {A : Type} (c : M A) (h : pyexc -> M A) : M A :=
  fun w =>
    match c w with
    | (Fail (Raised e), w') => h e w'
    | r => r
    end.

(** [for x in l: body] *)
Fixpoint for_ {A : Type} (l : list A) (body : A -> M unit) : M unit :=
  match l with
  | [] => ret tt
  | x :: l' => body x ;; for_ l' body
  end.

(** [for x in l: s = body(x, s)], for loops that build up local lists. *)
Fixpoint for_acc {A S : Type} (l : list A) (body : A -> S -> M S) (s : S)
    : M S :=
  match l with
  | [] => ret s
  | x :: l' => s' <- body x s ;; for_acc l' body s'
  end.

(** [l[i]] *)
Definition py_index {A : Type} (l : list A) (i : nat) : M A :=
  match nth_error l i with
  | Some a => ret a
  | None => raise IndexError
  end.

(** Reading a local name: [UnboundLocalError] before its first
    assignment. *)
Definition py_local {A : Type} (v : option A) : M A :=
  match v with
  | Some a => ret a
  | None => raise UnboundLocalError
  end.

(** ** The [os] module on the model *)

Definition os_path_isfile (p : path) : M bool :=
  w <- get_world ;;
  ret (match fs_lookup p (w_fs w) with Some (File _) => true | _ => false end).

Definition os_path_isdir (p : path) : M bool :=
  w <- get_world ;;
  ret (match fs_lookup p (w_fs w) with Some (Dir _) => true | _ => false end).

(** Directories carry neither a size nor a creation time in the model:
    both are given as 0.  The program asks for the size of regular files
    only; it asks for the creation time of whatever bears the name of a
    sidecar, so what is proved of [run_restore] is proved of directories
    in which those are regular files. *)
Definition os_path_getsize (p : path) : M Z :=
  w <- get_world ;;
  match fs_lookup p (w_fs w) with
  | Some (File f) => ret (f_size f)
  | Some (Dir _) => ret 0
  | None => raise FileNotFoundError
  end.

Definition os_path_getctime (p : path) : M Z :=
  w <- get_world ;;
  match fs_lookup p (w_fs w) with
  | Some (File f) => ret (f_ctime f)
  | Some (Dir _) => ret 0
  | None => raise FileNotFoundError
  end.

Definition os_listdir (p : path) : M (list string) :=
  w <- get_world ;;
  match fs_lookup p (w_fs w) with
  | Some (Dir es) => ret (map fst es)
  | Some (File _) => raise NotADirectoryError
  | None => raise FileNotFoundError
  end.

Definition os_remove (p : path) : M unit :=
  w <- get_world ;;
  match fs_lookup p (w_fs w) with
  | Some (File _) =>
      match p with
      | [] => raise OSError
      | _ => modify (set_fs (alter_at (dir_remove (os_path_basename p))
                                      (os_path_dirname p)))
      end
  | Some (Dir _) => raise IsADirectoryError
  | None => raise FileNotFoundError
  end.

Definition os_rmdir (p : path) : M unit :=
  w <- get_world ;;
  match fs_lookup p (w_fs w) with
  | Some (Dir []) =>
      match p with
      | [] => raise OSError
      | _ => modify (set_fs (alter_at (dir_remove (os_path_basename p))
                                      (os_path_dirname p)))
      end
  | Some (Dir _) => raise OSError
  | Some (File _) => raise NotADirectoryError
  | None => raise FileNotFoundError
  end.

(** [open(p, 'rb')] and reading it all. *)
Definition read_file (p : path) : M file :=
  w <- get_world ;;
  match fs_lookup p (w_fs w) with
  | Some (File f) => ret f
  | Some (Dir _) => raise IsADirectoryError
  | None => raise FileNotFoundError
  end.

(** [open(p, 'w')], writing [data] and closing: the file is created or
    replaced, stamped with the clock. *)
Definition write_file (p : path) (size : Z) (data : blob) : M unit :=
  w <- get_world ;;
  match fs_lookup p (w_fs w) with
  | Some (Dir _) => raise IsADirectoryError
  | _ =>
      match p, fs_lookup (os_path_dirname p) (w_fs w) with
      | _ :: _, Some (Dir _) =>
          modify (set_fs (alter_at
            (dir_put (os_path_basename p)
               (File {| f_size := size; f_ctime := w_clock w;
                        f_data := data |}))
            (os_path_dirname p)))
      | _ :: _, Some (File _) => raise NotADirectoryError
      | _, _ => raise FileNotFoundError
      end
  end.

(** [glob.glob(os.path.join(d, pattern))] for a pattern with no separator:
    the entries of the directory [d] whose name matches, in listing order
    (none when [d] is no directory).  The components of [d] are read as
    plain names.  This is what [glob.glob] does on a [plain_path]; in a
    path that holds one of the characters [*], [?] and [[] it reads those
    as a pattern too, which is not followed here. *)
Definition glob_glob (d : path) (pattern : Re.regex) : M (list path) :=
  w <- get_world ;;
  match fs_lookup d (w_fs w) with
  | Some (Dir es) =>
      ret (map (fun x => os_path_join d [x])
               (List.filter (Re.fnmatch pattern) (map fst es)))
  | _ => ret []
  end.

(** [glob.has_magic]: one of the characters [*], [?] and [[] occurs. *)
Definition has_magic (s : string) : bool :=
  existsb (fun c => Ascii.eqb c "*" || Ascii.eqb c "?" || Ascii.eqb c "[")%char
          (list_ascii_of_string s).

(** No component of the path holds a pattern character. *)
Definition plain_path (p : path) : bool :=
  forallb (fun x => negb (has_magic x)) p.

(** [os.walk] reads the directories as it goes; the loops below change
    nothing in a directory before the walk has listed it, so the walk of
    the tree as it stands when the loop starts is what they see. *)
Definition os_walk (top : path) : M (list (path * list string * list string)) :=
  w <- get_world ;;
  match fs_lookup top (w_fs w) with
  | Some n => ret (walk_topdown top n)
  | None => ret []
  end.

Definition os_walk_bottomup (top : path)
    : M (list (path * list string * list string)) :=
  w <- get_world ;;
  match fs_lookup top (w_fs w) with
  | Some n => ret (walk_bottomup top n)
  | None => ret []
  end.

Definition time_time : M Z := w <- get_world ;; ret (w_clock w).

Definition time_sleep (seconds : Z) : M unit :=
  modify (fun w => set_clock (Z.add seconds) (log_call (Sleep seconds) w)).

(** [random.choices(population, k=k)]: one character per draw. *)
Definition choice (population : string) (draw : nat) : ascii :=
  match String.get (draw mod String.length population) population with
  | Some c => c
  | None => "000"%char
  end.

(** [''.join(random.choices(population, k=k))] *)
Definition random_choices (population : string) (k : nat) : M string :=
  w <- get_world ;;
  let draws := firstn k (w_rng w ++ repeat 0%nat k) in
  modify (set_rng (skipn k)) ;;
  ret (string_of_list_ascii (map (choice population) draws)).

(** ** The S3 client and the Globus command line *)

Definition s3_object (bucket key : string) (w : world) : option s3object :=
  match w_s3 w !! bucket with
  | Some objs => objs !! key
  | None => None
  end.

(** One reading of the [Restore] field is used up, unless it is the last. *)
Definition pop_restore (o : s3object) : s3object :=
  {| o_size := o_size o; o_data := o_data o; o_class := o_class o;
     o_restore := match o_restore o with
                  | _ :: (_ :: _) as rest => rest
                  | l => l
                  end |}.

Definition head_bucket (bucket : string) : M unit :=
  modify (log_call (HeadBucket bucket)) ;;
  w <- get_world ;;
  match w_s3 w !! bucket with
  | Some _ => ret tt
  | None => raise (ClientError "404")
  end.

(** The [StorageClass] and [Restore] fields of the response. *)
Definition head_object (bucket key : string)
    : M (option string * option string) :=
  modify (log_call (HeadObject bucket key)) ;;
  w <- get_world ;;
  match s3_object bucket key w with
  | Some o =>
      modify (set_s3 (alter (alter pop_restore key) bucket)) ;;
      ret (o_class o, hd None (o_restore o))
  | None => raise (ClientError "404")
  end.

(** [s3.upload_file] with a storage class that S3 takes: the object is
    stored under [key] in that class.  What S3 answers to a class it does
    not know is not followed here, nor that [head_object] leaves the class
    of a [STANDARD] object out of its response. *)
Definition upload_file (tarball_path : path) (bucket key storage_class : string)
    : M unit :=
  f <- read_file tarball_path ;;
  modify (log_call (UploadFile bucket key storage_class)) ;;
  w <- get_world ;;
  match w_s3 w !! bucket with
  | Some _ =>
      modify (set_s3 (alter (insert key
        {| o_size := f_size f; o_data := f_data f;
           o_class := Some storage_class; o_restore := [] |}) bucket))
  | None => raise (ClientError "NoSuchBucket")
  end.

(** [s3.download_file] of an object that can be read: one in a class
    that is read at once, or one whose restore is over. *)
Definition download_file (bucket key : string) (download_path : path)
    : M unit :=
  modify (log_call (DownloadFile bucket key download_path)) ;;
  w <- get_world ;;
  match s3_object bucket key w with
  | Some o => write_file download_path (o_size o) (o_data o)
  | None => raise (ClientError "404")
  end.

Definition restore_object (bucket key : string) (days : Z) (tier : string)
    : M unit :=
  modify (log_call (RestoreObject bucket key days tier)) ;;
  w <- get_world ;;
  match s3_object bucket key w with
  | Some _ => ret tt
  | None => raise (ClientError "NoSuchKey")
  end.

(** [f"{endpoint_id}:{directory_path}"] *)
Definition globus_locator (endpoint_id directory_path : string) : string :=
  endpoint_id +:+ ":" +:+ directory_path.

(** [globus ls]: [check_output] returns when the directory is there and
    raises [CalledProcessError] otherwise. *)
Definition globus_ls (where_ : string) : M bool :=
  modify (log_call (GlobusLs where_)) ;;
  w <- get_world ;;
  ret (match w_globus w !! where_ with Some _ => true | None => false end).

Definition globus_mkdir (where_ : string) : M bool :=
  modify (log_call (GlobusMkdir where_)) ;;
  w <- get_world ;;
  match w_globus w !! where_ with
  | Some _ => ret false
  | None => modify (set_globus (insert where_ ∅)) ;; ret true
  end.

(** [globus transfer]: prints the task id, or fails.  A task that ends
    [SUCCEEDED] has put the file in the destination directory. *)
Definition globus_transfer (source : path) (dest_dir name : string)
    : M (option string) :=
  modify (log_call (GlobusTransfer source dest_dir name)) ;;
  w <- get_world ;;
  match w_globus_task w with
  | None => ret None
  | Some task =>
      (if String.eqb (w_globus_status w) "SUCCEEDED" then
         match fs_lookup source (w_fs w) with
         | Some (File f) =>
             modify (set_globus (fun g =>
               <[dest_dir := <[name := f]> (default ∅ (g !! dest_dir))]> g))
         | _ => ret tt
         end
       else ret tt) ;;
      ret (Some task)
  end.

Definition globus_task_wait (task : string) : M unit :=
  modify (log_call (GlobusTaskWait task)).

(** The [status] field of [globus task show]. *)
Definition globus_task_show (task : string) : M string :=
  modify (log_call (GlobusTaskShow task)) ;;
  w <- get_world ;;
  ret (w_globus_status w).

(** ** The program *)

(** The keys of [config] the drivers read. *)
Record config : Type := {
  mode : string;
  username : string;
  s3_region : string;
  storage_class : string;
  globus_endpoint : string;
  ris_archive_path : string
}.

(** A row of the data frame [fileDf]: columns [file], [size], [md5sum]. *)
Record row : Type := {
  df_file : path;
  df_size : Z;
  df_md5sum : string
}.

Fixpoint zip_rows (files : list path) (sizes : list Z) (md5sums : list string)
    : list row :=
  match files, sizes, md5sums with
  | f :: files', s :: sizes', h :: md5sums' =>
      {| df_file := f; df_size := s; df_md5sum := h |}
        :: zip_rows files' sizes' md5sums'
  | _, _, _ => []
  end.

(** [pd.DataFrame({'file': files, 'size': filesizes, 'md5sum': fileMd5sums})]:
    pandas refuses columns of different lengths. *)
Definition pd_DataFrame (files : list path) (sizes : list Z)
    (md5sums : list string) : M (list row) :=
  if ((length files =? length sizes)%nat
      && (length sizes =? length md5sums)%nat)%bool
  then ret (zip_rows files sizes md5sums)
  else raise ValueError.

(** A sum of 64-bit signed integers as numpy leaves it: the low 64 bits,
    read as a signed number. *)
Definition wrap_int64 (z : Z) : Z := (z + 2 ^ 63) mod 2 ^ 64 - 2 ^ 63.

(** [fileDf['size'].sum()]: the sizes are a column of 64-bit integers, and
    the sum of the column wraps round at 2^63. *)
Definition size_sum (df : list row) : Z :=
  wrap_int64 (fold_right Z.add 0 (map df_size df)).

(** What a function argument can be, as far as the program tells. *)
Inductive pyobj : Type :=
| PyNone
| PyStr (s : string)
| PyList (l : list string).

(** [os.path.basename] wants one path; a list is a [TypeError]. *)
Definition os_path_basename_of (a : path + list path) : M string :=
  match a with
  | inl p => ret (os_path_basename p)
  | inr _ => raise TypeError
  end.

(** [needle in status]: [None] is not iterable. *)
Definition py_in (needle : string) (status : option string) : M bool :=
  match status with
  | Some s => ret (str_contains needle s)
  | None => raise TypeError
  end.

(** [r'dhslabarchive.\S+.tar.gz'] and [r'dhslabarchive.\S+.json'], as
    [get_files] writes them: every [.] is the wildcard. *)
Definition tarball_re : Re.regex :=
  Re.Seq [Re.Lit "dhslabarchive"; Re.Cls Re.dot; Re.Plus (Re.Cls Re.nonspace);
          Re.Cls Re.dot; Re.Lit "tar"; Re.Cls Re.dot; Re.Lit "gz"].

Definition json_re : Re.regex :=
  Re.Seq [Re.Lit "dhslabarchive"; Re.Cls Re.dot; Re.Plus (Re.Cls Re.nonspace);
          Re.Cls Re.dot; Re.Lit "json"].

(** The glob pattern ['dhslabarchive.*.json'], as [fnmatch] translates it:
    the dots are literal, [*] is any run of characters. *)
Definition sidecar_glob : Re.regex :=
  Re.Seq [Re.Lit "dhslabarchive."; Re.Star (Re.Cls Re.any_char);
          Re.Lit ".json"].

(** [f'dhslabarchive.{unique_id}.tar.gz'], [f'dhslabarchive.{unique_id}.json'] *)
Definition tarball_name (unique_id : string) : string :=
  "dhslabarchive." +:+ unique_id +:+ ".tar.gz".

Definition sidecar_name (unique_id : string) : string :=
  "dhslabarchive." +:+ unique_id +:+ ".json".

(** [string.ascii_letters + string.digits] *)
Definition alphabet : string :=
  "abcdefghijklmnopqrstuvwxyzABCDEFGHIJKLMNOPQRSTUVWXYZ0123456789".

(** The marker ['ongoing-request="false"'] of a finished restore. *)
Definition ongoing_false : string :=
  "ongoing-request=" +:+ String "034"%char "false" +:+ String "034"%char "".

(** The length of a file the program writes is not modelled beyond its
    being positive: a gzip stream has a header and a trailer, a JSON
    object its braces. *)
Definition targz_size (ms : list (tarinfo blob)) : Z :=
  20 + Z.of_nat (length ms).

Definition json_size (m : manifest) : Z := 2 + Z.of_nat (length (Files m)).

Section Slarchive.

(** [hashlib.md5(data).hexdigest()] *)
Variable md5 : blob -> string.

(** The whole file is mapped and hashed; [mmap] refuses an empty file. *)
Definition calculate_file_md5sum (file_path : path) : M string :=
  f <- read_file file_path ;;
  if f_size f =? 0 then raise ValueError
  else ret (md5 (f_data f)).

(** Is the name one of the program's own artifacts? *)
Definition own_artifact (name : string) : bool :=
  Re.re_match tarball_re name || Re.re_match json_re name.

Definition get_files (filepath : path) : M (list row) :=
  isfile <- os_path_isfile filepath ;;
  if isfile then
    (* single file: no fingerprint is taken on this branch *)
    size <- os_path_getsize filepath ;;
    pd_DataFrame [filepath] [size] []
  else
    isdir <- os_path_isdir filepath ;;
    if isdir then
      (* first, gather all files except those that match the pattern *)
      triples <- os_walk filepath ;;
      let all_files :=
        flat_map (fun t : path * list string * list string =>
                    map (fun name => os_path_join (fst (fst t)) [name])
                        (List.filter (fun name => negb (own_artifact name)) (snd t)))
                 triples in
      (* now, process each file *)
      cols <- for_acc all_files
        (fun fullpath (acc : list path * list Z * list string) =>
           let '(files, filesizes, fileMd5sums) := acc in
           let files := files ++ [os_path_relpath fullpath filepath] in
           size <- os_path_getsize fullpath ;;
           let filesizes := filesizes ++ [size] in
           h <- calculate_file_md5sum fullpath ;;
           let fileMd5sums := fileMd5sums ++ [h] in
           ret (files, filesizes, fileMd5sums))
        ([], [], []) ;;
      let '(files, filesizes, fileMd5sums) := cols in
      pd_DataFrame files filesizes fileMd5sums
    else sys_exit 1.

(** The member is read in chunks of 256 KB into one digest. *)
Definition calculate_obj_md5sum (file_obj : blob) : string := md5 file_obj.

(** [tarfile.open(tarball_name, 'r:gz')] *)
Definition tarfile_open (tarball_name : path) : M (list (tarinfo blob)) :=
  f <- read_file tarball_name ;;
  match f_data f with
  | TarGz ms => ret ms
  | _ => raise ReadError
  end.

Definition get_tarball_md5sums (tarball_name : path) : M (list row) :=
  members <- tarfile_open tarball_name ;;
  ret (map (fun member =>
              {| df_file := ti_name member;
                 df_size := ti_size member;
                 df_md5sum := calculate_obj_md5sum (ti_data member) |})
           (List.filter (fun member => ti_isfile member) members)).

(** The container is opened for writing (created or truncated), then
    each file is added under its relative name.  Every file of the tree is
    a file of its own: a second name of one file (a hard link), which
    [tarfile] stores as a link and not as a regular member, has no place
    in the tree. *)
Definition create_tarball (files : list path) (tarball_path : path) : M unit :=
  let directory := os_path_dirname tarball_path in
  write_file tarball_path (targz_size []) (TarGz []) ;;
  for_acc files
    (fun file_path (members : list (tarinfo blob)) =>
       f <- read_file (os_path_join directory file_path) ;;
       let members :=
         members ++ [{| ti_name := file_path; ti_isfile := true;
                        ti_size := f_size f; ti_data := f_data f |}] in
       write_file tarball_path (targz_size members) (TarGz members) ;;
       ret members)
    [] ;;
  ret tt.

Definition test_tarball_integrity (tarball_path : path) (md5sums : pyobj)
    : M bool :=
  match md5sums with
  | PyList md5sums =>
      tarball_md5sums <- get_tarball_md5sums tarball_path ;;
      if bool_decide ((list_to_set (map df_md5sum tarball_md5sums) : gset string)
                      = list_to_set md5sums)
      then ret true
      else ret false
  | _ => ret false
  end.

(** A [ClientError] other than 404 ends the program. *)
Definition check_s3_bucket (bucket_name : string) : M bool :=
  try_except (head_bucket bucket_name ;; ret true)
    (fun e => match e with
              | ClientError code =>
                  if String.eqb code "404" then ret false else sys_exit 1
              | _ => raise e
              end).

Definition check_s3_object (bucket_name object_name : string) : M bool :=
  try_except (head_object bucket_name object_name ;; ret true)
    (fun e => match e with
              | ClientError code =>
                  if String.eqb code "404" then ret false else sys_exit 1
              | _ => raise e
              end).

(** [response['StorageClass']]: a [KeyError] when the field is absent. *)
Definition check_storage_class (bucket_name object_name region : string)
    : M string :=
  response <- head_object bucket_name object_name ;;
  match fst response with
  | Some storage_class => ret storage_class
  | None => raise KeyError
  end.

(** Returns [None] (the object is there already), [True] or [False]. *)
Definition transfer_to_s3 (bucket region : string) (tarball_path : path)
    (overwrite : bool) (storage_class : string) : M (option bool) :=
  bucket_ok <- check_s3_bucket bucket ;;
  if negb bucket_ok then sys_exit 1
  else
    there <- check_s3_object bucket (os_path_basename tarball_path) ;;
    if there && negb overwrite then ret None
    else
      (* the progress bar asks for the size of the file *)
      os_path_getsize tarball_path ;;
      try_except
        (upload_file tarball_path bucket (os_path_basename tarball_path)
                     storage_class ;;
         ret (Some true))
        (fun e => match e with
                  | ClientError _ => ret (Some false)
                  | _ => raise e
                  end).

Definition globus_create_directory (endpoint_id directory_path : string)
    : M bool :=
  globus_mkdir (globus_locator endpoint_id directory_path).

Definition globus_path_exists (endpoint_id directory_path : string) : M bool :=
  globus_ls (globus_locator endpoint_id directory_path).

(** The source is the local [file_path] under the same endpoint. *)
Definition initiate_globus_transfer (endpoint_id : string) (file_path : path)
    (destination_path : string) : M string :=
  r <- globus_transfer file_path
         (globus_locator endpoint_id destination_path)
         (os_path_basename file_path) ;;
  match r with
  | Some task_id => ret task_id
  | None => sys_exit 1
  end.

Definition globus_transfer_to_archive (file_path : path)
    (endpoint_id destination_path : string) : M unit :=
  there <- globus_path_exists endpoint_id destination_path ;;
  (if negb there
   then globus_create_directory endpoint_id destination_path ;; ret tt
   else ret tt) ;;
  task_id <- initiate_globus_transfer endpoint_id file_path destination_path ;;
  globus_task_wait task_id ;;
  status <- globus_task_show task_id ;;
  if negb (String.eqb status "SUCCEEDED") then sys_exit 1
  else ret tt.

Definition initiate_deep_archive_restore (bucket_name object_key : string)
    (days : Z) (tier region : string) : M unit :=
  try_except (restore_object bucket_name object_key days tier)
    (fun e => match e with
              | ClientError _ => sys_exit 1
              | _ => raise e
              end).

(** [response.get('Restore')] *)
Definition check_restore_status (bucket_name object_key region : string)
    : M (option string) :=
  response <- try_except (head_object bucket_name object_key)
                (fun e => match e with
                          | ClientError _ => sys_exit 1
                          | _ => raise e
                          end) ;;
  ret (snd response).

(** The body of [while True:] in [wait_for_restore].  [rounds] counts the
    readings of the status that can still differ from the one before. *)
Fixpoint wait_loop (rounds : nat) (bucket_name object_key region : string)
    (poll_interval : Z) : M unit :=
  status <- check_restore_status bucket_name object_key region ;;
  match status with
  | Some (String _ _ as status) =>
      if str_contains ongoing_false status then ret tt
      else
        time_sleep poll_interval ;;
        match rounds with
        | O => hang
        | S rounds' =>
            wait_loop rounds' bucket_name object_key region poll_interval
        end
  | _ => sys_exit 1
  end.

(** The loop polls until the status says the restore is over.  Once the
    backend's last status is reached and still says ongoing, every later
    reading is the same, and the loop never ends. *)
Definition wait_for_restore (bucket_name object_key region : string)
    (poll_interval : Z) : M unit :=
  w <- get_world ;;
  wait_loop (match s3_object bucket_name object_key w with
             | Some o => length (o_restore o)
             | None => O
             end)
            bucket_name object_key region poll_interval.

Definition download_s3_object (bucket_name object_key : string)
    (download_path : path) (region : string) : M unit :=
  try_except (download_file bucket_name object_key download_path)
    (fun e => match e with
              | ClientError _ => sys_exit 1
              | _ => raise e
              end).

(** [if tarball:] -- the flag, or the path that the overwrite branch
    would put in its place. *)
Definition truthy (tarball : bool + path) : bool :=
  match tarball with
  | inl b => b
  | inr p => negb (bool_decide (p = []))
  end.

Definition run_archive (config : config) (filepath : path)
    (archivepath : string) (tarball force overwrite keep : bool)
    : M manifest :=
  ts <- time_time ;;
  (* check if there is a file in the directory that matches
     dhslabarchive.*.json *)
  existing_json <- glob_glob filepath sidecar_glob ;;
  tarball <-
    (match existing_json with
     | _ :: _ =>
         if negb force && negb overwrite then sys_exit 1
         else if overwrite then
           name <- os_path_basename_of (inr existing_json) ;;
           unique_id <- py_index (split_dot name) 1 ;;
           ret (inr (os_path_join filepath [tarball_name unique_id]))
         else ret (inl tarball)
     | [] => ret (inl tarball)
     end) ;;
  prepared <-
    (if truthy tarball then
       let tarball := os_path_abspath filepath in
       let filepath := os_path_dirname filepath in
       unique_id <- py_index (split_dot (os_path_basename tarball)) 1 ;;
       fileDf <- get_tarball_md5sums tarball ;;
       ret (unique_id, tarball, filepath, fileDf)
     else
       unique_id <- random_choices alphabet 20 ;;
       let tarball := os_path_join filepath [tarball_name unique_id] in
       let filepath := os_path_abspath filepath in
       fileDf <- get_files filepath ;;
       if (length fileDf =? 0)%nat then sys_exit 1
       else if size_sum fileDf >? 2000000000000 then sys_exit 1
       else
         create_tarball (map df_file fileDf) tarball ;;
         ret (unique_id, tarball, filepath, fileDf)) ;;
  let '(unique_id, tarball, filepath, fileDf) := prepared in
  tarball_md5sum <- calculate_file_md5sum tarball ;;
  intact <- test_tarball_integrity tarball (PyList (map df_md5sum fileDf)) ;;
  if negb intact then
    (if negb keep then os_remove tarball else ret tt) ;;
    sys_exit 1
  else
    let archive_dict :=
      {| Id := unique_id;
         Timestamp := ts;
         Location := mode config;
         Filename := os_path_basename tarball;
         LocalPath := filepath;
         ArchivePath := archivepath;
         Files := map df_file fileDf;
         Sizes := map df_size fileDf;
         MD5Sums := map df_md5sum fileDf;
         TarballMD5sum := tarball_md5sum;
         Username := username config |} in
    if String.eqb (mode config) "dry-run" then ret archive_dict
    else
      (if String.eqb (mode config) "glacier" then
         try_except
           (transfer_to_s3 archivepath (s3_region config) tarball false
                           (storage_class config) ;;
            os_remove tarball)
           (fun _ => sys_exit 1)
       else if String.eqb (mode config) "ris_archive" then
         try_except
           (globus_transfer_to_archive tarball (globus_endpoint config)
                                       (ris_archive_path config) ;;
            os_remove tarball)
           (fun _ => sys_exit 1)
       else ret tt) ;;
      (* if not keep, delete all the files *)
      (if negb keep then
         for_ (map df_file fileDf)
           (fun file =>
              let fullpath := os_path_join filepath file in
              isfile <- os_path_isfile fullpath ;;
              if isfile then os_remove fullpath else ret tt) ;;
         (* walk through the directories and remove them if they are empty *)
         triples <- os_walk_bottomup filepath ;;
         for_ triples
           (fun t : path * list string * list string =>
              let root := fst (fst t) in
              let dirs := List.filter (fun d => negb (startswith_dot d))
                                 (snd (fst t)) in
              for_ dirs
                (fun dir =>
                   listing <- os_listdir (os_path_join root [dir]) ;;
                   match listing with
                   | [] => os_rmdir (os_path_join root [dir])
                   | _ => ret tt
                   end))
       else ret tt) ;;
      (* write the JSON file *)
      let json_file := os_path_join filepath [sidecar_name unique_id] in
      write_file json_file (json_size archive_dict) (Json archive_dict) ;;
      ret archive_dict.

(** [json.load(open(p))] *)
Definition json_load (p : path) : M manifest :=
  f <- read_file p ;;
  match f_data f with
  | Json m => ret m
  | _ => raise JSONDecodeError
  end.

(** [max(paths, key=os.path.getctime)]: the first path of the latest
    creation time; [ValueError] on an empty list. *)
Definition max_by_getctime (paths : list path) : M path :=
  match paths with
  | [] => raise ValueError
  | p :: paths' =>
      t <- os_path_getctime p ;;
      best <- for_acc paths'
        (fun q (best : path * Z) =>
           tq <- os_path_getctime q ;;
           if tq >? snd best then ret (q, tq) else ret best)
        (p, t) ;;
      ret (fst best)
  end.

Definition run_restore (config : config) (filepath : path) (keep : bool)
    : M unit :=
  isdir <- os_path_isdir filepath ;;
  if negb isdir then sys_exit 1
  else
    archive_json <- glob_glob filepath sidecar_glob ;;
    (* get the most recent json file *)
    archive_json <- max_by_getctime archive_json ;;
    archive_dict <- json_load archive_json ;;
    (* [tarball] is a local name of the function, first assigned below *)
    let tarball : option path := None in
    (if String.eqb (Location archive_dict) "glacier" then
       storage_class <- check_storage_class (ArchivePath archive_dict)
                          (Filename archive_dict) (s3_region config) ;;
       if String.eqb storage_class "DEEP_ARCHIVE"
          || String.eqb storage_class "GLACIER" then
         (* check if the object is currently being restored *)
         restore_status <- check_restore_status (ArchivePath archive_dict)
                             (Filename archive_dict) (s3_region config) ;;
         (* if ongoing request is false, initiate the restore *)
         finished <- py_in ongoing_false restore_status ;;
         (if finished then
            initiate_deep_archive_restore (ArchivePath archive_dict)
              (Filename archive_dict) 7 "Bulk" (s3_region config)
          else ret tt) ;;
         wait_for_restore (ArchivePath archive_dict) (Filename archive_dict)
                          (s3_region config) 120 ;;
         download_s3_object (ArchivePath archive_dict) (Filename archive_dict)
           (os_path_join filepath [Filename archive_dict]) (s3_region config)
       else if String.eqb storage_class "STANDARD_IA"
               || String.eqb storage_class "STANDARD"
               || String.eqb storage_class "GLACIER_IR" then
         download_s3_object (ArchivePath archive_dict) (Filename archive_dict)
           (os_path_join filepath [Filename archive_dict]) (s3_region config)
       else sys_exit 1
     else if String.eqb (Location archive_dict) "ris_archive" then
       sys_exit 1
     else ret tt) ;;
    (* check tarball md5sum *)
    t <- py_local tarball ;;
    tarball_md5sum <- calculate_file_md5sum t ;;
    if negb (String.eqb tarball_md5sum (TarballMD5sum archive_dict)) then
      sys_exit 1
    else
      (* verify the tarball *)
      let tarball := Some (os_path_join filepath [Filename archive_dict]) in
      t <- py_local tarball ;;
      intact <- test_tarball_integrity t (PyList (MD5Sums archive_dict)) ;;
      if negb intact then sys_exit 1
      else
        (* the extraction is commented out in the source *)
        ret tt.

End Slarchive.

(** * The vocabulary of the properties *)

(** Is there a regular file at [p]? *)
Definition is_file (p : path) (n : node) : bool :=
  match fs_lookup p n with
  | Some (File _) => true
  | _ => false
  end.

(** A computation that never returns normally: it fails or hangs. *)
Definition never_returns {A : Type} (c : M A) : Prop :=
  forall w a w', c w <> (Done a, w').

(** [c] changes nothing, and its result depends on the file system alone. *)
Definition fs_reader {A : Type} (c : M A) : Prop :=
  forall w, exists r,
    c w = (r, w) /\ forall w', w_fs w' = w_fs w -> c w' = (r, w').

(** Every run of [c] takes the file system to one related by [R]. *)
Definition respects (R : node -> node -> Prop) {A : Type} (c : M A) : Prop :=
  forall w r w', c w = (r, w') -> R (w_fs w) (w_fs w').

(** Well-formedness is kept; no path becomes a regular file. *)
Definition wf_kept : relation node :=
  fun n n' => wf_node n -> wf_node n'.

Definition no_new_file : relation node :=
  fun n n' => forall p, is_file p n' = true -> is_file p n = true.

(** ** The sweep of the emptied directories *)

(** What the sweep of one directory leaves of its listing: each of the
    names [ds] in turn is dropped if it is an empty directory by then. *)
Fixpoint sweep (ds : list string) (es : list (string * node))
    : list (string * node) :=
  match ds with
  | [] => es
  | d :: ds' =>
      sweep ds'
        (match assoc d es with
         | Some (Dir []) =>
             List.filter (fun e => negb (String.eqb d (fst e))) es
         | _ => es
         end)
  end.

(** The tree the bottom-up loop of [run_archive] leaves: every directory
    swept after its subdirectories, dotted names skipped. *)
Fixpoint prune (n : node) : node :=
  match n with
  | File f => File f
  | Dir es =>
      Dir (sweep (List.filter (fun d => negb (startswith_dot d)) (dirnames es))
                 (map (fun e => (fst e, prune (snd e))) es))
  end.

(** The body of the inner loop, and of the outer one. *)
Definition remove_if_empty (root : path) (dir : string) : M unit :=
  listing <- os_listdir (os_path_join root [dir]) ;;
  match listing with
  | [] => os_rmdir (os_path_join root [dir])
  | _ => ret tt
  end.

Definition sweep_triple (t : path * list string * list string) : M unit :=
  for_ (List.filter (fun d => negb (startswith_dot d)) (snd (fst t)))
       (remove_if_empty (fst (fst t))).

(** What the bottom-up loop does on the subtree [n] at [root]. *)
Definition swept (n : node) : Prop :=
  forall root w,
    wf_node n ->
    fs_lookup root (w_fs w) = Some n ->
    exists w' G,
      for_ (walk_bottomup root n) sweep_triple w = (Done tt, w')
      /\ w_fs w' = alter_at G root (w_fs w)
      /\ G n = prune n.

(** The manifest [run_restore] works from: the sidecar of the latest
    creation time in the directory. *)
Definition load_manifest (filepath : path) : M manifest :=
  found <- glob_glob filepath sidecar_glob ;;
  latest <- max_by_getctime found ;;
  json_load latest.

(** * The rest of the program, and more of the vocabulary *)

(** Every run of [c] leaves the part [proj] of the world as it was. *)
Definition keeps {X A : Type} (proj : world -> X) (c : M A) : Prop :=
  forall w r w', c w = (r, w') -> proj w' = proj w.

(** What lies outside the local file system: the bucket, the Globus
    endpoint and the record of the calls made. *)
Definition outside (w : world)
    : gmap string (gmap string s3object) * gmap string (gmap string file)
      * list call :=
  (w_s3 w, w_globus w, w_calls w).

(** [tar.getnames()] on the readable container, an empty list on any
    error. *)
Definition list_tarball_files (tarball_path : path) : M (list path) :=
  try_except
    (members <- tarfile_open tarball_path ;;
     ret (map (fun member : tarinfo blob => ti_name member) members))
    (fun _ => ret []).

(** The member [tar.add] makes of the regular file [f] under the name
    [file_path], and the container file that holds the members [ms]. *)
Definition tar_member (file_path : path) (f : file) : tarinfo blob :=
  {| ti_name := file_path; ti_isfile := true;
     ti_size := f_size f; ti_data := f_data f |}.

Definition tar_file (ms : list (tarinfo blob)) (clock : Z) : file :=
  {| f_size := targz_size ms; f_ctime := clock; f_data := TarGz ms |}.

(** [g] changes nothing but the entry [x] of a directory. *)
Definition only_entry (x : string) (g : node -> node) : Prop :=
  forall m y s, y <> x -> fs_lookup (y :: s) (g m) = fs_lookup (y :: s) m.

(** The id [run_archive] draws in the world [w]. *)
Definition drawn_id (w : world) : string :=
  string_of_list_ascii
    (map (choice alphabet) (firstn 20 (w_rng w ++ repeat 0%nat 20))).

(** The row [r] of an enumeration from [root] stands for the regular file
    [f] of the tree [n]. *)
Definition describes (md5 : blob -> string) (root : path) (n : node)
    (r : row) (f : file) : Prop :=
  fs_lookup (root ++ df_file r) n = Some (File f)
  /\ df_size r = f_size f
  /\ df_md5sum r = md5 (f_data f)
  /\ f_size f <> 0.

(** The world once [run_archive] has drawn its id and written the bundle
    of the files [contents], enumerated as [df], into [filepath]. *)
Definition bundled (filepath : path) (df : list row) (contents : list file)
    (w : world) : world :=
  set_fs (alter_at
            (dir_put (tarball_name (drawn_id w))
               (File (tar_file (zip_with tar_member (map df_file df) contents)
                               (w_clock w))))
            filepath)
         (set_rng (skipn 20) w).

(** The part of [run_archive] that follows the check of the bundle: the
    transfer to the bucket or to the Globus endpoint with the removal of
    the local bundle, ... *)
Definition transfer_step (config : config) (archivepath : string)
    (tarball : path) : M unit :=
  if String.eqb (mode config) "glacier" then
    try_except
      (transfer_to_s3 archivepath (s3_region config) tarball false
                      (storage_class config) ;;
       os_remove tarball)
      (fun _ => sys_exit 1)
  else if String.eqb (mode config) "ris_archive" then
    try_except
      (globus_transfer_to_archive tarball (globus_endpoint config)
                                  (ris_archive_path config) ;;
       os_remove tarball)
      (fun _ => sys_exit 1)
  else ret tt.

(** ... the deletion of the archived files and of the directories left
    empty, ... *)
Definition delete_sources (filepath : path) (files : list path) : M unit :=
  for_ files
    (fun file =>
       let fullpath := os_path_join filepath file in
       isfile <- os_path_isfile fullpath ;;
       if isfile then os_remove fullpath else ret tt) ;;
  triples <- os_walk_bottomup filepath ;;
  for_ triples sweep_triple.

(** ... and the writing of the sidecar; a dry run stops before all three. *)
Definition after_check (config : config) (filepath : path)
    (archivepath : string) (keep : bool) (unique_id : string)
    (files : list path) (archive_dict : manifest) : M manifest :=
  if String.eqb (mode config) "dry-run" then ret archive_dict
  else
    transfer_step config archivepath
                  (os_path_join filepath [tarball_name unique_id]) ;;
    (if negb keep then delete_sources filepath files else ret tt) ;;
    write_file (os_path_join filepath [sidecar_name unique_id])
               (json_size archive_dict) (Json archive_dict) ;;
    ret archive_dict.

(** The manifest of the archive of [filepath], enumerated as [df] with
    the files [contents], made in the world [w]. *)
Definition manifest_of (md5 : blob -> string) (config : config)
    (filepath : path) (archivepath : string) (df : list row)
    (contents : list file) (w : world) : manifest :=
  {| Id := drawn_id w;
     Timestamp := w_clock w;
     Location := mode config;
     Filename := tarball_name (drawn_id w);
     LocalPath := filepath;
     ArchivePath := archivepath;
     Files := map df_file df;
     Sizes := map df_size df;
     MD5Sums := map df_md5sum df;
     TarballMD5sum :=
       md5 (TarGz (zip_with tar_member (map df_file df) contents));
     Username := username config |}.

(** No path becomes a directory. *)
Definition no_new_dir : relation node :=
  fun n n' =>
    forall p es', fs_lookup p n' = Some (Dir es') ->
                  exists es, fs_lookup p n = Some (Dir es).

(** Python's [f"{x:.2f}"] on a number that the float holds exactly: the
    nearest hundredth, the even one on a tie. *)
Definition two_digits (k : Z) : string :=
  (if k <? 10 then "0" else "") +:+ NilZero.string_of_int (Z.to_int k).

Definition format_2f (x : Q) : string :=
  let n := Z.abs (Qnum x) * 100 in
  let d := Zpos (Qden x) in
  let fl := n / d in
  let r := n mod d in
  let h := if 2 * r <? d then fl
           else if d <? 2 * r then fl + 1
           else if Z.even fl then fl else fl + 1 in
  (if Qnum x <? 0 then "-" else "")
  +:+ NilZero.string_of_int (Z.to_int (h / 100)) +:+ "."
  +:+ two_digits (h mod 100).

(** The loop of [readable_bytes]: [unit] is the loop variable, that is the
    last unit tried.  A division of a float by 1024 is exact, so the sizes
    are rationals here; this is what Python computes for a byte count
    below 2^53. *)
Fixpoint readable_loop (units : list string) (size : Q) (unit : string)
    : Q * string :=
  match units with
  | [] => (size, unit)
  | unit :: units' =>
      if Qlt_le_dec size 1024 then (size, unit)
      else readable_loop units' (size / 1024)%Q unit
  end.

Definition byte_units : list string := ["B"; "KB"; "MB"; "GB"; "TB"]%string.

Definition readable_bytes (size : Z) : string :=
  let '(size, unit) := readable_loop byte_units (inject_Z size) "" in
  format_2f size +:+ " " +:+ unit.

(** ** The command line of [archive] *)

(** The built-in configuration of [main]. *)
Definition default_config : gmap string string :=
  list_to_map
    [("archive_name", "dhslabarchive");
     ("ris_archive_path",
      "/storage1/fs1/dspencer/Archive/spencerlab/dhs-lab-ris-archive-1");
     ("globus_endpoint", "b9545fe1-f647-40bf-9eaf-e66d2d1aaeb4");
     ("s3_bucket", "dhs-lab-archive-1");
     ("s3_region", "us-east-1");
     ("storage_class", "STANDARD_IA");
     ("db", "")]%string.

(** What the user gave on the command line of [archive], as far as the
    settings go: an option that was not given is [None], a flag that was
    not given is [false]. *)
Record archive_cli : Type := {
  cli_archive_path : option string;
  cli_endpoint : option string;
  cli_region : option string;
  cli_bucket : option string;
  cli_database_file : option string;
  cli_storage_class : option string;
  cli_dry_run : bool;
  cli_glacier : bool;
  cli_ris_archive : bool
}.

(** The namespace [parse_args] returns for it.  The options [-a], [-e],
    [-r] and [-b] are declared with a default taken from the built-in
    configuration; [-d] and [-s] have none. *)
Record archive_args : Type := {
  args_archive_path : string;
  args_endpoint : string;
  args_region : string;
  args_bucket : string;
  args_database_file : option string;
  args_storage_class : option string;
  args_dry_run : bool;
  args_glacier : bool;
  args_ris_archive : bool
}.

Definition parse_archive_args (cli : archive_cli) : archive_args :=
  {| args_archive_path :=
       default (default "" (default_config !! "ris_archive_path"%string))
               (cli_archive_path cli);
     args_endpoint :=
       default (default "" (default_config !! "globus_endpoint"%string))
               (cli_endpoint cli);
     args_region :=
       default (default "" (default_config !! "s3_region"%string))
               (cli_region cli);
     args_bucket :=
       default (default "" (default_config !! "s3_bucket"%string))
               (cli_bucket cli);
     args_database_file := cli_database_file cli;
     args_storage_class := cli_storage_class cli;
     args_dry_run := cli_dry_run cli;
     args_glacier := cli_glacier cli;
     args_ris_archive := cli_ris_archive cli |}.

(** [if s:] on a string, and on a string or [None]. *)
Definition nonempty (s : string) : bool := negb (String.eqb s "").

Definition given (o : option string) : bool :=
  match o with Some s => nonempty s | None => false end.

(** [config[key]] *)
Definition config_get (config : gmap string string) (key : string)
    : M string :=
  match config !! key with
  | Some v => ret v
  | None => raise KeyError
  end.

Definition storage_classes : list string :=
  ["DEEP_ARCHIVE"; "GLACIER"; "GLACIER_IR"; "STANDARD"; "STANDARD_IA"]%string.

(** The settings of the [archive] sub-command in [main]: the configuration
    the file gave, overridden from the namespace, then the mode and the
    archive path.  [globus_installed] and [globus_logged_in] are what
    [shutil.which('globus')] and [globus whoami] find. *)
Definition archive_settings (args : archive_args)
    (globus_installed globus_logged_in : bool) (config : gmap string string)
    : M (gmap string string * string) :=
  (* replace config values with command line values, if passed *)
  let config := if nonempty (args_archive_path args)
                then <["ris_archive_path"%string := args_archive_path args]> config
                else config in
  let config := if nonempty (args_endpoint args)
                then <["globus_endpoint"%string := args_endpoint args]> config
                else config in
  let config := if nonempty (args_region args)
                then <["s3_region"%string := args_region args]> config
                else config in
  let config := if nonempty (args_bucket args)
                then <["s3_bucket"%string := args_bucket args]> config
                else config in
  let config := if given (args_database_file args)
                then <["db"%string := default "" (args_database_file args)]> config
                else config in
  config <-
    (if given (args_storage_class args) then
       let sc := default "" (args_storage_class args) in
       if bool_decide (sc ∈ storage_classes)
       then ret (<["storage_class"%string := sc]> config)
       else sys_exit 1
     else ret config) ;;
  if args_dry_run args then
    ret (<["mode"%string := "dry-run"%string]> config, "(dry run)"%string)
  else if args_glacier args then
    archive_path <- config_get config "s3_bucket" ;;
    ret (<["mode"%string := "glacier"%string]> config, archive_path)
  else if args_ris_archive args then
    archive_path <- config_get config "ris_archive_path" ;;
    let config := <["mode"%string := "ris_archive"%string]> config in
    (* check that globus is installed *)
    if negb globus_installed then sys_exit 1
    (* check that the user is logged into globus *)
    else if negb globus_logged_in then sys_exit 1
    else ret (config, archive_path)
  else ret (config, ""%string).

(** * Sample worlds *)

(** A stand-in for [hashlib.md5] in the examples; nothing below depends on
    which function it is. *)
Definition sample_md5 (b : blob) : string :=
  match b with
  | Raw bs => string_of_list_byte bs
  | Json _ => "json"
  | TarGz _ => "targz"
  end.

(** A regular file holding the given text. *)
Definition text_file (s : string) : file :=
  {| f_size := Z.of_nat (String.length s); f_ctime := 0;
     f_data := Raw (list_byte_of_string s) |}.

(** [/data] with two files, one in a subdirectory; no dotted name. *)
Definition entries_plain : list (string * node) :=
  [("a.txt", File (text_file "alpha"));
   ("sub", Dir [("b.txt", File (text_file "beta"))])].

(** [/data] with a dotted file and a dotted directory besides. *)
Definition entries_dotted : list (string * node) :=
  [("a.txt", File (text_file "alpha"));
   (".cache", Dir [("x", File (text_file "xx"))]);
   ("sub", Dir [("b.txt", File (text_file "beta"))]);
   (".hidden", File (text_file "h"))].

(** The manifest of an earlier archive of [/data], and [/data] with its
    sidecar and a leftover bundle. *)
Definition manifest_earlier : manifest :=
  {| Id := "abc";
     Timestamp := 50;
     Location := "glacier";
     Filename := "dhslabarchive.abc.tar.gz";
     LocalPath := ["data"%string];
     ArchivePath := "bucket";
     Files := [["a.txt"%string]];
     Sizes := [5];
     MD5Sums := ["alpha"%string];
     TarballMD5sum := "targz";
     Username := "operator" |}.

Definition bundle_earlier : list (tarinfo blob) :=
  [{| ti_name := ["a.txt"%string]; ti_isfile := true; ti_size := 5;
      ti_data := Raw (list_byte_of_string "alpha") |}].

Definition entries_archived : list (string * node) :=
  [("dhslabarchive.abc.json",
    File {| f_size := 3; f_ctime := 50; f_data := Json manifest_earlier |});
   ("dhslabarchive.abc.tar.gz",
    File {| f_size := 21; f_ctime := 50; f_data := TarGz bundle_earlier |});
   (".notes", File (text_file "n"));
   ("new.txt", File (text_file "new"))].


(** [/data] with one file of three terabytes. *)
Definition entries_huge : list (string * node) :=
  [("huge.bin",
    File {| f_size := 3000000000000; f_ctime := 0;
            f_data := Raw (list_byte_of_string "0") |})].

(** The bucket after the earlier archive; the object in an archival class
    and never restored, or in an instant-access class. *)
Definition bucket_with (storage_class : string)
    : gmap string (gmap string s3object) :=
  {[ "bucket"%string :=
       {[ "dhslabarchive.abc.tar.gz"%string :=
            {| o_size := 21; o_data := TarGz bundle_earlier;
               o_class := Some storage_class; o_restore := [] |} ]} ]}.

(** The [Restore] field while a restore is going on, and once it is over. *)
Definition status_ongoing : string :=
  "ongoing-request=" +:+ String "034"%char "true" +:+ String "034"%char "".

Definition status_over : string :=
  ongoing_false +:+ ", expiry-date=" +:+ String "034"%char
    "Fri, 20 Feb 2025 00:00:00 GMT" +:+ String "034"%char "".

(** The bundle in [DEEP_ARCHIVE], with the statuses the backend will
    report. *)
Definition bucket_restoring (statuses : list (option string))
    : gmap string (gmap string s3object) :=
  {[ "bucket"%string :=
       {[ "dhslabarchive.abc.tar.gz"%string :=
            {| o_size := 21; o_data := TarGz bundle_earlier;
               o_class := Some "DEEP_ARCHIVE"%string;
               o_restore := statuses |} ]} ]}.

Definition sample_world (entries : list (string * node))
    (s3 : gmap string (gmap string s3object)) : world :=
  {| w_fs := Dir [("data"%string, Dir entries)];
     w_s3 := s3;
     w_globus := ∅;
     w_globus_task := Some "task-1"%string;
     w_globus_status := "SUCCEEDED";
     w_rng := [7; 33; 60]%nat;
     w_clock := 100;
     w_calls := [] |}.

Definition empty_bucket : gmap string (gmap string s3object) :=
  {[ "bucket"%string := ∅ ]}.

Definition sample_config : config :=
  {| mode := "glacier";
     username := "operator";
     s3_region := "us-east-1";
     storage_class := "STANDARD_IA";
     globus_endpoint := "endpoint";
     ris_archive_path := "/archive" |}.




(** The earlier archive, had it gone to the RIS archive, and [/data] with
    its sidecar. *)
Definition manifest_ris : manifest :=
  {| Id := "abc";
     Timestamp := 50;
     Location := "ris_archive";
     Filename := "dhslabarchive.abc.tar.gz";
     LocalPath := ["data"%string];
     ArchivePath := "/archive";
     Files := [["a.txt"%string]];
     Sizes := [5];
     MD5Sums := ["alpha"%string];
     TarballMD5sum := "targz";
     Username := "operator" |}.

Definition entries_archived_ris : list (string * node) :=
  [("dhslabarchive.abc.json",
    File {| f_size := 3; f_ctime := 50; f_data := Json manifest_ris |})].



(** The bucket with the bundle as [head_object] describes an object of the
    standard class: without a storage class. *)
Definition bucket_unclassed : gmap string (gmap string s3object) :=
  {[ "bucket"%string :=
       {[ "dhslabarchive.abc.tar.gz"%string :=
            {| o_size := 21; o_data := TarGz bundle_earlier;
               o_class := None; o_restore := [] |} ]} ]}.


Definition dry_run_config : config :=
  {| mode := "dry-run";
     username := "operator";
     s3_region := "us-east-1";
     storage_class := "STANDARD_IA";
     globus_endpoint := "endpoint";
     ris_archive_path := "/archive" |}.

Definition ris_config : config :=
  {| mode := "ris_archive";
     username := "operator";
     s3_region := "us-east-1";
     storage_class := "STANDARD_IA";
     globus_endpoint := "endpoint";
     ris_archive_path := "/archive" |}.

(** A command line [archive -G -b my-bucket <path>] and one that leaves the
    bucket out, and a configuration file that names a bucket of its own. *)
Definition cli_glacier_only : archive_cli :=
  {| cli_archive_path := None; cli_endpoint := None; cli_region := None;
     cli_bucket := None; cli_database_file := None;
     cli_storage_class := None;
     cli_dry_run := false; cli_glacier := true; cli_ris_archive := false |}.

Definition cli_dry_run_ris : archive_cli :=
  {| cli_archive_path := None; cli_endpoint := None; cli_region := None;
     cli_bucket := None; cli_database_file := None;
     cli_storage_class := Some "GLACIER"%string;
     cli_dry_run := true; cli_glacier := false; cli_ris_archive := true |}.

Definition config_of_file : gmap string string :=
  <["s3_bucket"%string := "bucket-of-the-lab"%string]> default_config.

(** * Properties *)

(** ** The pattern matcher decides the language of the pattern *)

Lemma nullable_complete r w : Re.lang r w -> w = [] -> Re.nullable r = true.
Proof.
  induction 1 as [ | | r s u v _ IHu _ IHv | r s u _ IH | r s u _ IH
                 | | r u v _ _ _ _ ]; intros Hw; simpl; try easy.
  - apply app_eq_nil in Hw as [-> ->]. now rewrite IHu, IHv.
  - now rewrite IH.
  - rewrite IH by easy. apply orb_true_r.
Qed.

Lemma nullable_sound r : Re.nullable r = true -> Re.lang r [].
Proof.
  induction r as [ | | p | r IHr s IHs | r IHr s IHs | r _ ]; simpl; intros H;
    try discriminate.
  - constructor.
  - apply andb_true_iff in H as [Hr Hs].
    change (@nil ascii) with (@nil ascii ++ []). constructor; auto.
  - apply orb_true_iff in H as [H | H];
      [apply Re.lang_alt_l | apply Re.lang_alt_r]; auto.
  - constructor.
Qed.

Lemma deriv_complete r w0 :
  Re.lang r w0 -> forall c w, w0 = c :: w -> Re.lang (Re.deriv c r) w.
Proof.
  induction 1 as [ | p a Ha | r s u v Hu IHu Hv IHv | r s u _ IH | r s u _ IH
                 | | r u v Hu IHu Hv IHv ]; intros c w Hw; simpl.
  - discriminate.
  - injection Hw as -> <-. rewrite Ha. constructor.
  - destruct u as [ | a u']; simpl in Hw.
    + rewrite (nullable_complete r [] Hu eq_refl).
      apply Re.lang_alt_r. now apply IHv.
    + injection Hw as -> <-.
      assert (Hcat : Re.lang (Re.Cat (Re.deriv c r) s) (u' ++ v))
        by (constructor; auto).
      destruct (Re.nullable r); [now apply Re.lang_alt_l | exact Hcat].
  - apply Re.lang_alt_l. now apply IH.
  - apply Re.lang_alt_r. now apply IH.
  - discriminate.
  - destruct u as [ | a u']; simpl in Hw.
    + now apply IHv.
    + injection Hw as -> <-. constructor; auto.
Qed.

Lemma deriv_sound c r : forall w, Re.lang (Re.deriv c r) w -> Re.lang r (c :: w).
Proof.
  induction r as [ | | p | r IHr s IHs | r IHr s IHs | r IHr ]; simpl; intros w H.
  - inversion H.
  - inversion H.
  - destruct (p c) eqn:Hp; inversion H; subst. now constructor.
  - destruct (Re.nullable r) eqn:Hn.
    + inversion H as [ | | | r1 s1 u1 H1 | r1 s1 u1 H1 | | ]; subst.
      * inversion H1; subst.
        change (c :: u ++ v) with ((c :: u) ++ v). constructor; auto.
      * change (c :: w) with ([] ++ c :: w).
        constructor; [now apply nullable_sound | auto].
    + inversion H; subst.
      change (c :: u ++ v) with ((c :: u) ++ v). constructor; auto.
  - inversion H; subst; [apply Re.lang_alt_l | apply Re.lang_alt_r]; auto.
  - inversion H; subst.
    change (c :: u ++ v) with ((c :: u) ++ v). constructor; auto.
Qed.

Lemma fullmatch_spec r w : Re.fullmatch r w = true <-> Re.lang r w.
Proof.
  revert r. induction w as [ | c w IH]; intros r; simpl.
  - split; [apply nullable_sound | intros H; now apply (nullable_complete r [])].
  - rewrite IH. split; [apply deriv_sound | intros H; now apply (deriv_complete r (c :: w))].
Qed.

Lemma prefixmatch_spec r w :
  Re.prefixmatch r w = true <-> exists u v, w = u ++ v /\ Re.lang r u.
Proof.
  revert r. induction w as [ | c w IH]; intros r; simpl.
  - rewrite orb_false_r. split.
    + intros H. exists [], []. split; [easy | now apply nullable_sound].
    + intros (u & v & Huv & Hu). symmetry in Huv.
      apply app_eq_nil in Huv as [-> ->].
      now apply (nullable_complete r []).
  - rewrite orb_true_iff, IH. split.
    + intros [H | (u & v & -> & Hu)].
      * exists [], (c :: w). split; [easy | now apply nullable_sound].
      * exists (c :: u), v. split; [easy | now apply deriv_sound].
    + intros (u & v & Huv & Hu). destruct u as [ | a u'].
      * left. now apply (nullable_complete r []).
      * simpl in Huv. injection Huv as -> ->. right.
        exists u', v. split; [easy | now apply (deriv_complete r (a :: u'))].
Qed.

Lemma list_ascii_of_string_app a b :
  list_ascii_of_string (a +:+ b) = list_ascii_of_string a ++ list_ascii_of_string b.
Proof. induction a as [ | c a IH]; simpl; [easy | now rewrite <- IH]. Qed.

Lemma lang_lit s : Re.lang (Re.Lit s) (list_ascii_of_string s).
Proof.
  induction s as [ | c s IH]; simpl; [constructor | ].
  change (c :: list_ascii_of_string s) with ([c] ++ list_ascii_of_string s).
  constructor; [ | exact IH]. constructor. apply Ascii.eqb_refl.
Qed.

Lemma lang_star_cls p w :
  Forall (fun c => p c = true) w -> Re.lang (Re.Star (Re.Cls p)) w.
Proof.
  induction 1 as [ | c w Hc _ IH]; [constructor | ].
  change (c :: w) with ([c] ++ w). constructor; [now constructor | exact IH].
Qed.

Lemma lang_plus_cls p w :
  w <> [] -> Forall (fun c => p c = true) w -> Re.lang (Re.Plus (Re.Cls p)) w.
Proof.
  intros Hne Hall. destruct w as [ | c w]; [easy | ].
  inversion Hall; subst.
  change (c :: w) with ([c] ++ w). unfold Re.Plus.
  constructor; [now constructor | now apply lang_star_cls].
Qed.

(** Every sidecar name, whatever the id, is found by the glob of the
    drivers. *)
Lemma sidecar_glob_matches unique_id :
  Re.fnmatch sidecar_glob (sidecar_name unique_id) = true.
Proof.
  unfold Re.fnmatch, sidecar_name, sidecar_glob. apply fullmatch_spec.
  rewrite !list_ascii_of_string_app. cbn [Re.Seq].
  apply Re.lang_cat; [apply lang_lit | ].
  apply Re.lang_cat.
  - apply lang_star_cls, Forall_forall. reflexivity.
  - rewrite <- (app_nil_r (list_ascii_of_string ".json")).
    apply Re.lang_cat; [apply lang_lit | apply Re.lang_eps].
Qed.

(** A sidecar name whose id is a non-empty run of non-blank characters is
    one of the names [get_files] passes over. *)
Lemma json_re_matches unique_id :
  unique_id <> EmptyString ->
  Forall (fun c => Re.nonspace c = true) (list_ascii_of_string unique_id) ->
  Re.re_match json_re (sidecar_name unique_id) = true.
Proof.
  intros Hne Hall. unfold Re.re_match. apply prefixmatch_spec.
  exists (list_ascii_of_string (sidecar_name unique_id)), [].
  split; [now rewrite app_nil_r | ].
  unfold sidecar_name, json_re.
  change "dhslabarchive."%string with ("dhslabarchive" +:+ ".")%string.
  change ".json"%string with ("." +:+ "json")%string.
  rewrite !list_ascii_of_string_app. cbn [Re.Seq].
  rewrite <- !app_assoc.
  apply Re.lang_cat; [apply lang_lit | ].
  apply Re.lang_cat; [now apply Re.lang_cls | ].
  apply Re.lang_cat.
  { apply lang_plus_cls; [ | exact Hall].
    destruct unique_id; [easy | discriminate]. }
  apply Re.lang_cat; [now apply Re.lang_cls | ].
  rewrite <- (app_nil_r (list_ascii_of_string "json")).
  apply Re.lang_cat; [apply lang_lit | apply Re.lang_eps].
Qed.

(** ** Running the monad *)

Lemma bind_done {A B : Type} (c : M A) (k : A -> M B) w a w' :
  c w = (Done a, w') -> bind c k w = k a w'.
Proof. unfold bind. now intros ->. Qed.

Lemma bind_fail {A B : Type} (c : M A) (k : A -> M B) w e w' :
  c w = (Fail e, w') -> bind c k w = (Fail e, w').
Proof. unfold bind. now intros ->. Qed.

Lemma bind_hang {A B : Type} (c : M A) (k : A -> M B) w w' :
  c w = (Hang, w') -> bind c k w = (Hang, w').
Proof. unfold bind. now intros ->. Qed.

(** A sequence that returns has run its first part to a value. *)
Lemma bind_done_inv {A B : Type} (c : M A) (k : A -> M B) w b w' :
  bind c k w = (Done b, w') ->
  exists a w1, c w = (Done a, w1) /\ k a w1 = (Done b, w').
Proof.
  unfold bind. destruct (c w) as [[a | e | ] w1]; intros H; try discriminate.
  now exists a, w1.
Qed.

Lemma filter_nonempty {A : Type} (f : A -> bool) (l : list A) (x : A) :
  In x l -> f x = true -> List.filter f l <> [].
Proof.
  intros Hin Hf Hnil.
  assert (Hx : In x (List.filter f l)) by (apply filter_In; auto).
  rewrite Hnil in Hx. destruct Hx.
Qed.

Section Properties.

Variable md5 : blob -> string.

(** The sidecars the drivers find in a directory that holds one. *)
Lemma glob_finds_sidecar filepath es unique_id w :
  fs_lookup filepath (w_fs w) = Some (Dir es) ->
  In (sidecar_name unique_id) (map fst es) ->
  exists p ps, glob_glob filepath sidecar_glob w = (Done (p :: ps), w).
Proof.
  intros Hdir Hin. unfold glob_glob, bind, get_world, ret. rewrite Hdir.
  pose proof (filter_nonempty _ _ _ Hin (sidecar_glob_matches unique_id)) as Hne.
  destruct (List.filter (Re.fnmatch sidecar_glob) (map fst es)) as [ | x xs];
    [easy | ].
  simpl. eauto.
Qed.

(** A directory at a path without pattern characters that already holds a
    manifest sidecar is not archived again without [force] or
    [overwrite]: [run_archive] ends with [sys.exit(1)] (the program's
    "Archive files already exist in this directory") and the world is
    exactly as it was -- no bundle, no sidecar, no call to a backend, the
    first archive untouched.  (In a path with pattern characters
    [glob.glob] looks elsewhere, and the guard can miss the sidecar.) *)
Theorem duplicate_archive_refused cfg filepath archivepath tarball keep w es unique_id :
  plain_path filepath = true ->
  fs_lookup filepath (w_fs w) = Some (Dir es) ->
  In (sidecar_name unique_id) (map fst es) ->
  run_archive md5 cfg filepath archivepath tarball false false keep w
  = (Fail (SysExit 1), w).
Proof.
  intros _ Hdir Hin.
  destruct (glob_finds_sidecar _ _ _ _ Hdir Hin) as (p & ps & Hglob).
  unfold run_archive.
  rewrite (bind_done time_time _ w (w_clock w) w) by reflexivity.
  rewrite (bind_done _ _ _ _ _ Hglob).
  reflexivity.
Qed.

(** C6 (what the code does).  With a sidecar in the directory and
    [overwrite] set, [run_archive] applies [os.path.basename] to the list
    that [glob.glob] returned and stops on the [TypeError]: no second
    manifest is produced, and the world is as it was. *)
Theorem overwrite_raises_type_error cfg filepath archivepath tarball force keep w es unique_id :
  fs_lookup filepath (w_fs w) = Some (Dir es) ->
  In (sidecar_name unique_id) (map fst es) ->
  run_archive md5 cfg filepath archivepath tarball force true keep w
  = (Fail (Raised TypeError), w).
Proof.
  intros Hdir Hin.
  destruct (glob_finds_sidecar _ _ _ _ Hdir Hin) as (p & ps & Hglob).
  unfold run_archive.
  rewrite (bind_done time_time _ w (w_clock w) w) by reflexivity.
  rewrite (bind_done _ _ _ _ _ Hglob).
  destruct force; reflexivity.
Qed.

(** *** Computations that only read the file system *)

Lemma fs_reader_ret {A : Type} (a : A) : fs_reader (ret a).
Proof. intros w. exists (Done a). split; [easy | now intros]. Qed.

Lemma fs_reader_raise {A : Type} e : fs_reader (@raise A e).
Proof. intros w. exists (Fail (Raised e)). split; [easy | now intros]. Qed.

Lemma fs_reader_sys_exit {A : Type} n : fs_reader (@sys_exit A n).
Proof. intros w. exists (Fail (SysExit n)). split; [easy | now intros]. Qed.

Lemma fs_reader_bind {A B : Type} (c : M A) (k : A -> M B) :
  fs_reader c -> (forall a, fs_reader (k a)) -> fs_reader (bind c k).
Proof.
  intros Hc Hk w. destruct (Hc w) as (r & Hr & Hr').
  destruct r as [a | e | ].
  - destruct (Hk a w) as (r2 & Hr2 & Hr2'). exists r2. split.
    + now rewrite (bind_done _ _ _ _ _ Hr).
    + intros w' Hw'. rewrite (bind_done _ _ _ _ _ (Hr' w' Hw')). auto.
  - exists (Fail e). split.
    + now rewrite (bind_fail _ _ _ _ _ Hr).
    + intros w' Hw'. now rewrite (bind_fail _ _ _ _ _ (Hr' w' Hw')).
  - exists Hang. split.
    + now rewrite (bind_hang _ _ _ _ Hr).
    + intros w' Hw'. now rewrite (bind_hang _ _ _ _ (Hr' w' Hw')).
Qed.

(** Reading the file system through [get_world]. *)
Lemma fs_reader_of_fs {A : Type} (g : node -> M A) :
  (forall n, fs_reader (g n)) -> fs_reader (w <- get_world ;; g (w_fs w)).
Proof.
  intros Hg w. destruct (Hg (w_fs w) w) as (r & Hr & Hr').
  exists r. split; [exact Hr | ].
  intros w' Hw'. unfold bind, get_world. rewrite Hw'. auto.
Qed.

Lemma fs_reader_for_acc {A S : Type} (l : list A) (body : A -> S -> M S) :
  (forall x s, fs_reader (body x s)) -> forall s, fs_reader (for_acc l body s).
Proof.
  intros Hb. induction l as [ | x l IH]; intros s; simpl.
  - apply fs_reader_ret.
  - apply fs_reader_bind; auto.
Qed.

Ltac fs_reader_tac :=
  repeat first
    [ apply fs_reader_ret | apply fs_reader_raise | apply fs_reader_sys_exit
    | apply fs_reader_bind; [ | intros ? ]
    | apply fs_reader_for_acc; intros ? ?
    | match goal with
      | |- fs_reader (match ?x with _ => _ end) => destruct x
      | |- fs_reader (if ?x then _ else _) => destruct x
      | |- fs_reader (let '(_, _) := ?x in _) => destruct x
      end ].

Lemma fs_reader_isfile p : fs_reader (os_path_isfile p).
Proof.
  apply (fs_reader_of_fs
           (fun n => ret (match fs_lookup p n with
                          | Some (File _) => true
                          | _ => false
                          end))).
  intros n. apply fs_reader_ret.
Qed.

Lemma fs_reader_isdir p : fs_reader (os_path_isdir p).
Proof.
  apply (fs_reader_of_fs
           (fun n => ret (match fs_lookup p n with
                          | Some (Dir _) => true
                          | _ => false
                          end))).
  intros n. apply fs_reader_ret.
Qed.

Lemma fs_reader_getsize p : fs_reader (os_path_getsize p).
Proof.
  apply (fs_reader_of_fs (fun n => match fs_lookup p n with
                                   | Some (File f) => ret (f_size f)
                                   | Some (Dir _) => ret 0
                                   | None => raise FileNotFoundError
                                   end)).
  intros n. fs_reader_tac.
Qed.

Lemma fs_reader_read_file p : fs_reader (read_file p).
Proof.
  apply (fs_reader_of_fs (fun n => match fs_lookup p n with
                                   | Some (File f) => ret f
                                   | Some (Dir _) => raise IsADirectoryError
                                   | None => raise FileNotFoundError
                                   end)).
  intros n. fs_reader_tac.
Qed.

Lemma fs_reader_os_walk p : fs_reader (os_walk p).
Proof.
  apply (fs_reader_of_fs (fun n => match fs_lookup p n with
                                   | Some c => ret (walk_topdown p c)
                                   | None => ret []
                                   end)).
  intros n. fs_reader_tac.
Qed.

Lemma fs_reader_md5sum p : fs_reader (calculate_file_md5sum md5 p).
Proof.
  unfold calculate_file_md5sum.
  apply fs_reader_bind; [apply fs_reader_read_file | intros f]. fs_reader_tac.
Qed.

Lemma fs_reader_pd_DataFrame a b c : fs_reader (pd_DataFrame a b c).
Proof. unfold pd_DataFrame. fs_reader_tac. Qed.

(** The enumerator reads the file system and changes nothing. *)
Lemma fs_reader_get_files filepath : fs_reader (get_files md5 filepath).
Proof.
  unfold get_files.
  apply fs_reader_bind; [apply fs_reader_isfile | intros [ | ]].
  - apply fs_reader_bind; [apply fs_reader_getsize | intros size].
    apply fs_reader_pd_DataFrame.
  - apply fs_reader_bind; [apply fs_reader_isdir | intros [ | ]];
      [ | apply fs_reader_sys_exit].
    apply fs_reader_bind; [apply fs_reader_os_walk | intros triples].
    apply fs_reader_bind.
    + apply fs_reader_for_acc. intros fullpath [[files sizes] sums].
      apply fs_reader_bind; [apply fs_reader_getsize | intros size].
      apply fs_reader_bind; [apply fs_reader_md5sum | intros h].
      apply fs_reader_ret.
    + intros [[files sizes] sums]. apply fs_reader_pd_DataFrame.
Qed.

Lemma random_choices_run population k w :
  random_choices population k w
  = (Done (string_of_list_ascii
             (map (choice population) (firstn k (w_rng w ++ repeat 0%nat k)))),
     set_rng (skipn k) w).
Proof. reflexivity. Qed.

Lemma glob_glob_total d pattern w :
  exists l, glob_glob d pattern w = (Done l, w).
Proof.
  unfold glob_glob, bind, get_world, ret.
  destruct (fs_lookup d (w_fs w)) as [[f | es] | ]; eauto.
Qed.

(** C8 (what the code does).  On a path that is a single file, [get_files]
    takes the size but no fingerprint, so the three columns handed to
    [pd.DataFrame] have lengths 1, 1 and 0 and pandas raises [ValueError]:
    no file list is returned. *)
Theorem get_files_single_file_raises filepath f w :
  fs_lookup filepath (w_fs w) = Some (File f) ->
  get_files md5 filepath w = (Fail (Raised ValueError), w).
Proof.
  intros Hfile.
  unfold get_files, os_path_isfile, os_path_getsize, bind, get_world, ret.
  rewrite Hfile. cbv beta iota. rewrite Hfile. reflexivity.
Qed.

(** The ceiling.  When the sizes of the files enumerated under
    [filepath], added as the program adds them (in 64 bits), come to more
    than 2 000 000 000 000 bytes, [run_archive] fails, and when it does
    the file system, the bucket and the Globus endpoint are as they were
    and no backend has been called: the check comes before
    [create_tarball], so no byte of a bundle is written. *)
Theorem oversize_archive_writes_nothing cfg filepath archivepath force overwrite keep w df :
  fst (get_files md5 filepath w) = Done df ->
  size_sum df > 2000000000000 ->
  exists e w',
    run_archive md5 cfg filepath archivepath false force overwrite keep w
    = (Fail e, w')
    /\ w_fs w' = w_fs w /\ w_s3 w' = w_s3 w /\ w_globus w' = w_globus w
    /\ w_calls w' = w_calls w.
Proof.
  intros Hdf Hsum.
  unfold run_archive.
  rewrite (bind_done time_time _ w (w_clock w) w) by reflexivity.
  destruct (glob_glob_total filepath sidecar_glob w) as (l & Hglob).
  rewrite (bind_done _ _ _ _ _ Hglob).
  set (body := fun tarball : bool + path => _).
  assert (Hbody : exists e w', body (inl false) w = (Fail e, w')
            /\ w_fs w' = w_fs w /\ w_s3 w' = w_s3 w /\ w_globus w' = w_globus w
            /\ w_calls w' = w_calls w).
  { unfold body. cbn [truthy]. unfold os_path_abspath.
    set (w1 := set_rng (skipn 20) w).
    destruct (fs_reader_get_files filepath w) as (r & Hr & Hr').
    rewrite Hr in Hdf. simpl in Hdf. subst r.
    specialize (Hr' w1 eq_refl).
    match goal with
    | |- exists e w', bind ?c ?k w = _ /\ _ =>
        assert (Hprep : c w = (Fail (SysExit 1), w1))
    end.
    { rewrite (bind_done _ _ _ _ _ (random_choices_run alphabet 20 w)).
      fold w1. rewrite (bind_done _ _ _ _ _ Hr').
      destruct (length df =? 0)%nat; [reflexivity | ].
      assert (Hgt : (size_sum df >? 2000000000000) = true)
        by (apply Z.gtb_lt; lia).
      now rewrite Hgt. }
    exists (SysExit 1), w1. now rewrite (bind_fail _ _ _ _ _ Hprep). }
  destruct l as [ | p ps].
  - rewrite (bind_done (ret _) _ w (inl false) w) by reflexivity. exact Hbody.
  - destruct force, overwrite; cbn [negb andb].
    + exists (Raised TypeError), w. split; [reflexivity | auto].
    + rewrite (bind_done (ret _) _ w (inl false) w) by reflexivity. exact Hbody.
    + exists (Raised TypeError), w. split; [reflexivity | auto].
    + exists (SysExit 1), w. split; [reflexivity | auto].
Qed.

(** Python's [set(a) == set(b)] on lists of strings. *)
Lemma set_of_list_eq (a b : list string) :
  (list_to_set a : gset string) = list_to_set b <->
  forall h, In h a <-> In h b.
Proof.
  split.
  - intros Heq h. rewrite <- !list_elem_of_In.
    rewrite <- (elem_of_list_to_set (C := gset string) h a).
    rewrite <- (elem_of_list_to_set (C := gset string) h b).
    now rewrite Heq.
  - intros Hall. apply set_eq. intros h.
    rewrite !elem_of_list_to_set, !list_elem_of_In. apply Hall.
Qed.

(** C4.  On a bundle that [tarfile] can read, the integrity check returns,
    and it passes exactly when the fingerprints of the bundle's regular-file
    members and the recorded fingerprints are the same as sets: each one
    that occurs on one side occurs on the other, however often and under
    whatever path. *)
Theorem integrity_check_is_set_equality tarball_path f members md5sums w :
  fs_lookup tarball_path (w_fs w) = Some (File f) ->
  f_data f = TarGz members ->
  exists passed,
    test_tarball_integrity md5 tarball_path (PyList md5sums) w
    = (Done passed, w)
    /\ (passed = true <->
        forall h,
          In h (map (fun m => md5 (ti_data m))
                    (List.filter (fun m : tarinfo blob => ti_isfile m) members))
          <-> In h md5sums).
Proof.
  intros Hfile Hdata.
  unfold test_tarball_integrity, get_tarball_md5sums, tarfile_open, read_file,
    calculate_obj_md5sum, bind, get_world, ret.
  rewrite Hfile. cbv beta iota. rewrite Hdata. cbv beta iota.
  rewrite map_map. cbn [df_md5sum].
  case_bool_decide as Hset.
  - exists true. split; [reflexivity | ].
    split; [intros _ | reflexivity]. now apply set_of_list_eq.
  - exists false. split; [reflexivity | ].
    split; [discriminate | ]. intros Hall. exfalso. apply Hset.
    now apply set_of_list_eq.
Qed.

(** What is not a list of strings never passes. *)
Lemma integrity_check_wants_a_list tarball_path md5sums w :
  (forall l, md5sums <> PyList l) ->
  test_tarball_integrity md5 tarball_path md5sums w = (Done false, w).
Proof.
  intros Hnot. destruct md5sums as [ | s | l]; try reflexivity.
  now destruct (Hnot l).
Qed.

(** *** Computations that never return *)

Lemma never_returns_raise {A : Type} e : never_returns (@raise A e).
Proof. intros w a w'. discriminate. Qed.

Lemma never_returns_sys_exit {A : Type} n : never_returns (@sys_exit A n).
Proof. intros w a w'. discriminate. Qed.

Lemma never_returns_bind_l {A B : Type} (c : M A) (k : A -> M B) :
  never_returns c -> never_returns (bind c k).
Proof.
  intros Hc w b w' H. apply bind_done_inv in H as (a & w1 & Ha & _).
  exact (Hc _ _ _ Ha).
Qed.

Lemma never_returns_bind_r {A B : Type} (c : M A) (k : A -> M B) :
  (forall a, never_returns (k a)) -> never_returns (bind c k).
Proof.
  intros Hk w b w' H. apply bind_done_inv in H as (a & w1 & _ & Hb).
  exact (Hk _ _ _ _ Hb).
Qed.

(** C2 (what the code does).  [run_restore] never returns.  Whatever the
    manifest and the backend, once the bundle is fetched the next statement
    reads the local name [tarball] before anything was assigned to it, and
    the call ends in [UnboundLocalError]: the fingerprint of the downloaded
    bundle is neither computed nor compared. *)
Theorem run_restore_never_returns cfg filepath keep :
  never_returns (run_restore md5 cfg filepath keep).
Proof.
  unfold run_restore.
  apply never_returns_bind_r; intros isdir.
  destruct (negb isdir); [apply never_returns_sys_exit | ].
  apply never_returns_bind_r; intros found.
  apply never_returns_bind_r; intros archive_json.
  apply never_returns_bind_r; intros archive_dict.
  apply never_returns_bind_r; intros _.
  apply never_returns_bind_l. apply never_returns_raise.
Qed.

End Properties.

(** ** The file-system tree *)

Lemma node_induction (P : node -> Prop) :
  (forall f, P (File f)) ->
  (forall es, Forall (fun e => P (snd e)) es -> P (Dir es)) ->
  forall n, P n.
Proof.
  intros Hfile Hdir. fix IH 1. intros [f | es].
  - apply Hfile.
  - apply Hdir. induction es as [ | e es IHes]; constructor.
    + apply IH.
    + exact IHes.
Qed.

Lemma wf_node_dir es :
  wf_node (Dir es) <->
  List.NoDup (map fst es) /\ Forall (fun e => wf_node (snd e)) es.
Proof.
  cbn [wf_node].
  assert (Hall : forall l,
    (fix all (l : list (string * node)) : Prop :=
       match l with
       | [] => True
       | e :: l' => wf_node (snd e) /\ all l'
       end) l <-> Forall (fun e => wf_node (snd e)) l).
  { induction l as [ | e l IH]; split; intros H.
    - constructor.
    - exact I.
    - destruct H as [He Hl]. constructor; [exact He | now apply IH].
    - inversion H; subst. split; [assumption | now apply IH]. }
  now rewrite Hall.
Qed.

Lemma assoc_In x es c : assoc x es = Some c -> In (x, c) es.
Proof.
  induction es as [ | [y d] es IH]; simpl; [discriminate | ].
  destruct (String.eqb_spec x y) as [-> | Hne].
  - intros [= ->]. now left.
  - intros H. right. now apply IH.
Qed.

Lemma assoc_None x es : assoc x es = None <-> ~ In x (map fst es).
Proof.
  induction es as [ | [y d] es IH]; simpl.
  - split; [intros _ [] | reflexivity].
  - destruct (String.eqb_spec x y) as [-> | Hne].
    + split; [discriminate | intros H; destruct H; now left].
    + rewrite IH. split; [intros H [-> | Hin]; auto | intros H Hin; apply H; now right].
Qed.

Lemma In_assoc x es c :
  List.NoDup (map fst es) -> In (x, c) es -> assoc x es = Some c.
Proof.
  induction es as [ | [y d] es IH]; simpl; intros Hnd Hin; [destruct Hin | ].
  inversion Hnd as [ | ? ? Hy Hnd']; subst.
  destruct Hin as [[= -> ->] | Hin].
  - now rewrite String.eqb_refl.
  - destruct (String.eqb_spec x y) as [-> | Hne]; [ | now apply IH].
    exfalso. apply Hy. apply in_map_iff. now exists (y, c).
Qed.

Lemma assoc_alter_entry x y g es :
  assoc y (alter_entry x g es)
  = if String.eqb x y then option_map g (assoc y es) else assoc y es.
Proof.
  induction es as [ | [z d] es IH]; simpl.
  - now destruct (String.eqb x y).
  - destruct (String.eqb_spec x z) as [-> | Hxz]; simpl.
    + destruct (String.eqb_spec y z) as [-> | Hyz].
      * now rewrite String.eqb_refl.
      * rewrite IH. reflexivity.
    + destruct (String.eqb_spec y z) as [-> | Hyz].
      * destruct (String.eqb_spec x z); [contradiction | reflexivity].
      * exact IH.
Qed.

Lemma assoc_remove x y es :
  assoc y (List.filter (fun e => negb (String.eqb x (fst e))) es)
  = if String.eqb x y then None else assoc y es.
Proof.
  induction es as [ | [z d] es IH]; simpl.
  - now destruct (String.eqb x y).
  - destruct (String.eqb_spec x z) as [-> | Hxz]; simpl.
    + rewrite IH. destruct (String.eqb_spec z y) as [-> | Hzy].
      * reflexivity.
      * destruct (String.eqb_spec y z); [congruence | reflexivity].
    + destruct (String.eqb_spec y z) as [-> | Hyz].
      * destruct (String.eqb_spec x z); [contradiction | reflexivity].
      * exact IH.
Qed.

Lemma assoc_app x es es' :
  assoc x (es ++ es')
  = match assoc x es with Some c => Some c | None => assoc x es' end.
Proof.
  induction es as [ | [y d] es IH]; simpl; [reflexivity | ].
  now destruct (String.eqb x y).
Qed.

Lemma assoc_map_snd x (g : node -> node) es :
  assoc x (map (fun e => (fst e, g (snd e))) es) = option_map g (assoc x es).
Proof.
  induction es as [ | [y d] es IH]; simpl; [reflexivity | ].
  now destruct (String.eqb x y).
Qed.

Lemma map_fst_alter_entry x g es : map fst (alter_entry x g es) = map fst es.
Proof.
  unfold alter_entry. rewrite map_map. apply map_ext.
  intros [y d]. simpl. now destruct (String.eqb x y).
Qed.

Lemma NoDup_map_fst_filter {A B : Type} (f : A * B -> bool) (es : list (A * B)) :
  List.NoDup (map fst es) -> List.NoDup (map fst (List.filter f es)).
Proof.
  induction es as [ | e es IH]; simpl; intros Hnd; [constructor | ].
  inversion Hnd as [ | ? ? Hx Hnd']; subst.
  destruct (f e); simpl; [ | now apply IH].
  constructor; [ | now apply IH].
  intros Hin. apply Hx. apply in_map_iff in Hin as (e' & He' & Hin).
  apply filter_In in Hin as [Hin _]. apply in_map_iff. now exists e'.
Qed.

(** The components of a path that ends in a name. *)
Lemma basename_snoc (p : path) x : os_path_basename (p ++ [x]) = x.
Proof. unfold os_path_basename. apply last_last. Qed.

Lemma dirname_snoc (p : path) x : os_path_dirname (p ++ [x]) = p.
Proof. unfold os_path_dirname. apply removelast_last. Qed.

Lemma path_snoc (p : path) :
  p <> [] -> p = os_path_dirname p ++ [os_path_basename p].
Proof. intros Hne. now apply app_removelast_last. Qed.

Lemma fs_lookup_app p q n :
  fs_lookup (p ++ q) n
  = match fs_lookup p n with Some m => fs_lookup q m | None => None end.
Proof.
  revert n. induction p as [ | x p IH]; intros n; simpl; [reflexivity | ].
  destruct n as [f | es]; [reflexivity | ].
  destruct (assoc x es); [apply IH | reflexivity].
Qed.

Lemma fs_lookup_alter_at g p n m :
  fs_lookup p n = Some m -> fs_lookup p (alter_at g p n) = Some (g m).
Proof.
  revert n. induction p as [ | x p IH]; intros n; simpl.
  - now intros [= ->].
  - destruct n as [f | es]; [discriminate | ]. simpl.
    rewrite assoc_alter_entry, String.eqb_refl.
    destruct (assoc x es) as [c | ]; [ | discriminate]. simpl. apply IH.
Qed.

Lemma alter_at_app g p q n :
  alter_at g (p ++ q) n = alter_at (alter_at g q) p n.
Proof.
  revert n. induction p as [ | x p IH]; intros n; simpl; [reflexivity | ].
  destruct n as [f | es]; [reflexivity | ].
  f_equal. unfold alter_entry. apply map_ext. intros [y d]. simpl.
  destruct (String.eqb x y); [ | reflexivity]. now rewrite IH.
Qed.

Lemma alter_at_twice g h p n :
  alter_at h p (alter_at g p n) = alter_at (fun m => h (g m)) p n.
Proof.
  revert n. induction p as [ | x p IH]; intros n; simpl; [reflexivity | ].
  destruct n as [f | es]; [reflexivity | ]. simpl.
  f_equal. unfold alter_entry. rewrite map_map. apply map_ext.
  intros [y d]. simpl. destruct (String.eqb x y) eqn:Hxy; simpl.
  - rewrite Hxy. now rewrite IH.
  - now rewrite Hxy.
Qed.

Lemma alter_at_id p n : alter_at (fun m => m) p n = n.
Proof.
  revert n. induction p as [ | x p IH]; intros n; simpl; [reflexivity | ].
  destruct n as [f | es]; [reflexivity | ]. f_equal.
  unfold alter_entry. rewrite <- (map_id es) at 2. apply map_ext.
  intros [y d]. simpl. destruct (String.eqb x y); [now rewrite IH | reflexivity].
Qed.

Lemma assoc_dir_put x y c es :
  assoc y (match assoc x es with
           | Some _ => alter_entry x (fun _ => c) es
           | None => es ++ [(x, c)]
           end)
  = if String.eqb x y then Some c else assoc y es.
Proof.
  destruct (assoc x es) as [c0 | ] eqn:Hx.
  - rewrite assoc_alter_entry.
    destruct (String.eqb_spec x y) as [-> | Hne]; [ | reflexivity].
    now rewrite Hx.
  - rewrite assoc_app. simpl.
    destruct (String.eqb_spec x y) as [-> | Hne].
    + now rewrite Hx, String.eqb_refl.
    + destruct (String.eqb_spec y x); [congruence | ].
      now destruct (assoc y es).
Qed.

(** Unlinking a name makes no path a file that was none, and the unlinked
    path is no file afterwards. *)
Lemma is_file_remove q x : forall p n,
  is_file p (alter_at (dir_remove x) q n) = true ->
  is_file p n = true /\ p <> q ++ [x].
Proof.
  unfold is_file. induction q as [ | z q IH]; intros p n; simpl.
  - destruct n as [f | es]; simpl.
    + destruct p as [ | y p]; simpl; [ | discriminate].
      intros _. split; [reflexivity | discriminate].
    + destruct p as [ | y p]; simpl; [discriminate | ].
      rewrite assoc_remove.
      destruct (String.eqb_spec x y) as [-> | Hne]; [discriminate | ].
      intros H. split; [exact H | congruence].
  - destruct n as [f | es]; simpl.
    + destruct p as [ | y p]; simpl; [ | discriminate].
      intros _. split; [reflexivity | discriminate].
    + destruct p as [ | y p]; simpl; [discriminate | ].
      rewrite assoc_alter_entry.
      destruct (String.eqb_spec z y) as [-> | Hne].
      * destruct (assoc y es) as [c | ]; simpl; [ | discriminate].
        intros H. apply IH in H as [H Hp]. split; [exact H | congruence].
      * intros H. split; [exact H | congruence].
Qed.

(** Writing a regular file under a name makes that path a file and no
    other. *)
Lemma is_file_put q x f : forall p n,
  is_file p (alter_at (dir_put x (File f)) q n) = true ->
  is_file p n = true \/ p = q ++ [x].
Proof.
  unfold is_file. induction q as [ | z q IH]; intros p n; simpl.
  - destruct n as [f0 | es]; simpl; [now left | ].
    destruct p as [ | y p].
    + now destruct (assoc x es).
    + cbn [fs_lookup]. 
      replace (match
                 match assoc x es with
                 | Some _ => Dir (alter_entry x (fun _ => File f) es)
                 | None => Dir (es ++ [(x, File f)])
                 end
               with
               | File _ => None
               | Dir es0 =>
                   match assoc y es0 with
                   | Some c => fs_lookup p c
                   | None => None
                   end
               end)
        with (match (if String.eqb x y then Some (File f) else assoc y es) with
              | Some c => fs_lookup p c
              | None => None
              end).
      2:{ rewrite <- (assoc_dir_put x y (File f) es).
          now destruct (assoc x es). }
      destruct (String.eqb_spec x y) as [-> | Hne]; [ | now left].
      destruct p as [ | y' p]; simpl; [now right | discriminate].
  - destruct n as [f0 | es]; simpl; [now left | ].
    destruct p as [ | y p]; simpl; [discriminate | ].
    rewrite assoc_alter_entry.
    destruct (String.eqb_spec z y) as [-> | Hne]; [ | now left].
    destruct (assoc y es) as [c | ]; simpl; [ | discriminate].
    intros H. apply IH in H as [H | ->]; [now left | now right].
Qed.

(** *** Well-formed trees stay well-formed *)

Lemma wf_alter_at g p : 
  (forall m, wf_node m -> wf_node (g m)) ->
  forall n, wf_node n -> wf_node (alter_at g p n).
Proof.
  intros Hg. induction p as [ | x p IH]; intros n Hn; simpl; [now apply Hg | ].
  destruct n as [f | es]; [exact Hn | ].
  apply wf_node_dir in Hn as [Hnd Hall]. apply wf_node_dir.
  rewrite map_fst_alter_entry. split; [exact Hnd | ].
  unfold alter_entry. apply List.Forall_map.
  eapply List.Forall_impl; [ | exact Hall].
  intros [y d] Hd. simpl in *. destruct (String.eqb x y); simpl; auto.
Qed.

Lemma wf_dir_remove x n : wf_node n -> wf_node (dir_remove x n).
Proof.
  destruct n as [f | es]; [easy | ]. simpl dir_remove.
  rewrite !wf_node_dir. intros [Hnd Hall]. split.
  - now apply NoDup_map_fst_filter.
  - apply List.Forall_forall. intros e He. apply filter_In in He as [He _].
    rewrite List.Forall_forall in Hall. now apply Hall.
Qed.

Lemma wf_dir_put x c n : wf_node c -> wf_node n -> wf_node (dir_put x c n).
Proof.
  intros Hc. destruct n as [f | es]; [easy | ]. simpl dir_put.
  intros Hn. apply wf_node_dir in Hn as [Hnd Hall].
  destruct (assoc x es) as [c0 | ] eqn:Hx; apply wf_node_dir.
  - rewrite map_fst_alter_entry. split; [exact Hnd | ].
    unfold alter_entry. apply List.Forall_map.
    eapply List.Forall_impl; [ | exact Hall].
    intros [y d] Hd. simpl in *. now destruct (String.eqb x y).
  - rewrite map_app. simpl. split.
    + apply List.NoDup_app; [exact Hnd | | ].
      * constructor; [intros [] | constructor].
      * intros y Hy [<- | []]. now apply assoc_None in Hx.
    + apply List.Forall_app. split; [exact Hall | ]. now constructor.
Qed.

(** ** Removing the emptied directories *)

Lemma for_app {A : Type} (l1 l2 : list A) (body : A -> M unit) w w1 :
  for_ l1 body w = (Done tt, w1) ->
  for_ (l1 ++ l2) body w = for_ l2 body w1.
Proof.
  revert w. induction l1 as [ | x l1 IH]; intros w; simpl.
  - now intros [= ->].
  - intros H. apply bind_done_inv in H as ([] & w2 & Hx & Hrest).
    rewrite (bind_done _ _ _ _ _ Hx). now apply IH.
Qed.

Lemma assoc_sweep_Some ds : forall es x c,
  assoc x (sweep ds es) = Some c -> assoc x es = Some c.
Proof.
  induction ds as [ | d ds IH]; intros es x c; simpl; [easy | ].
  intros H. apply IH in H.
  destruct (assoc d es) as [[f | [ | e es']] | ]; try exact H.
  rewrite assoc_remove in H. now destruct (String.eqb d x).
Qed.

Lemma assoc_sweep_empty ds : forall es x,
  assoc x (sweep ds es) = Some (Dir []) -> ~ In x ds.
Proof.
  induction ds as [ | d ds IH]; intros es x; simpl; [tauto | ].
  intros H [-> | Hin]; [ | now apply IH in H].
  apply assoc_sweep_Some in H.
  destruct (assoc x es) as [[f | [ | e es']] | ] eqn:Hx.
  - congruence.
  - rewrite assoc_remove, String.eqb_refl in H. discriminate.
  - congruence.
  - congruence.
Qed.

Lemma prune_is_dir c : is_dir_node (prune c) = is_dir_node c.
Proof. now destruct c. Qed.

Lemma in_dirnames d es :
  In d (dirnames es) <-> exists c, In (d, c) es /\ is_dir_node c = true.
Proof.
  unfold dirnames. rewrite in_map_iff. split.
  - intros ([x c] & <- & Hin). apply filter_In in Hin as [Hin Hdir].
    now exists c.
  - intros (c & Hin & Hdir). exists (d, c). split; [reflexivity | ].
    now apply filter_In.
Qed.

(** In the tree [prune] leaves, an empty directory has a dotted name. *)
Lemma prune_no_empty_dir n : forall p d,
  fs_lookup (p ++ [d]) (prune n) = Some (Dir []) -> startswith_dot d = true.
Proof.
  induction n as [f | es IH] using node_induction; intros p d.
  - destruct p; discriminate.
  - cbn [prune]. set (ds := List.filter _ (dirnames es)).
    set (es1 := map _ es).
    destruct p as [ | x p]; cbn [app fs_lookup].
    + destruct (assoc d (sweep ds es1)) as [c' | ] eqn:Hd; [ | discriminate].
      intros [= ->].
      pose proof (assoc_sweep_empty _ _ _ Hd) as Hnot.
      apply assoc_sweep_Some in Hd. unfold es1 in Hd.
      rewrite assoc_map_snd in Hd.
      destruct (assoc d es) as [c | ] eqn:Hc; [ | discriminate].
      injection Hd as Hd.
      destruct (startswith_dot d) eqn:Hdot; [reflexivity | ].
      exfalso. apply Hnot. unfold ds. apply filter_In. split.
      * apply in_dirnames. exists c. split; [now apply assoc_In | ].
        rewrite <- prune_is_dir, Hd. reflexivity.
      * now rewrite Hdot.
    + destruct (assoc x (sweep ds es1)) as [c' | ] eqn:Hx; [ | discriminate].
      apply assoc_sweep_Some in Hx. unfold es1 in Hx.
      rewrite assoc_map_snd in Hx.
      destruct (assoc x es) as [c | ] eqn:Hc; [ | discriminate].
      injection Hx as <-.
      rewrite List.Forall_forall in IH.
      apply (IH (x, c)). now apply assoc_In.
Qed.

Lemma os_rmdir_snoc root d w :
  fs_lookup (root ++ [d]) (w_fs w) = Some (Dir []) ->
  os_rmdir (root ++ [d]) w
  = (Done tt, set_fs (alter_at (dir_remove d) root) w).
Proof.
  intros H. unfold os_rmdir, bind, get_world. rewrite H.
  rewrite <- (basename_snoc root d) at 2.
  rewrite <- (dirname_snoc root d) at 3.
  destruct (root ++ [d]) eqn:E; [ | reflexivity].
  symmetry in E. now apply app_cons_not_nil in E.
Qed.

Lemma remove_if_empty_run root d cur es' w :
  fs_lookup root (w_fs w) = Some (Dir cur) ->
  assoc d cur = Some (Dir es') ->
  remove_if_empty root d w
  = (Done tt, match es' with
              | [] => set_fs (alter_at (dir_remove d) root) w
              | _ => w
              end).
Proof.
  intros Hroot Hd.
  assert (Hsub : fs_lookup (root ++ [d]) (w_fs w) = Some (Dir es')).
  { rewrite fs_lookup_app, Hroot. simpl. now rewrite Hd. }
  unfold remove_if_empty, os_path_join.
  assert (Hls : os_listdir (root ++ [d]) w = (Done (map fst es'), w)).
  { unfold os_listdir, bind, get_world. now rewrite Hsub. }
  rewrite (bind_done _ _ _ _ _ Hls).
  destruct es' as [ | e es']; [ | reflexivity].
  simpl map. now apply os_rmdir_snoc.
Qed.

(** The inner loop on the directory at [root], whose listing is [cur]. *)
Lemma sweep_loop ds : forall cur root w,
  fs_lookup root (w_fs w) = Some (Dir cur) ->
  List.NoDup ds ->
  (forall d, In d ds -> exists es', assoc d cur = Some (Dir es')) ->
  exists w' G,
    for_ ds (remove_if_empty root) w = (Done tt, w')
    /\ w_fs w' = alter_at G root (w_fs w)
    /\ G (Dir cur) = Dir (sweep ds cur).
Proof.
  induction ds as [ | d ds IH]; intros cur root w Hroot Hnd Hdirs.
  - exists w, (fun m => m). split; [reflexivity | ].
    split; [now rewrite alter_at_id | reflexivity].
  - inversion Hnd as [ | ? ? Hd Hnd']; subst.
    destruct (Hdirs d (or_introl eq_refl)) as (es' & Hes').
    pose proof (remove_if_empty_run _ _ _ _ _ Hroot Hes') as Hstep.
    cbn [for_ sweep]. rewrite (bind_done _ _ _ _ _ Hstep). rewrite Hes'.
    destruct es' as [ | e es'].
    + set (w1 := set_fs (alter_at (dir_remove d) root) w).
      assert (Hroot1 : fs_lookup root (w_fs w1)
                = Some (Dir (List.filter (fun e => negb (String.eqb d (fst e))) cur))).
      { unfold w1. cbn [w_fs set_fs].
        now rewrite (fs_lookup_alter_at _ _ _ _ Hroot). }
      destruct (IH _ root w1 Hroot1 Hnd') as (w' & G & Hrun & Hfs & HG).
      { intros d' Hd'. destruct (Hdirs d' (or_intror Hd')) as (es2 & Hes2).
        exists es2. rewrite assoc_remove.
        destruct (String.eqb_spec d d') as [-> | _]; [contradiction | exact Hes2]. }
      exists w', (fun m => G (dir_remove d m)). split; [exact Hrun | ].
      split; [ | exact HG].
      rewrite Hfs. unfold w1. cbn [w_fs set_fs]. apply alter_at_twice.
    + destruct (IH cur root w Hroot Hnd') as (w' & G & Hrun & Hfs & HG).
      { intros d' Hd'. apply Hdirs. now right. }
      exists w', G. auto.
Qed.

Lemma alter_entry_absent x g es :
  ~ In x (map fst es) -> alter_entry x g es = es.
Proof.
  intros Hx. unfold alter_entry. rewrite <- (map_id es) at 2.
  apply map_ext_in. intros [y d] Hin. simpl.
  destruct (String.eqb_spec x y) as [-> | _]; [ | reflexivity].
  exfalso. apply Hx. apply in_map_iff. now exists (y, d).
Qed.

Lemma alter_entry_unique x g pre c cs :
  List.NoDup (map fst (pre ++ (x, c) :: cs)) ->
  alter_entry x g (pre ++ (x, c) :: cs) = pre ++ (x, g c) :: cs.
Proof.
  intros Hnd. rewrite map_app in Hnd. simpl in Hnd.
  pose proof (NoDup_remove_2 _ _ _ Hnd) as Hx.
  unfold alter_entry at 1. rewrite map_app. simpl. rewrite String.eqb_refl.
  fold (alter_entry x g pre). fold (alter_entry x g cs).
  rewrite !alter_entry_absent; [reflexivity | | ];
    intros Hin; apply Hx, in_or_app; auto.
Qed.

Lemma cleanup_children cs :
  Forall (fun e => swept (snd e)) cs ->
  forall pre root w,
    List.NoDup (map fst (pre ++ cs)) ->
    Forall (fun e => wf_node (snd e)) cs ->
    fs_lookup root (w_fs w) = Some (Dir (pre ++ cs)) ->
    exists w' G,
      for_ (flat_map (fun e => walk_bottomup (root ++ [fst e]) (snd e)) cs)
           sweep_triple w = (Done tt, w')
      /\ w_fs w' = alter_at G root (w_fs w)
      /\ G (Dir (pre ++ cs))
         = Dir (pre ++ map (fun e => (fst e, prune (snd e))) cs).
Proof.
  induction 1 as [ | [x c] cs Hc _ IH]; intros pre root w Hnd Hwf Hroot.
  - exists w, (fun m => m). split; [reflexivity | ].
    split; [now rewrite alter_at_id | reflexivity].
  - inversion Hwf as [ | ? ? Hwfc Hwfcs]; subst. cbn [fst snd] in *.
    assert (Hchild : fs_lookup (root ++ [x]) (w_fs w) = Some c).
    { rewrite fs_lookup_app, Hroot. simpl.
      rewrite (In_assoc x _ c Hnd); [reflexivity | ].
      apply in_or_app. right. now left. }
    destruct (Hc (root ++ [x]) w Hwfc Hchild) as (w1 & G1 & Hrun1 & Hfs1 & HG1).
    rewrite alter_at_app in Hfs1.
    assert (Hroot1 : fs_lookup root (w_fs w1)
              = Some (Dir ((pre ++ [(x, prune c)]) ++ cs))).
    { rewrite Hfs1, (fs_lookup_alter_at _ _ _ _ Hroot). simpl.
      rewrite (alter_entry_unique _ _ _ _ _ Hnd), HG1.
      now rewrite <- app_assoc. }
    destruct (IH (pre ++ [(x, prune c)]) root w1) as (w' & G2 & Hrun2 & Hfs2 & HG2);
      [ | exact Hwfcs | exact Hroot1 | ].
    { rewrite <- app_assoc. simpl. rewrite map_app in *. exact Hnd. }
    exists w', (fun m => G2 (alter_at G1 [x] m)). split; [ | split].
    + cbn [flat_map fst snd]. rewrite (for_app _ _ _ _ _ Hrun1). exact Hrun2.
    + rewrite Hfs2, Hfs1. apply alter_at_twice.
    + simpl. rewrite (alter_entry_unique _ _ _ _ _ Hnd), HG1.
      replace (pre ++ (x, prune c) :: cs) with ((pre ++ [(x, prune c)]) ++ cs)
        by now rewrite <- app_assoc.
      rewrite HG2. now rewrite <- app_assoc.
Qed.

Lemma NoDup_dirnames es : List.NoDup (map fst es) -> List.NoDup (dirnames es).
Proof. apply NoDup_map_fst_filter. Qed.

(** The bottom-up loop prunes the tree it walks. *)
Lemma cleanup_spec n : swept n.
Proof.
  induction n as [f | es IH] using node_induction; intros root w Hwf Hroot.
  - exists w, (fun m => m). split; [reflexivity | ].
    split; [now rewrite alter_at_id | reflexivity].
  - apply wf_node_dir in Hwf as [Hnd Hall].
    destruct (cleanup_children es IH [] root w Hnd Hall Hroot)
      as (w1 & G1 & Hrun1 & Hfs1 & HG1).
    simpl app in HG1.
    set (es1 := map (fun e => (fst e, prune (snd e))) es) in *.
    set (ds := List.filter (fun d => negb (startswith_dot d)) (dirnames es)).
    assert (Hroot1 : fs_lookup root (w_fs w1) = Some (Dir es1)).
    { rewrite Hfs1, (fs_lookup_alter_at _ _ _ _ Hroot). now rewrite HG1. }
    destruct (sweep_loop ds es1 root w1 Hroot1) as (w' & G2 & Hrun2 & Hfs2 & HG2).
    { apply List.NoDup_filter. now apply NoDup_dirnames. }
    { intros d Hd. apply filter_In in Hd as [Hd _].
      apply in_dirnames in Hd as (c & Hin & Hdir).
      unfold es1. rewrite assoc_map_snd, (In_assoc d es c Hnd Hin). simpl.
      destruct c as [f | es']; [discriminate | ]. eexists. reflexivity. }
    exists w', (fun m => G2 (G1 m)). split; [ | split].
    + cbn [walk_bottomup]. rewrite (for_app _ _ _ _ _ Hrun1).
      cbn [for_]. unfold sweep_triple at 1. cbn [fst snd]. fold ds.
      now rewrite (bind_done _ _ _ _ _ Hrun2).
    + rewrite Hfs2, Hfs1. apply alter_at_twice.
    + rewrite HG1. exact HG2.
Qed.

(** ** What a computation may do to the file system *)

Section Respects.

Context (R : relation node) `{!PreOrder R}.

Lemma respects_same_fs {A : Type} (c : M A) :
  (forall w r w', c w = (r, w') -> w_fs w' = w_fs w) -> respects R c.
Proof. intros Hc w r w' H. rewrite (Hc _ _ _ H). reflexivity. Qed.

Lemma respects_ret {A : Type} (a : A) : respects R (ret a).
Proof. apply respects_same_fs. now intros w r w' [= _ ->]. Qed.

Lemma respects_raise {A : Type} e : respects R (@raise A e).
Proof. apply respects_same_fs. now intros w r w' [= _ ->]. Qed.

Lemma respects_sys_exit {A : Type} n : respects R (@sys_exit A n).
Proof. apply respects_same_fs. now intros w r w' [= _ ->]. Qed.

Lemma respects_hang {A : Type} : respects R (@hang A).
Proof. apply respects_same_fs. now intros w r w' [= _ ->]. Qed.

Lemma respects_get_world : respects R get_world.
Proof. apply respects_same_fs. now intros w r w' [= _ ->]. Qed.

Lemma respects_modify (g : world -> world) :
  (forall w, R (w_fs w) (w_fs (g w))) -> respects R (modify g).
Proof. intros Hg w r w' [= _ <-]. apply Hg. Qed.

Lemma respects_bind {A B : Type} (c : M A) (k : A -> M B) :
  respects R c -> (forall a, respects R (k a)) -> respects R (bind c k).
Proof.
  intros Hc Hk w r w'. unfold bind.
  destruct (c w) as [[a | e | ] w1] eqn:Hcw; intros H.
  - transitivity (w_fs w1); [exact (Hc _ _ _ Hcw) | exact (Hk _ _ _ _ H)].
  - injection H as _ <-. exact (Hc _ _ _ Hcw).
  - injection H as _ <-. exact (Hc _ _ _ Hcw).
Qed.

Lemma respects_try_except {A : Type} (c : M A) (h : pyexc -> M A) :
  respects R c -> (forall e, respects R (h e)) -> respects R (try_except c h).
Proof.
  intros Hc Hh w r w'. unfold try_except.
  destruct (c w) as [[a | [n | e] | ] w1] eqn:Hcw; intros H;
    try (injection H as _ <-; exact (Hc _ _ _ Hcw)).
  transitivity (w_fs w1); [exact (Hc _ _ _ Hcw) | exact (Hh _ _ _ _ H)].
Qed.

Lemma respects_for_ {A : Type} (l : list A) (body : A -> M unit) :
  (forall x, respects R (body x)) -> respects R (for_ l body).
Proof.
  intros Hb. induction l as [ | x l IH]; simpl.
  - apply respects_ret.
  - apply respects_bind; auto.
Qed.

Lemma respects_for_acc {A S : Type} (l : list A) (body : A -> S -> M S) :
  (forall x s, respects R (body x s)) -> forall s, respects R (for_acc l body s).
Proof.
  intros Hb. induction l as [ | x l IH]; intros s; simpl.
  - apply respects_ret.
  - apply respects_bind; auto.
Qed.

Lemma respects_fs_reader {A : Type} (c : M A) : fs_reader c -> respects R c.
Proof.
  intros Hc. apply respects_same_fs. intros w r w' H.
  destruct (Hc w) as (r0 & Hr & _). rewrite Hr in H. now injection H as _ <-.
Qed.

End Respects.

(** The rules above, applied as far as they go. *)
Ltac respects_tac :=
  repeat first
    [ apply respects_ret; typeclasses eauto
    | apply respects_raise; typeclasses eauto
    | apply respects_sys_exit; typeclasses eauto
    | apply respects_hang; typeclasses eauto
    | apply respects_get_world; typeclasses eauto
    | apply respects_modify; intros ?;
      cbn [w_fs set_fs set_s3 set_globus set_rng set_clock log_call];
      reflexivity
    | apply respects_bind; [typeclasses eauto | | intros ? ]
    | apply respects_try_except; [typeclasses eauto | | intros ? ]
    | apply respects_for_; [typeclasses eauto | intros ? ]
    | apply respects_for_acc; [typeclasses eauto | intros ? ? ]
    | match goal with
      | |- respects _ (match ?x with _ => _ end) => destruct x
      | |- respects _ (if ?x then _ else _) => destruct x
      | |- respects _ (let '(_, _) := ?x in _) => destruct x
      end ].

#[local] Instance wf_kept_preorder : PreOrder wf_kept.
Proof. split; [intros n H; exact H | intros a b c Hab Hbc H; auto]. Qed.

#[local] Instance no_new_file_preorder : PreOrder no_new_file.
Proof. split; [intros n p H; exact H | intros a b c Hab Hbc p H; auto]. Qed.

Lemma wf_kept_remove x q n : wf_kept n (alter_at (dir_remove x) q n).
Proof. intros Hn. apply wf_alter_at; [apply wf_dir_remove | exact Hn]. Qed.

Lemma wf_kept_put x f q n : wf_kept n (alter_at (dir_put x (File f)) q n).
Proof.
  intros Hn. apply wf_alter_at; [ | exact Hn].
  intros m Hm. now apply wf_dir_put.
Qed.

Lemma no_new_file_remove x q n : no_new_file n (alter_at (dir_remove x) q n).
Proof. intros p H. now apply is_file_remove in H. Qed.

(** Unfold the program down to the primitives of the monad and apply the
    rules; what is left are the changes to the file system. *)
Ltac unfold_program :=
  unfold run_archive, run_restore, get_files, create_tarball,
    test_tarball_integrity, get_tarball_md5sums, tarfile_open,
    calculate_file_md5sum, transfer_to_s3, globus_transfer_to_archive,
    initiate_globus_transfer, globus_path_exists, globus_create_directory,
    check_s3_bucket, check_s3_object, check_storage_class,
    initiate_deep_archive_restore, check_restore_status, download_s3_object,
    json_load, max_by_getctime, pd_DataFrame, py_index, py_local, py_in,
    os_path_basename_of, sweep_triple, remove_if_empty, random_choices,
    head_bucket, head_object, upload_file, download_file, restore_object,
    globus_ls, globus_mkdir, globus_transfer, globus_task_wait,
    globus_task_show, glob_glob, os_walk, os_walk_bottomup, os_path_isfile,
    os_path_isdir, os_path_getsize, os_path_getctime, os_listdir, os_remove,
    os_rmdir, read_file, write_file, time_time, time_sleep.

Ltac respects_fs :=
  unfold_program; respects_tac;
  try (apply respects_modify; intros ?; cbn [w_fs set_fs];
       first [ apply wf_kept_remove | apply wf_kept_put
             | apply no_new_file_remove ]).

Section FrameProperties.

Variable md5 : blob -> string.

Lemma wf_kept_os_remove p : respects wf_kept (os_remove p).
Proof. respects_fs. Qed.

Lemma wf_kept_create_tarball files tarball_path :
  respects wf_kept (create_tarball files tarball_path).
Proof. respects_fs. Qed.

Lemma wf_kept_transfer_to_s3 bucket region tarball_path overwrite sc :
  respects wf_kept (transfer_to_s3 bucket region tarball_path overwrite sc).
Proof. respects_fs. Qed.

Lemma wf_kept_globus file_path endpoint_id destination_path :
  respects wf_kept
    (globus_transfer_to_archive file_path endpoint_id destination_path).
Proof. respects_fs. Qed.

Lemma no_new_file_sweep_triple t : respects no_new_file (sweep_triple t).
Proof. respects_fs. Qed.

End FrameProperties.

(** ** What the enumerator lists, and the names the program gives *)

Lemma walk_topdown_roots n : forall root t,
  In t (walk_topdown root n) -> exists r, fst (fst t) = root ++ r.
Proof.
  induction n as [f | es IH] using node_induction; intros root t; simpl.
  - intros [].
  - intros [<- | Hin].
    + exists []. now rewrite app_nil_r.
    + apply in_flat_map in Hin as (e & He & Hin).
      rewrite List.Forall_forall in IH.
      destruct (IH e He _ _ Hin) as (r & Hr).
      exists (fst e :: r). rewrite Hr, <- app_assoc. reflexivity.
Qed.

Lemma relpath_prefix (start r : path) :
  r <> [] -> os_path_relpath (start ++ r) start = r.
Proof.
  intros Hr. induction start as [ | x start IH]; simpl.
  - destruct r; [contradiction | reflexivity].
  - now rewrite String.eqb_refl.
Qed.

Lemma in_zip_rows_file f a b c : In f (map df_file (zip_rows a b c)) -> In f a.
Proof.
  revert b c. induction a as [ | x a IH]; intros b c; simpl; [easy | ].
  destruct b as [ | y b]; [easy | ]. destruct c as [ | z c]; [easy | ].
  simpl. intros [<- | H]; [now left | right; eauto].
Qed.

(** A loop that appends [g x] to the first of its lists on every turn. *)
Lemma for_acc_first_column {A B C D : Type} (g : A -> B)
    (body : A -> list B * C * D -> M (list B * C * D)) :
  (forall x acc w r w',
     body x acc w = (Done r, w') -> fst (fst r) = fst (fst acc) ++ [g x]) ->
  forall l acc w r w',
    for_acc l body acc w = (Done r, w') ->
    fst (fst r) = fst (fst acc) ++ map g l.
Proof.
  intros Hbody. induction l as [ | x l IH]; intros acc w r w'; simpl.
  - intros [= <- _]. now rewrite app_nil_r.
  - intros H. apply bind_done_inv in H as (acc1 & w1 & Hx & Hrest).
    rewrite (IH _ _ _ _ Hrest), (Hbody _ _ _ _ _ Hx), <- app_assoc.
    reflexivity.
Qed.

Lemma choice_alphabet_nonspace i : Re.nonspace (choice alphabet i) = true.
Proof.
  unfold choice. change (String.length alphabet) with 62%nat.
  assert (Hk : (i mod 62 < 62)%nat) by (apply Nat.mod_upper_bound; lia).
  generalize dependent (i mod 62)%nat. intros k Hk.
  do 62 (destruct k as [ | k]; [reflexivity | ]). lia.
Qed.

(** A drawn id is a non-empty run of letters and digits, so the sidecar
    and the bundle named after it are among the names [get_files] passes
    over. *)
Lemma drawn_sidecar_is_own_artifact rng :
  own_artifact
    (sidecar_name
       (string_of_list_ascii
          (map (choice alphabet) (firstn 20 (rng ++ repeat 0%nat 20)))))
  = true.
Proof.
  unfold own_artifact. apply orb_true_iff. right.
  apply json_re_matches.
  - assert (Hlen : length (firstn 20 (rng ++ repeat 0%nat 20)) = 20%nat).
    { rewrite length_firstn, length_app, repeat_length. lia. }
    destruct (firstn 20 (rng ++ repeat 0%nat 20)); [discriminate | ].
    discriminate.
  - rewrite list_ascii_of_string_of_list_ascii.
    apply List.Forall_forall. intros c Hc.
    apply in_map_iff in Hc as (i & <- & _). apply choice_alphabet_nonspace.
Qed.

Section Enumeration.

Variable md5 : blob -> string.

(** Every path [get_files] lists for a directory ends in a name that is
    not one of the program's own artifacts. *)
Lemma get_files_lists_no_artifact filepath w df w' :
  get_files md5 filepath w = (Done df, w') ->
  forall f, In f (map df_file df) ->
  exists r name, f = r ++ [name] /\ own_artifact name = false.
Proof.
  unfold get_files. intros H f Hf.
  apply bind_done_inv in H as (isfile & w1 & _ & H).
  destruct isfile.
  { apply bind_done_inv in H as (size & w2 & _ & H). discriminate. }
  apply bind_done_inv in H as (isdir & w2 & _ & H).
  destruct isdir; [ | discriminate].
  apply bind_done_inv in H as (triples & w3 & Hwalk & H).
  apply bind_done_inv in H as ([[files sizes] sums] & w4 & Hloop & H).
  unfold pd_DataFrame in H.
  destruct (_ && _)%bool; [ | discriminate].
  injection H as <- _.
  apply in_zip_rows_file in Hf.
  apply (for_acc_first_column (fun p => os_path_relpath p filepath)) in Hloop.
  2:{ intros x [[a b] c] v r v' Hx.
      apply bind_done_inv in Hx as (size & v1 & _ & Hx).
      apply bind_done_inv in Hx as (h & v2 & _ & Hx).
      now injection Hx as <- _. }
  simpl in Hloop. subst files.
  apply in_map_iff in Hf as (full & <- & Hfull).
  apply in_flat_map in Hfull as ([[root dirs] names] & Ht & Hfull).
  apply in_map_iff in Hfull as (name & <- & Hname).
  apply filter_In in Hname as [_ Hname]. cbn [fst snd].
  assert (Hroot : exists r, root = filepath ++ r).
  { unfold os_walk, bind, get_world, ret in Hwalk.
    destruct (fs_lookup filepath (w_fs w2)) as [n | ];
      injection Hwalk as <- _; [ | destruct Ht].
    exact (walk_topdown_roots _ _ _ Ht). }
  destruct Hroot as (r & ->).
  exists r, name. split.
  - unfold os_path_join. rewrite <- app_assoc. apply relpath_prefix.
    now destruct r.
  - now destruct (own_artifact name).
Qed.

Lemma walk_topdown_lists q : forall n root es,
  fs_lookup q n = Some (Dir es) ->
  In (root ++ q, dirnames es, filenames es) (walk_topdown root n).
Proof.
  induction q as [ | x q IH]; intros n root es; simpl.
  - intros [= ->]. rewrite app_nil_r. now left.
  - destruct n as [f | es0]; [discriminate | ].
    destruct (assoc x es0) as [c | ] eqn:Hx; [ | discriminate].
    intros Hq. right. apply in_flat_map. exists (x, c).
    split; [exact (assoc_In _ _ _ Hx) | ].
    cbn [fst snd]. replace (root ++ x :: q) with ((root ++ [x]) ++ q)
      by now rewrite <- app_assoc.
    now apply IH.
Qed.

Lemma assoc_file_in_filenames name es f :
  assoc name es = Some (File f) -> In name (filenames es).
Proof.
  intros H. apply assoc_In in H. unfold filenames.
  apply in_map_iff. exists (name, File f). split; [reflexivity | ].
  apply filter_In. now split.
Qed.

Lemma zip_rows_files a : forall b c,
  length a = length b -> length b = length c ->
  map df_file (zip_rows a b c) = a.
Proof.
  induction a as [ | x a IH]; intros [ | y b] [ | z c]; simpl;
    try discriminate; try reflexivity.
  intros [= Hab] [= Hbc]. now rewrite IH.
Qed.

(** Every regular file under the directory whose name is not one of the
    program's own artifacts is listed, by its path from the directory --
    whether or not the name, or the name of a directory on the way, begins
    with a dot. *)
Theorem get_files_lists_every_other_file filepath w df w' q name f :
  get_files md5 filepath w = (Done df, w') ->
  fs_lookup (filepath ++ q ++ [name]) (w_fs w) = Some (File f) ->
  own_artifact name = false ->
  In (q ++ [name]) (map df_file df).
Proof.
  unfold get_files. intros H Hf Hname.
  apply bind_done_inv in H as (isfile & w1 & Hisfile & H).
  unfold os_path_isfile, bind, get_world, ret in Hisfile.
  injection Hisfile as <- <-.
  destruct (match fs_lookup filepath (w_fs w) with
            | Some (File _) => true | _ => false end).
  { apply bind_done_inv in H as (size & w2 & _ & H). discriminate. }
  apply bind_done_inv in H as (isdir & w2 & Hisdir & H).
  unfold os_path_isdir, bind, get_world, ret in Hisdir.
  injection Hisdir as <- <-.
  destruct (match fs_lookup filepath (w_fs w) with
            | Some (Dir _) => true | _ => false end); [ | discriminate].
  apply bind_done_inv in H as (triples & w3 & Hwalk & H).
  apply bind_done_inv in H as ([[files sizes] sums] & w4 & Hloop & H).
  unfold pd_DataFrame in H.
  destruct (_ && _)%bool eqn:Hlen; [ | discriminate].
  injection H as <- _.
  apply andb_true_iff in Hlen as [Hab Hbc].
  apply Nat.eqb_eq in Hab, Hbc. rewrite (zip_rows_files _ _ _ Hab Hbc).
  apply (for_acc_first_column (fun p => os_path_relpath p filepath)) in Hloop.
  2:{ intros x [[a b] c] v r v' Hx.
      apply bind_done_inv in Hx as (size & v1 & _ & Hx).
      apply bind_done_inv in Hx as (h & v2 & _ & Hx).
      now injection Hx as <- _. }
  simpl in Hloop. subst files.
  rewrite fs_lookup_app in Hf.
  unfold os_walk, bind, get_world, ret in Hwalk.
  destruct (fs_lookup filepath (w_fs w)) as [n | ]; [ | discriminate].
  injection Hwalk as <- _.
  rewrite fs_lookup_app in Hf.
  destruct (fs_lookup q n) as [[f0 | es] | ] eqn:Hq; try discriminate.
  cbn [fs_lookup] in Hf.
  destruct (assoc name es) as [c | ] eqn:Hc; [ | discriminate].
  injection Hf as ->.
  apply in_map_iff. exists ((filepath ++ q) ++ [name]). split.
  - rewrite <- app_assoc. apply relpath_prefix. now destruct q.
  - apply in_flat_map. exists (filepath ++ q, dirnames es, filenames es).
    split; [exact (walk_topdown_lists _ _ _ _ Hq) | ].
    cbn [fst snd]. unfold os_path_join.
    apply (List.in_map (fun x => (filepath ++ q) ++ [x])). apply filter_In.
    split; [exact (assoc_file_in_filenames _ _ _ Hc) | now rewrite Hname].
Qed.

(** No path [get_files] lists ends in the name of a bundle or a sidecar of
    the program. *)
Theorem get_files_omits_own_artifacts filepath w df w' r name :
  get_files md5 filepath w = (Done df, w') ->
  own_artifact name = true ->
  ~ In (r ++ [name]) (map df_file df).
Proof.
  intros H Hname Hin.
  destruct (get_files_lists_no_artifact _ _ _ _ H _ Hin)
    as (r' & name' & E & Hfalse).
  apply app_inj_tail in E as [_ ->]. congruence.
Qed.

End Enumeration.

(** ** The effect of a successful archive on the sources *)

Lemma wf_lookup p : forall n m,
  wf_node n -> fs_lookup p n = Some m -> wf_node m.
Proof.
  induction p as [ | x p IH]; intros n m Hn; simpl.
  - now intros [= <-].
  - destruct n as [f | es]; [discriminate | ].
    destruct (assoc x es) as [c | ] eqn:Hx; [ | discriminate].
    apply IH. apply wf_node_dir in Hn as [_ Hall].
    rewrite List.Forall_forall in Hall.
    exact (Hall (x, c) (assoc_In _ _ _ Hx)).
Qed.

Lemma write_file_Done p size data w w' :
  write_file p size data w = (Done tt, w') ->
  exists es f,
    fs_lookup (os_path_dirname p) (w_fs w) = Some (Dir es)
    /\ w_fs w' = alter_at (dir_put (os_path_basename p) (File f))
                          (os_path_dirname p) (w_fs w).
Proof.
  unfold write_file, bind, get_world.
  destruct (fs_lookup p (w_fs w)) as [[f0 | es0] | ]; try discriminate;
    (destruct p as [ | x p]; [discriminate | ]);
    (destruct (fs_lookup (os_path_dirname (x :: p)) (w_fs w))
       as [[f1 | es1] | ]; try discriminate);
    intros [= <-]; eauto.
Qed.

Lemma os_remove_Done p w w' :
  os_remove p w = (Done tt, w') ->
  p <> []
  /\ w_fs w' = alter_at (dir_remove (os_path_basename p)) (os_path_dirname p)
                        (w_fs w).
Proof.
  unfold os_remove, bind, get_world.
  destruct (fs_lookup p (w_fs w)) as [[f0 | es0] | ]; try discriminate.
  destruct p as [ | x p]; [discriminate | ].
  intros [= <-]. split; [discriminate | reflexivity].
Qed.

(** Once removed, a path is no regular file. *)
Lemma os_remove_gone p w w' :
  os_remove p w = (Done tt, w') -> is_file p (w_fs w') = false.
Proof.
  intros H. apply os_remove_Done in H as [Hp Hfs].
  destruct (is_file p (w_fs w')) eqn:Hfile; [ | reflexivity].
  rewrite Hfs in Hfile. apply is_file_remove in Hfile as [_ Hne].
  now destruct (Hne (path_snoc p Hp)).
Qed.

Lemma fs_lookup_dir_put q d s f m es :
  fs_lookup (q ++ [d]) (dir_put s (File f) m) = Some (Dir es) ->
  fs_lookup (q ++ [d]) m = Some (Dir es).
Proof.
  destruct m as [f0 | es0]; [easy | ]. 
  destruct (q ++ [d]) as [ | y r] eqn:Hq.
  { symmetry in Hq. now apply app_cons_not_nil in Hq. }
  unfold dir_put.
  assert (Hput : forall l,
            fs_lookup (y :: r)
              (match assoc s es0 with
               | Some _ => Dir (alter_entry s (fun _ => File f) es0)
               | None => Dir (es0 ++ [(s, File f)])
               end) = l ->
            match (if String.eqb s y then Some (File f) else assoc y es0) with
            | Some c => fs_lookup r c
            | None => None
            end = l).
  { intros l <-. rewrite <- (assoc_dir_put s y (File f) es0).
    now destruct (assoc s es0). }
  intros H. apply Hput in H. simpl.
  destruct (String.eqb s y); [ | exact H].
  destruct r; discriminate.
Qed.

(** The loop that deletes the listed files. *)
Lemma delete_loop_gone (root : path) (files : list path) : forall w w',
  for_ files
    (fun file =>
       isfile <- os_path_isfile (os_path_join root file) ;;
       if isfile then os_remove (os_path_join root file) else ret tt) w
  = (Done tt, w') ->
  forall f, In f files -> is_file (root ++ f) (w_fs w') = false.
Proof.
  induction files as [ | x files IH]; intros w w' H f Hf; [destruct Hf | ].
  cbn [for_] in H. apply bind_done_inv in H as ([] & w1 & Hx & Hrest).
  destruct Hf as [<- | Hf]; [ | exact (IH _ _ Hrest f Hf)].
  assert (Hgone : is_file (root ++ x) (w_fs w1) = false).
  { apply bind_done_inv in Hx as (isfile & w0 & Hisfile & Hx).
    unfold os_path_isfile, bind, get_world, ret in Hisfile.
    injection Hisfile as <- <-.
    unfold os_path_join in *.
    destruct (fs_lookup (root ++ x) (w_fs w)) as [[f0 | es0] | ] eqn:Hlook.
    - now apply os_remove_gone in Hx.
    - injection Hx as <-. unfold is_file. now rewrite Hlook.
    - injection Hx as <-. unfold is_file. now rewrite Hlook. }
  assert (Hmono : respects no_new_file
            (for_ files
               (fun file =>
                  isfile <- os_path_isfile (os_path_join root file) ;;
                  if isfile then os_remove (os_path_join root file)
                  else ret tt))) by respects_fs.
  destruct (is_file (root ++ x) (w_fs w')) eqn:Hfile; [ | reflexivity].
  apply (Hmono _ _ _ Hrest) in Hfile. congruence.
Qed.

(** From a run of [c] and a well-formed tree before it, a well-formed
    tree after it. *)
Ltac wf_step H :=
  match type of H with
  | ?c ?w = (_, ?w') =>
      assert (wf_node (w_fs w'))
        by (refine ((_ : respects wf_kept c) _ _ _ H _);
            [respects_fs | assumption])
  end.

Section ArchiveEffect.

Variable md5 : blob -> string.

(** After a successful archive of a directory that is not a dry run and
    is not told to keep the sources: the manifest lists what [get_files]
    enumerated; none of those paths is a regular file any more; and no
    directory anywhere below the archived one is left empty, unless its
    name begins with a dot (the sweep passes over those). *)
Theorem archive_removes_sources cfg filepath archivepath force overwrite w m w' :
  wf_node (w_fs w) ->
  mode cfg <> "dry-run"%string ->
  run_archive md5 cfg filepath archivepath false force overwrite false w
  = (Done m, w') ->
  (exists df, fst (get_files md5 filepath w) = Done df
              /\ Files m = map df_file df /\ LocalPath m = filepath)
  /\ (forall f, In f (Files m) -> is_file (LocalPath m ++ f) (w_fs w') = false)
  /\ (forall q d,
        fs_lookup (LocalPath m ++ q ++ [d]) (w_fs w') = Some (Dir []) ->
        startswith_dot d = true).
Proof.
  intros Hwf Hmode H. unfold run_archive in H.
  apply bind_done_inv in H as (ts & w0 & Hts & H).
  injection Hts as <- <-.
  apply bind_done_inv in H as (found & w1 & Hglob & H).
  destruct (glob_glob_total filepath sidecar_glob w) as (l & Hl).
  rewrite Hl in Hglob. injection Hglob as <- <-.
  apply bind_done_inv in H as (tb & w2 & Htb & H).
  assert (Htb' : tb = inl false /\ w2 = w).
  { destruct l as [ | p ps]; [now injection Htb as <- <- | ].
    destruct force, overwrite; cbn [negb andb] in Htb; try discriminate.
    now injection Htb as <- <-. }
  destruct Htb' as [-> ->]. clear Htb. cbn [truthy] in H.
  apply bind_done_inv in H as ([[[unique_id tarball] root] fileDf] & w3 & Hprep & H).
  apply bind_done_inv in Hprep as (uid & w4 & Hid & Hprep).
  rewrite random_choices_run in Hid. injection Hid as <- <-.
  apply bind_done_inv in Hprep as (df & w5 & Hdf & Hprep).
  destruct (length df =? 0)%nat; [discriminate | ].
  destruct (size_sum df >? 2000000000000); [discriminate | ].
  apply bind_done_inv in Hprep as ([] & w6 & Htar & Hprep).
  injection Hprep as <- <- <- <- <-.
  unfold os_path_abspath in *.
  apply bind_done_inv in H as (tarball_md5sum & w7 & Hsum & H).
  apply bind_done_inv in H as (intact & w8 & Hintact & H).
  destruct intact; cbn [negb] in H.
  2:{ apply bind_done_inv in H as (u & w9 & _ & H). discriminate. }
  destruct (String.eqb_spec (mode cfg) "dry-run") as [Hdry | _];
    [contradiction | ].
  apply bind_done_inv in H as (u1 & w9 & Htransfer & H).
  apply bind_done_inv in H as (u2 & w10 & Hclean & H).
  apply bind_done_inv in H as ([] & w11 & Hjson & H).
  injection H as <- <-. cbn [Files LocalPath].
  apply bind_done_inv in Hclean as ([] & w12 & Hdelete & Hclean).
  apply bind_done_inv in Hclean as (triples & w13 & Hwalk & Hsweep).
  change (for_ triples sweep_triple w13 = (Done u2, w10)) in Hsweep.
  destruct u2.
  (* the enumeration *)
  set (w4 := set_rng (skipn 20) w) in *.
  destruct (fs_reader_get_files md5 filepath w) as (r & Hr & Hr').
  rewrite (Hr' w4 eq_refl) in Hdf. injection Hdf as -> <-.
  (* the tree stays well-formed up to the sweep *)
  assert (Hwf12 : wf_node (w_fs w12)).
  { wf_step Htar. wf_step Hsum. wf_step Hintact. wf_step Htransfer.
    wf_step Hdelete. assumption. }
  (* the last step writes the sidecar into the archived directory *)
  apply write_file_Done in Hjson as (es & sidecar & Hdir & Hfs').
  unfold os_path_join in Hdir, Hfs'.
  rewrite dirname_snoc in Hdir. rewrite dirname_snoc, basename_snoc in Hfs'.
  (* the sweep *)
  unfold os_walk_bottomup, bind, get_world, ret in Hwalk.
  destruct (fs_lookup filepath (w_fs w12)) as [n | ] eqn:Hn;
    injection Hwalk as <- <-.
  2:{ injection Hsweep as <-. congruence. }
  destruct (cleanup_spec n filepath w12 (wf_lookup _ _ _ Hwf12 Hn) Hn)
    as (w10' & G & Hrun & Hfs10 & HG).
  rewrite Hrun in Hsweep. injection Hsweep as ->.
  split; [ | split].
  - exists df. rewrite Hr. auto.
  - intros f Hf.
    destruct (is_file (filepath ++ f) (w_fs w11)) eqn:Hfile; [ | reflexivity].
    exfalso. rewrite Hfs' in Hfile.
    apply is_file_put in Hfile as [Hfile | Hsame].
    + assert (Hmono : respects no_new_file (for_ (walk_bottomup filepath n) sweep_triple)).
      { apply respects_for_; [typeclasses eauto | ].
        intros t. apply no_new_file_sweep_triple. }
      apply (Hmono _ _ _ Hrun) in Hfile.
      rewrite (delete_loop_gone _ _ _ _ Hdelete f Hf) in Hfile. discriminate.
    + apply app_inv_head in Hsame. subst f.
      destruct (get_files_lists_no_artifact _ _ _ _ _ Hr _ Hf)
        as (r0 & name & Heq & Hname).
      change [sidecar_name ?x] with ([] ++ [sidecar_name x]) in Heq.
      apply app_inj_tail in Heq as [_ <-].
      unfold w4 in Hname. now rewrite drawn_sidecar_is_own_artifact in Hname.
  - intros q d Hq.
    rewrite Hfs', fs_lookup_app in Hq.
    rewrite (fs_lookup_alter_at _ _ _ (G n)) in Hq.
    2:{ rewrite Hfs10. now apply fs_lookup_alter_at. }
    apply fs_lookup_dir_put in Hq. rewrite HG in Hq.
    exact (prune_no_empty_dir _ _ _ Hq).
Qed.

End ArchiveEffect.

(** ** Restoring from an archival tier *)

Lemma head_object_run bucket key o w :
  s3_object bucket key w = Some o ->
  head_object bucket key w
  = (Done (o_class o, hd None (o_restore o)),
     set_s3 (alter (alter pop_restore key) bucket)
            (log_call (HeadObject bucket key) w)).
Proof.
  intros Ho. unfold head_object, bind, modify, get_world.
  change (s3_object bucket key (log_call (HeadObject bucket key) w))
    with (s3_object bucket key w).
  now rewrite Ho.
Qed.

Lemma s3_object_after_head bucket key o c w :
  s3_object bucket key w = Some o ->
  s3_object bucket key
    (set_s3 (alter (alter pop_restore key) bucket) (log_call c w))
  = Some (pop_restore o).
Proof.
  unfold s3_object. cbn [w_s3 set_s3 log_call].
  rewrite lookup_alter_eq.
  destruct (w_s3 w !! bucket) as [objs | ]; [ | discriminate]. simpl.
  rewrite lookup_alter_eq. now intros ->.
Qed.

Section ArchivalRestore.

Variable md5 : blob -> string.

(** C7 (what the code does).  The bundle is in an archival class and its
    [Restore] field is absent -- the backend reports no restore in
    progress, as for any object that was never restored.
    [check_restore_status] returns [None], the membership test on it raises
    [TypeError], and [run_restore] stops there: after two [head_object]
    calls, with no restore request issued, no polling and no download. *)
Theorem restore_without_status_raises cfg filepath keep w es m o :
  fs_lookup filepath (w_fs w) = Some (Dir es) ->
  load_manifest filepath w = (Done m, w) ->
  Location m = "glacier"%string ->
  s3_object (ArchivePath m) (Filename m) w = Some o ->
  o_class o = Some "DEEP_ARCHIVE"%string \/ o_class o = Some "GLACIER"%string ->
  o_restore o = [] ->
  exists w',
    run_restore md5 cfg filepath keep w = (Fail (Raised TypeError), w')
    /\ w_calls w'
       = w_calls w ++ [HeadObject (ArchivePath m) (Filename m);
                       HeadObject (ArchivePath m) (Filename m)]
    /\ w_fs w' = w_fs w.
Proof.
  intros Hdir Hload Hloc Ho Hclass Hrestore.
  unfold load_manifest in Hload.
  apply bind_done_inv in Hload as (found & w1 & Hglob & Hload).
  apply bind_done_inv in Hload as (latest & w2 & Hmax & Hjson).
  set (b := ArchivePath m) in *. set (k := Filename m) in *.
  set (w3 := set_s3 (alter (alter pop_restore k) b)
                    (log_call (HeadObject b k) w)).
  set (w4 := set_s3 (alter (alter pop_restore k) b)
                    (log_call (HeadObject b k) w3)).
  exists w4. split; [ | split].
  - unfold run_restore.
    assert (Hisdir : os_path_isdir filepath w = (Done true, w)).
    { unfold os_path_isdir, bind, get_world, ret. now rewrite Hdir. }
    rewrite (bind_done _ _ _ _ _ Hisdir). cbn [negb].
    rewrite (bind_done _ _ _ _ _ Hglob), (bind_done _ _ _ _ _ Hmax),
      (bind_done _ _ _ _ _ Hjson).
    rewrite Hloc. cbn [String.eqb Ascii.eqb Bool.eqb].
    assert (Hfetch :
      (storage_class <- check_storage_class b k (s3_region cfg) ;;
       if (String.eqb storage_class "DEEP_ARCHIVE"
           || String.eqb storage_class "GLACIER")%bool
       then
         restore_status <- check_restore_status b k (s3_region cfg) ;;
         finished <- py_in ongoing_false restore_status ;;
         (if finished
          then initiate_deep_archive_restore b k 7 "Bulk" (s3_region cfg)
          else ret tt) ;;
         wait_for_restore b k (s3_region cfg) 120 ;;
         download_s3_object b k (os_path_join filepath [k]) (s3_region cfg)
       else if (String.eqb storage_class "STANDARD_IA"
                || String.eqb storage_class "STANDARD"
                || String.eqb storage_class "GLACIER_IR")%bool
       then download_s3_object b k (os_path_join filepath [k]) (s3_region cfg)
       else sys_exit 1) w = (Fail (Raised TypeError), w4)).
    { assert (Hsc : exists sc,
                check_storage_class b k (s3_region cfg) w = (Done sc, w3)
                /\ (String.eqb sc "DEEP_ARCHIVE" || String.eqb sc "GLACIER")%bool
                   = true).
      { unfold check_storage_class.
        rewrite (bind_done _ _ _ _ _ (head_object_run b k o w Ho)).
        cbn [fst]. destruct Hclass as [-> | ->]; eexists; split; reflexivity. }
      destruct Hsc as (sc & Hsc & Harch).
      rewrite (bind_done _ _ _ _ _ Hsc), Harch.
      assert (Hstatus : check_restore_status b k (s3_region cfg) w3 = (Done None, w4)).
      { unfold check_restore_status, try_except.
        pose proof (s3_object_after_head b k o (HeadObject b k) w Ho) as Ho3.
        fold w3 in Ho3.
        pose proof (head_object_run b k _ w3 Ho3) as Hhead. fold w4 in Hhead.
        cbn [o_class o_restore pop_restore] in Hhead. rewrite Hrestore in Hhead.
        unfold bind at 1. rewrite Hhead. reflexivity. }
      rewrite (bind_done _ _ _ _ _ Hstatus). reflexivity. }
    now rewrite (bind_fail _ _ _ _ _ Hfetch).
  - unfold w4, w3. cbn [w_calls set_s3 log_call]. now rewrite <- app_assoc.
  - reflexivity.
Qed.

End ArchivalRestore.

(** ** Restoring from an archival tier when the status is reported *)

Lemma check_restore_status_run bucket key region o w :
  s3_object bucket key w = Some o ->
  check_restore_status bucket key region w
  = (Done (hd None (o_restore o)),
     set_s3 (alter (alter pop_restore key) bucket)
            (log_call (HeadObject bucket key) w)).
Proof.
  intros Ho. unfold check_restore_status, try_except. unfold bind at 1.
  now rewrite (head_object_run _ _ _ _ Ho).
Qed.

Lemma str_contains_nonempty needle s :
  needle <> ""%string -> str_contains needle s = true -> s <> ""%string.
Proof.
  intros Hn H ->. destruct needle; [now apply Hn | discriminate].
Qed.

(** The polling loop on a backend that reports [ongoing] and then [done_]:
    one [head_object] and one sleep for each status of [ongoing], one last
    [head_object] that reads [done_]. *)
Lemma wait_loop_completes bucket key region interval done_ :
  str_contains ongoing_false done_ = true ->
  forall ongoing rounds o w,
    List.Forall (fun s => s <> ""%string
                          /\ str_contains ongoing_false s = false) ongoing ->
    s3_object bucket key w = Some o ->
    o_restore o = map Some ongoing ++ [Some done_] ->
    (length ongoing <= rounds)%nat ->
    exists w' o',
      wait_loop rounds bucket key region interval w = (Done tt, w')
      /\ w_calls w'
         = w_calls w
           ++ flat_map (fun _ => [HeadObject bucket key; Sleep interval]) ongoing
           ++ [HeadObject bucket key]
      /\ w_fs w' = w_fs w
      /\ s3_object bucket key w' = Some o'.
Proof.
  intros Hdone.
  assert (Hne : done_ <> ""%string)
    by (apply (str_contains_nonempty ongoing_false); [discriminate | exact Hdone]).
  induction ongoing as [ | s ongoing IH]; intros rounds o w Hall Ho Hr Hlen.
  - pose proof (check_restore_status_run bucket key region o w Ho) as Hst.
    rewrite Hr in Hst. cbn [map app hd] in Hst.
    eexists _, _. split; [ | split; [ | split]].
    + destruct rounds; cbn [wait_loop];
        rewrite (bind_done _ _ _ _ _ Hst);
        (destruct done_ as [ | c d]; [now contradiction Hne | ]);
        rewrite Hdone; reflexivity.
    + reflexivity.
    + reflexivity.
    + exact (s3_object_after_head _ _ _ _ _ Ho).
  - pose proof (check_restore_status_run bucket key region o w Ho) as Hst.
    rewrite Hr in Hst. cbn [map app hd] in Hst.
    inversion Hall as [ | ? ? [Hs Hfalse] Hall']; subst.
    destruct rounds as [ | rounds]; [cbn in Hlen; lia | ].
    set (w1 := set_s3 (alter (alter pop_restore key) bucket)
                      (log_call (HeadObject bucket key) w)) in *.
    set (w2 := set_clock (Z.add interval) (log_call (Sleep interval) w1)).
    assert (Ho2 : s3_object bucket key w2 = Some (pop_restore o))
      by exact (s3_object_after_head _ _ _ _ _ Ho).
    assert (Hr2 : o_restore (pop_restore o) = map Some ongoing ++ [Some done_]).
    { cbn [pop_restore o_restore]. rewrite Hr. cbn [map app].
      destruct (map Some ongoing ++ [Some done_]) eqn:E; [ | reflexivity].
      now destruct ongoing. }
    destruct (IH rounds _ w2 Hall' Ho2 Hr2 ltac:(cbn in Hlen; lia))
      as (w' & o' & Hrun & Hcalls & Hfs & Ho').
    exists w', o'. split; [ | split; [ | split]].
    + cbn [wait_loop]. rewrite (bind_done _ _ _ _ _ Hst).
      destruct s as [ | c d]; [now contradiction Hs | ].
      rewrite Hfalse.
      change (wait_loop rounds bucket key region interval w2 = (Done tt, w')).
      exact Hrun.
    + rewrite Hcalls. unfold w2, w1. cbn [w_calls set_clock set_s3 log_call flat_map].
      rewrite <- !app_assoc. reflexivity.
    + rewrite Hfs. reflexivity.
    + exact Ho'.
Qed.

Lemma download_s3_object_run bucket key d region o es w :
  s3_object bucket key w = Some o ->
  fs_lookup d (w_fs w) = Some (Dir es) ->
  (forall es', assoc key es <> Some (Dir es')) ->
  exists w',
    download_s3_object bucket key (os_path_join d [key]) region w
    = (Done tt, w')
    /\ w_calls w'
       = w_calls w ++ [DownloadFile bucket key (os_path_join d [key])].
Proof.
  intros Ho Hd Hkey. unfold os_path_join.
  assert (Hp : exists x q, d ++ [key] = x :: q)
    by (destruct d; cbn; eauto).
  destruct Hp as (x & q & Hp).
  eexists. unfold download_s3_object, try_except, download_file.
  unfold bind at 1, modify. unfold bind at 1, get_world.
  change (s3_object bucket key
            (log_call (DownloadFile bucket key (d ++ [key])) w))
    with (s3_object bucket key w).
  rewrite Ho. unfold write_file. unfold bind at 1, get_world.
  cbn [w_fs log_call]. rewrite fs_lookup_app, Hd. cbn [fs_lookup].
  assert (Hdn : os_path_dirname (x :: q) = d)
    by (rewrite <- Hp; apply dirname_snoc).
  rewrite Hp, Hdn, Hd.
  destruct (assoc key es) as [[f | es'] | ] eqn:E;
    [ | now contradiction (Hkey es') | ]; split; reflexivity.
Qed.

Section ArchivalRestorePolls.

Variable md5 : blob -> string.

(** The directory is at a path without pattern characters and what bears
    a sidecar's name in it is a regular file, so that the manifest the
    program loads is [load_manifest]'s.  The bundle is in an archival
    class and the backend reports a status
    [st], then the statuses [ongoing] that say a restore is going on, then
    [done_] that says it is over.  [run_restore] asks for a restore exactly
    when [st] says that none is going on, polls every 120 seconds until it
    reads [done_], and only then downloads the bundle; it stops right after
    the download, on the read of [tarball]. *)
Theorem restore_with_status_polls cfg filepath keep w es m o
    s0 st ongoing done_ :
  fs_lookup filepath (w_fs w) = Some (Dir es) ->
  plain_path filepath = true ->
  (forall name es', Re.fnmatch sidecar_glob name = true ->
                    fs_lookup (filepath ++ [name]) (w_fs w) <> Some (Dir es')) ->
  load_manifest filepath w = (Done m, w) ->
  Location m = "glacier"%string ->
  s3_object (ArchivePath m) (Filename m) w = Some o ->
  o_class o = Some "DEEP_ARCHIVE"%string \/ o_class o = Some "GLACIER"%string ->
  o_restore o = s0 :: Some st :: map Some ongoing ++ [Some done_] ->
  List.Forall (fun s => s <> ""%string
                        /\ str_contains ongoing_false s = false) ongoing ->
  str_contains ongoing_false done_ = true ->
  (forall es', assoc (Filename m) es <> Some (Dir es')) ->
  exists w',
    run_restore md5 cfg filepath keep w
    = (Fail (Raised UnboundLocalError), w')
    /\ w_calls w'
       = w_calls w
         ++ [HeadObject (ArchivePath m) (Filename m);
             HeadObject (ArchivePath m) (Filename m)]
         ++ (if str_contains ongoing_false st
             then [RestoreObject (ArchivePath m) (Filename m) 7 "Bulk"]
             else [])
         ++ flat_map (fun _ => [HeadObject (ArchivePath m) (Filename m);
                                Sleep 120]) ongoing
         ++ [HeadObject (ArchivePath m) (Filename m);
             DownloadFile (ArchivePath m) (Filename m)
                          (filepath ++ [Filename m])].
Proof.
  intros Hdir _ _ Hload Hloc Ho Hclass Hrestore Hongoing Hdone Hkey.
  unfold load_manifest in Hload.
  apply bind_done_inv in Hload as (found & w1 & Hglob & Hload).
  apply bind_done_inv in Hload as (latest & w2 & Hmax & Hjson).
  set (b := ArchivePath m) in *. set (k := Filename m) in *.
  set (w3 := set_s3 (alter (alter pop_restore k) b)
                    (log_call (HeadObject b k) w)).
  set (w4 := set_s3 (alter (alter pop_restore k) b)
                    (log_call (HeadObject b k) w3)).
  set (w5 := if str_contains ongoing_false st
             then log_call (RestoreObject b k 7 "Bulk") w4 else w4).
  (* the object as the calls leave it *)
  pose proof (s3_object_after_head b k o (HeadObject b k) w Ho) as Ho3.
  fold w3 in Ho3.
  pose proof (s3_object_after_head b k _ (HeadObject b k) w3 Ho3) as Ho4.
  fold w4 in Ho4.
  assert (Hr3 : o_restore (pop_restore o)
                = Some st :: map Some ongoing ++ [Some done_]).
  { cbn [pop_restore o_restore]. now rewrite Hrestore. }
  assert (Hr4 : o_restore (pop_restore (pop_restore o))
                = map Some ongoing ++ [Some done_]).
  { cbn [pop_restore o_restore]. rewrite Hrestore.
    destruct (map Some ongoing ++ [Some done_]) eqn:E; [ | reflexivity].
    now destruct ongoing. }
  assert (Ho5 : s3_object b k w5 = Some (pop_restore (pop_restore o))).
  { unfold w5. now destruct (str_contains ongoing_false st). }
  assert (Hfs5 : w_fs w5 = w_fs w).
  { unfold w5. now destruct (str_contains ongoing_false st). }
  (* the polling loop *)
  destruct (wait_loop_completes b k (s3_region cfg) 120 done_ Hdone ongoing
              (length (o_restore (pop_restore (pop_restore o)))) _ w5
              Hongoing Ho5 Hr4)
    as (w6 & o6 & Hwait & Hcalls6 & Hfs6 & Ho6).
  { rewrite Hr4, length_app, length_map. lia. }
  (* the download *)
  assert (Hdir6 : fs_lookup filepath (w_fs w6) = Some (Dir es))
    by now rewrite Hfs6, Hfs5.
  destruct (download_s3_object_run b k filepath (s3_region cfg) o6 es w6
              Ho6 Hdir6 Hkey) as (w7 & Hdown & Hcalls7).
  exists w7. split.
  - unfold run_restore.
    assert (Hisdir : os_path_isdir filepath w = (Done true, w)).
    { unfold os_path_isdir, bind, get_world, ret. now rewrite Hdir. }
    rewrite (bind_done _ _ _ _ _ Hisdir). cbn [negb].
    rewrite (bind_done _ _ _ _ _ Hglob), (bind_done _ _ _ _ _ Hmax),
      (bind_done _ _ _ _ _ Hjson).
    rewrite Hloc. cbn [String.eqb Ascii.eqb Bool.eqb].
    assert (Hfetch :
      (storage_class <- check_storage_class b k (s3_region cfg) ;;
       if (String.eqb storage_class "DEEP_ARCHIVE"
           || String.eqb storage_class "GLACIER")%bool
       then
         restore_status <- check_restore_status b k (s3_region cfg) ;;
         finished <- py_in ongoing_false restore_status ;;
         (if finished
          then initiate_deep_archive_restore b k 7 "Bulk" (s3_region cfg)
          else ret tt) ;;
         wait_for_restore b k (s3_region cfg) 120 ;;
         download_s3_object b k (os_path_join filepath [k]) (s3_region cfg)
       else if (String.eqb storage_class "STANDARD_IA"
                || String.eqb storage_class "STANDARD"
                || String.eqb storage_class "GLACIER_IR")%bool
       then download_s3_object b k (os_path_join filepath [k]) (s3_region cfg)
       else sys_exit 1) w = (Done tt, w7)).
    { assert (Hsc : exists sc,
                check_storage_class b k (s3_region cfg) w = (Done sc, w3)
                /\ (String.eqb sc "DEEP_ARCHIVE" || String.eqb sc "GLACIER")%bool
                   = true).
      { unfold check_storage_class.
        rewrite (bind_done _ _ _ _ _ (head_object_run b k o w Ho)).
        cbn [fst]. destruct Hclass as [-> | ->]; eexists; split; reflexivity. }
      destruct Hsc as (sc & Hsc & Harch).
      rewrite (bind_done _ _ _ _ _ Hsc), Harch.
      pose proof (check_restore_status_run b k (s3_region cfg) _ w3 Ho3)
        as Hstatus.
      fold w4 in Hstatus. rewrite Hr3 in Hstatus. cbn [hd] in Hstatus.
      rewrite (bind_done _ _ _ _ _ Hstatus).
      cbn [py_in]. unfold bind at 1, ret at 1.
      assert (Hreq :
        (if str_contains ongoing_false st
         then initiate_deep_archive_restore b k 7 "Bulk" (s3_region cfg)
         else ret tt) w4 = (Done tt, w5)).
      { unfold w5. destruct (str_contains ongoing_false st); [ | reflexivity].
        unfold initiate_deep_archive_restore, try_except, restore_object.
        unfold bind at 1, modify. unfold bind at 1, get_world.
        change (s3_object b k (log_call (RestoreObject b k 7 "Bulk") w4))
          with (s3_object b k w4).
        now rewrite Ho4. }
      rewrite (bind_done _ _ _ _ _ Hreq).
      assert (Hw : wait_for_restore b k (s3_region cfg) 120 w5 = (Done tt, w6)).
      { unfold wait_for_restore. unfold bind at 1, get_world.
        rewrite Ho5. exact Hwait. }
      rewrite (bind_done _ _ _ _ _ Hw). exact Hdown. }
    rewrite (bind_done _ _ _ _ _ Hfetch). reflexivity.
  - rewrite Hcalls7, Hcalls6. unfold w5, w4, w3, os_path_join.
    destruct (str_contains ongoing_false st);
      cbn [w_calls set_s3 log_call app]; rewrite <- !app_assoc;
      reflexivity.
Qed.

End ArchivalRestorePolls.

(** * The parts of the program taken one by one *)

(** The sum of the sizes is the true total as long as that is below
    2^63. *)
Lemma size_sum_exact df :
  - 2 ^ 63 <= fold_right Z.add 0 (map df_size df) < 2 ^ 63 ->
  size_sum df = fold_right Z.add 0 (map df_size df).
Proof.
  intros H. unfold size_sum, wrap_int64.
  rewrite Z.mod_small by lia. lia.
Qed.

Section Keeps.

Context {X : Type} (proj : world -> X).

Lemma keeps_ret {A : Type} (a : A) : keeps proj (ret a).
Proof. intros w r w' [= <- <-]. reflexivity. Qed.

Lemma keeps_raise {A : Type} e : keeps proj (@raise A e).
Proof. intros w r w' [= <- <-]. reflexivity. Qed.

Lemma keeps_sys_exit {A : Type} n : keeps proj (@sys_exit A n).
Proof. intros w r w' [= <- <-]. reflexivity. Qed.

Lemma keeps_hang {A : Type} : keeps proj (@hang A).
Proof. intros w r w' [= <- <-]. reflexivity. Qed.

Lemma keeps_get_world : keeps proj get_world.
Proof. intros w r w' [= <- <-]. reflexivity. Qed.

Lemma keeps_modify (g : world -> world) :
  (forall w, proj (g w) = proj w) -> keeps proj (modify g).
Proof. intros Hg w r w' [= <- <-]. apply Hg. Qed.

Lemma keeps_bind {A B : Type} (c : M A) (k : A -> M B) :
  keeps proj c -> (forall a, keeps proj (k a)) -> keeps proj (bind c k).
Proof.
  intros Hc Hk w r w'. unfold bind.
  destruct (c w) as [[a | e | ] w1] eqn:E; intros H.
  - rewrite (Hk a _ _ _ H). exact (Hc _ _ _ E).
  - injection H as <- <-. exact (Hc _ _ _ E).
  - injection H as <- <-. exact (Hc _ _ _ E).
Qed.

Lemma keeps_try_except {A : Type} (c : M A) (h : pyexc -> M A) :
  keeps proj c -> (forall e, keeps proj (h e)) -> keeps proj (try_except c h).
Proof.
  intros Hc Hh w r w'. unfold try_except.
  destruct (c w) as [[a | [code | e] | ] w1] eqn:E; intros H;
    try (injection H as <- <-; exact (Hc _ _ _ E)).
  rewrite (Hh e _ _ _ H). exact (Hc _ _ _ E).
Qed.

Lemma keeps_for_ {A : Type} (l : list A) (body : A -> M unit) :
  (forall x, keeps proj (body x)) -> keeps proj (for_ l body).
Proof.
  intros Hb. induction l as [ | x l IH]; simpl.
  - apply keeps_ret.
  - apply keeps_bind; [apply Hb | intros _; exact IH].
Qed.

Lemma keeps_for_acc {A S : Type} (l : list A) (body : A -> S -> M S) :
  (forall x s, keeps proj (body x s)) -> forall s, keeps proj (for_acc l body s).
Proof.
  intros Hb. induction l as [ | x l IH]; intros s; simpl.
  - apply keeps_ret.
  - apply keeps_bind; [apply Hb | intros s'; apply IH].
Qed.

Lemma keeps_fs_reader {A : Type} (c : M A) : fs_reader c -> keeps proj c.
Proof.
  intros Hc w r w' H. destruct (Hc w) as (r0 & E & _).
  rewrite E in H. now injection H as _ <-.
Qed.

End Keeps.

Ltac keeps_tac :=
  repeat first
    [ apply keeps_ret
    | apply keeps_raise
    | apply keeps_sys_exit
    | apply keeps_hang
    | apply keeps_get_world
    | apply keeps_modify; intros ?; reflexivity
    | apply keeps_bind; [ | intros ? ]
    | apply keeps_try_except; [ | intros ? ]
    | apply keeps_for_; intros ?
    | apply keeps_for_acc; intros ? ?
    | match goal with
      | |- keeps _ (match ?x with _ => _ end) => destruct x
      | |- keeps _ (if ?x then _ else _) => destruct x
      | |- keeps _ (let '(_, _) := ?x in _) => destruct x
      end ].

Section OutsideKept.
Variable md5 : blob -> string.

Lemma outside_kept_create_tarball files tarball_path :
  keeps outside (create_tarball files tarball_path).
Proof. unfold create_tarball, write_file, read_file. keeps_tac. Qed.

Lemma outside_kept_get_files filepath : keeps outside (get_files md5 filepath).
Proof. apply keeps_fs_reader, fs_reader_get_files. Qed.

Lemma outside_kept_os_remove p : keeps outside (os_remove p).
Proof. unfold os_remove. keeps_tac. Qed.

End OutsideKept.

(** ** What the rows of the enumeration say *)

Lemma zip_rows_snoc a : forall b c x y z,
  length a = length b -> length b = length c ->
  zip_rows (a ++ [x]) (b ++ [y]) (c ++ [z])
  = zip_rows a b c ++ [{| df_file := x; df_size := y; df_md5sum := z |}].
Proof.
  induction a as [ | x0 a IH]; intros [ | y0 b] [ | z0 c] x y z; simpl;
    try discriminate; try reflexivity.
  intros [= Hab] [= Hbc]. now rewrite IH.
Qed.

(** A loop keeps what each of its turns keeps. *)
Lemma for_acc_invariant {A S : Type} (I : S -> world -> Prop) (Q : A -> Prop)
    (body : A -> S -> M S) :
  (forall x s w s' w',
     Q x -> I s w -> body x s w = (Done s', w') -> I s' w') ->
  forall l s w s' w',
    List.Forall Q l -> I s w -> for_acc l body s w = (Done s', w') -> I s' w'.
Proof.
  intros Hbody. induction l as [ | x l IH]; intros s w s' w' Hl HI; simpl.
  - now intros [= <- <-].
  - intros H. apply bind_done_inv in H as (s1 & w1 & Hx & Hrest).
    inversion Hl as [ | ? ? Hq Hl']; subst.
    exact (IH _ _ _ _ Hl' (Hbody _ _ _ _ _ Hq HI Hx) Hrest).
Qed.

Section Rows.

Variable md5 : blob -> string.

(** The rows [get_files] returns stand for regular files of the tree. *)
Lemma get_files_rows filepath w df w' :
  get_files md5 filepath w = (Done df, w') ->
  w' = w
  /\ forall r, In r df ->
     exists f,
       fs_lookup (filepath ++ df_file r) (w_fs w) = Some (File f)
       /\ df_size r = f_size f
       /\ df_md5sum r = md5 (f_data f)
       /\ f_size f <> 0.
Proof.
  intros H.
  assert (Hw : w' = w).
  { destruct (fs_reader_get_files md5 filepath w) as (r0 & E & _).
    rewrite E in H. now injection H as _ <-. }
  split; [exact Hw | ]. subst w'.
  unfold get_files in H.
  apply bind_done_inv in H as (isfile & w1 & Hisfile & H).
  unfold os_path_isfile, bind, get_world, ret in Hisfile.
  injection Hisfile as <- <-.
  destruct (match fs_lookup filepath (w_fs w) with
            | Some (File _) => true | _ => false end).
  { apply bind_done_inv in H as (size & w2 & _ & H). discriminate. }
  apply bind_done_inv in H as (isdir & w2 & Hisdir & H).
  unfold os_path_isdir, bind, get_world, ret in Hisdir.
  injection Hisdir as <- <-.
  destruct (match fs_lookup filepath (w_fs w) with
            | Some (Dir _) => true | _ => false end); [ | discriminate].
  apply bind_done_inv in H as (triples & w3 & Hwalk & H).
  apply bind_done_inv in H as ([[files sizes] sums] & w4 & Hloop & H).
  unfold pd_DataFrame in H.
  destruct (_ && _)%bool eqn:Hlen; [ | discriminate].
  injection H as <- _.
  unfold os_walk, bind, get_world, ret in Hwalk.
  destruct (fs_lookup filepath (w_fs w)) as [n | ] eqn:Hn;
    injection Hwalk as <- <-.
  2:{ simpl in Hloop. injection Hloop as <- <- <- _. intros r []. }
  revert Hloop.
  match goal with
  | |- for_acc _ ?body _ _ = _ -> _ =>
      intros Hloop;
      apply (for_acc_invariant
               (fun (acc : list path * list Z * list string) v =>
                  v = w
                  /\ length (fst (fst acc)) = length (snd (fst acc))
                  /\ length (snd (fst acc)) = length (snd acc)
                  /\ forall r, In r (zip_rows (fst (fst acc)) (snd (fst acc))
                                              (snd acc)) ->
                     exists f,
                       fs_lookup (filepath ++ df_file r) (w_fs w)
                       = Some (File f)
                       /\ df_size r = f_size f
                       /\ df_md5sum r = md5 (f_data f)
                       /\ f_size f <> 0)
               (fun p => exists s, s <> [] /\ p = filepath ++ s)
               body) in Hloop
  end.
  - cbn [fst snd] in Hloop. tauto.
  - intros x [[a b] c] v [[a' b'] c'] v' (s & Hs & ->) (-> & Hab & Hbc & Hrows) Hx.
    cbn [fst snd] in *.
    apply bind_done_inv in Hx as (size & v1 & Hsize & Hx).
    apply bind_done_inv in Hx as (h & v2 & Hsum & Hx).
    injection Hx as <- <- <- <-.
    assert (Hv1 : v1 = w).
    { destruct (fs_reader_getsize (filepath ++ s) w) as (r0 & E & _).
      rewrite E in Hsize. now injection Hsize as _ <-. }
    subst v1.
    unfold os_path_getsize, bind, get_world, ret, raise in Hsize.
    unfold calculate_file_md5sum, read_file in Hsum.
    apply bind_done_inv in Hsum as (f & v3 & Hread & Hsum).
    unfold bind, get_world, ret, raise in Hread.
    destruct (fs_lookup (filepath ++ s) (w_fs w)) as [[f0 | es0] | ] eqn:Hf;
      try discriminate.
    injection Hread as <- <-. injection Hsize as <-.
    destruct (Z.eqb_spec (f_size f0) 0) as [ | Hnz]; [discriminate | ].
    unfold ret in Hsum. injection Hsum as <- <-.
    split; [reflexivity | ]. rewrite !length_app. cbn [length].
    split; [lia | ]. split; [lia | ].
    rewrite (zip_rows_snoc _ _ _ _ _ _ Hab Hbc), (relpath_prefix _ _ Hs).
    intros r Hr. apply in_app_or in Hr as [Hr | [<- | []]]; [now apply Hrows | ].
    exists f0. cbn [df_file df_size df_md5sum]. auto.
  - apply List.Forall_forall. intros p Hp.
    apply in_flat_map in Hp as ([[root dirs] names] & Ht & Hp).
    apply in_map_iff in Hp as (name & <- & _). cbn [fst].
    destruct (walk_topdown_roots _ _ _ Ht) as (r0 & Hr0). cbn [fst] in Hr0.
    subst root. exists (r0 ++ [name]). unfold os_path_join.
    rewrite <- app_assoc. split; [now destruct r0 | reflexivity].
  - cbn [fst snd]. repeat split. intros r [].
Qed.

(** The rows [get_files] returns for a directory: each one stands for a
    regular file of the tree, not empty, with that file's size and the
    fingerprint of its content; and the call changes nothing. *)
Theorem get_files_rows_describe_files filepath w df w' :
  get_files md5 filepath w = (Done df, w') ->
  w' = w
  /\ forall r, In r df ->
     exists f,
       fs_lookup (filepath ++ df_file r) (w_fs w) = Some (File f)
       /\ df_size r = f_size f
       /\ df_md5sum r = md5 (f_data f)
       /\ f_size f <> 0.
Proof. exact (get_files_rows filepath w df w'). Qed.

End Rows.

(** ** When the enumeration succeeds, and when it cannot *)

Lemma walk_topdown_sound n : forall root r ds fs,
  wf_node n ->
  In (r, ds, fs) (walk_topdown root n) ->
  exists q es,
    r = root ++ q /\ fs_lookup q n = Some (Dir es)
    /\ ds = dirnames es /\ fs = filenames es.
Proof.
  induction n as [f | es IH] using node_induction; intros root r ds fs Hwf;
    simpl.
  - intros [].
  - intros [[= <- <- <-] | Hin].
    + exists [], es. rewrite app_nil_r. auto.
    + apply in_flat_map in Hin as ([x c] & He & Hin). cbn [fst snd] in Hin.
      apply wf_node_dir in Hwf as [Hnd Hall].
      rewrite List.Forall_forall in IH, Hall.
      destruct (IH _ He _ _ _ _ (Hall _ He) Hin)
        as (q & es' & -> & Hq & -> & ->).
      exists (x :: q), es'. rewrite <- app_assoc. cbn [fs_lookup].
      rewrite (In_assoc _ _ _ Hnd He). auto.
Qed.

Lemma in_filenames name es :
  In name (filenames es) ->
  exists f, In (name, File f) es.
Proof.
  unfold filenames. intros H. apply in_map_iff in H as ([x c] & <- & H).
  apply filter_In in H as [H Hc]. destruct c as [f | ]; [ | discriminate].
  now exists f.
Qed.

(** In a well-formed tree the paths the enumerator gathers are those of
    regular files. *)
Lemma gathered_are_files top filepath n p :
  wf_node n ->
  fs_lookup filepath top = Some n ->
  In p (flat_map (fun t : path * list string * list string =>
                    map (fun name => os_path_join (fst (fst t)) [name])
                        (List.filter (fun name => negb (own_artifact name))
                                     (snd t)))
                 (walk_topdown filepath n)) ->
  exists q name f,
    p = filepath ++ q ++ [name]
    /\ fs_lookup p top = Some (File f)
    /\ own_artifact name = false.
Proof.
  intros Hwf Hn Hp.
  apply in_flat_map in Hp as ([[root dirs] names] & Ht & Hp).
  apply in_map_iff in Hp as (name & <- & Hname). cbn [fst snd] in *.
  apply filter_In in Hname as [Hname Hart].
  destruct (walk_topdown_sound _ _ _ _ _ Hwf Ht)
    as (q & es & -> & Hq & _ & ->).
  apply in_filenames in Hname as (f & Hf).
  exists q, name, f. unfold os_path_join. rewrite <- app_assoc.
  split; [reflexivity | ]. split; [ | now destruct (own_artifact name)].
  rewrite fs_lookup_app, Hn, fs_lookup_app, Hq. cbn [fs_lookup].
  pose proof (wf_lookup _ _ _ Hwf Hq) as Hes.
  apply wf_node_dir in Hes as [Hnd _].
  now rewrite (In_assoc _ _ _ Hnd Hf).
Qed.

Lemma isfile_of_dir p es w :
  fs_lookup p (w_fs w) = Some (Dir es) -> os_path_isfile p w = (Done false, w).
Proof. intros H. unfold os_path_isfile, bind, get_world, ret. now rewrite H. Qed.

Lemma isdir_of_dir p es w :
  fs_lookup p (w_fs w) = Some (Dir es) -> os_path_isdir p w = (Done true, w).
Proof. intros H. unfold os_path_isdir, bind, get_world, ret. now rewrite H. Qed.

Lemma os_walk_of_dir p es w :
  fs_lookup p (w_fs w) = Some (Dir es) ->
  os_walk p w = (Done (walk_topdown p (Dir es)), w).
Proof. intros H. unfold os_walk, bind, get_world, ret. now rewrite H. Qed.

Section EnumerationRuns.

Variable md5 : blob -> string.

(** One turn of the loop of [get_files] on a regular file. *)
Lemma get_files_turn filepath p f (acc : list path * list Z * list string) w :
  fs_lookup p (w_fs w) = Some (File f) ->
  (let '(files, filesizes, fileMd5sums) := acc in
   let files := files ++ [os_path_relpath p filepath] in
   size <- os_path_getsize p ;;
   let filesizes := filesizes ++ [size] in
   h <- calculate_file_md5sum md5 p ;;
   let fileMd5sums := fileMd5sums ++ [h] in
   ret (files, filesizes, fileMd5sums)) w
  = if f_size f =? 0 then (Fail (Raised ValueError), w)
    else (Done (fst (fst acc) ++ [os_path_relpath p filepath],
                snd (fst acc) ++ [f_size f],
                snd acc ++ [md5 (f_data f)]), w).
Proof.
  intros Hf. destruct acc as [[a b] c].
  unfold os_path_getsize, calculate_file_md5sum, read_file, bind, get_world.
  rewrite Hf. unfold ret. rewrite Hf.
  now destruct (f_size f =? 0).
Qed.

Lemma get_files_loop filepath w l :
  List.Forall (fun p => exists f, fs_lookup p (w_fs w) = Some (File f)) l ->
  forall acc : list path * list Z * list string,
    let body := fun fullpath (acc : list path * list Z * list string) =>
      let '(files, filesizes, fileMd5sums) := acc in
      let files := files ++ [os_path_relpath fullpath filepath] in
      size <- os_path_getsize fullpath ;;
      let filesizes := filesizes ++ [size] in
      h <- calculate_file_md5sum md5 fullpath ;;
      let fileMd5sums := fileMd5sums ++ [h] in
      ret (files, filesizes, fileMd5sums) in
    (List.Forall (fun p => forall f, fs_lookup p (w_fs w) = Some (File f) ->
                                     f_size f <> 0) l ->
     exists acc',
       for_acc l body acc w = (Done acc', w)
       /\ length (fst (fst acc')) = (length (fst (fst acc)) + length l)%nat
       /\ length (snd (fst acc')) = (length (snd (fst acc)) + length l)%nat
       /\ length (snd acc') = (length (snd acc) + length l)%nat)
    /\ (List.Exists (fun p => exists f, fs_lookup p (w_fs w) = Some (File f)
                                        /\ f_size f = 0) l ->
        for_acc l body acc w = (Fail (Raised ValueError), w)).
Proof.
  induction 1 as [ | p l (f & Hf) Hl IH]; intros acc body.
  - split.
    + intros _. exists acc. cbn. repeat split; lia.
    + intros H. inversion H.
  - cbn [for_acc].
    assert (Hturn : body p acc w
                    = if f_size f =? 0 then (Fail (Raised ValueError), w)
                      else (Done (fst (fst acc) ++ [os_path_relpath p filepath],
                                  snd (fst acc) ++ [f_size f],
                                  snd acc ++ [md5 (f_data f)]), w))
      by exact (get_files_turn filepath p f acc w Hf).
    split.
    + intros Hne. inversion Hne as [ | ? ? Hp Hne']; subst.
      unfold bind at 1. rewrite Hturn.
      destruct (Z.eqb_spec (f_size f) 0) as [E | _];
        [now contradiction (Hp f Hf) | ].
      destruct (proj1 (IH (fst (fst acc) ++ [os_path_relpath p filepath],
                           snd (fst acc) ++ [f_size f],
                           snd acc ++ [md5 (f_data f)])) Hne')
        as (acc' & Hrun & H1 & H2 & H3).
      exists acc'. split; [exact Hrun | ].
      cbn [fst snd length] in *. rewrite !length_app in *. cbn [length] in *.
      repeat split; lia.
    + intros Hex. unfold bind at 1. rewrite Hturn.
      destruct (Z.eqb_spec (f_size f) 0) as [E | Hnz]; [reflexivity | ].
      inversion Hex as [? ? (f' & Hf' & Hz) | ? ? Hex']; subst.
      * congruence.
      * exact (proj2 (IH _) Hex').
Qed.

(** In a well-formed tree, the enumeration of a directory returns when no
    regular file under it (its own artifacts apart) is empty. *)
Lemma get_files_runs filepath es w :
  wf_node (w_fs w) ->
  fs_lookup filepath (w_fs w) = Some (Dir es) ->
  (forall q name f,
     fs_lookup (filepath ++ q ++ [name]) (w_fs w) = Some (File f) ->
     own_artifact name = false -> f_size f <> 0) ->
  exists df, get_files md5 filepath w = (Done df, w).
Proof.
  intros Hwf Hdir Hne. unfold get_files.
  rewrite (bind_done _ _ _ _ _ (isfile_of_dir _ _ _ Hdir)).
  rewrite (bind_done _ _ _ _ _ (isdir_of_dir _ _ _ Hdir)).
  rewrite (bind_done _ _ _ _ _ (os_walk_of_dir _ _ _ Hdir)).
  pose proof (wf_lookup _ _ _ Hwf Hdir) as Hwfd.
  match goal with
  | |- context [for_acc ?l _ _] =>
      assert (Hfiles :
        List.Forall (fun p => exists f, fs_lookup p (w_fs w) = Some (File f)) l);
      [ | assert (Hall :
            List.Forall (fun p => forall f,
                           fs_lookup p (w_fs w) = Some (File f) ->
                           f_size f <> 0) l) ]
  end.
  { apply List.Forall_forall. intros p Hp.
    destruct (gathered_are_files _ _ _ _ Hwfd Hdir Hp) as (q & name & f & _ & Hf & _).
    now exists f. }
  { apply List.Forall_forall. intros p Hp f Hf.
    destruct (gathered_are_files _ _ _ _ Hwfd Hdir Hp)
      as (q & name & f' & -> & _ & Hart).
    exact (Hne _ _ _ Hf Hart). }
  destruct (proj1 (get_files_loop filepath w _ Hfiles ([], [], [])) Hall)
    as ([[a b] c] & Hrun & Ha & Hb & Hc).
  cbn [fst snd length] in *.
  erewrite bind_done by exact Hrun. unfold pd_DataFrame.
  rewrite Ha, Hb, Hc, !Nat.eqb_refl. cbn [andb]. eexists. reflexivity.
Qed.


End EnumerationRuns.

(** ** Changes of one entry of a directory, seen from the other paths *)

Lemma only_entry_put x c : only_entry x (dir_put x c).
Proof.
  intros [f | es] y s Hy; [reflexivity | ]. unfold dir_put.
  pose proof (assoc_dir_put x y c es) as H.
  apply String.eqb_neq in Hy. rewrite String.eqb_sym in Hy. rewrite Hy in H.
  destruct (assoc x es); cbn [fs_lookup]; now rewrite H.
Qed.

Lemma only_entry_remove x : only_entry x (dir_remove x).
Proof.
  intros [f | es] y s Hy; [reflexivity | ]. unfold dir_remove.
  cbn [fs_lookup]. rewrite assoc_remove.
  apply String.eqb_neq in Hy. rewrite String.eqb_sym in Hy. now rewrite Hy.
Qed.

Lemma fs_lookup_alter_other x g q y s :
  only_entry x g -> y <> x ->
  forall n, fs_lookup (q ++ y :: s) (alter_at g q n) = fs_lookup (q ++ y :: s) n.
Proof.
  intros Hg Hy. induction q as [ | z q IH]; intros n.
  - exact (Hg n y s Hy).
  - destruct n as [f | es]; [reflexivity | ].
    cbn [app alter_at fs_lookup]. rewrite assoc_alter_entry, String.eqb_refl.
    destruct (assoc z es) as [c | ]; [apply IH | reflexivity].
Qed.

(** Nothing lies below a name that is bound to no directory. *)
Lemma fs_lookup_below_file q x y s n :
  (forall es, fs_lookup (q ++ [x]) n <> Some (Dir es)) ->
  fs_lookup (q ++ x :: y :: s) n = None.
Proof.
  intros H. change (x :: y :: s) with ([x] ++ y :: s).
  rewrite app_assoc, fs_lookup_app.
  destruct (fs_lookup (q ++ [x]) n) as [[f | es] | ]; try reflexivity.
  now contradiction (H es).
Qed.

(** Binding the name [t] in [q], where [t] names no directory, leaves
    every regular file but [q/t] itself in place; so does unlinking it. *)
Lemma file_kept_after q t g n p f :
  only_entry t g ->
  (forall f0, g (File f0) = File f0) ->
  (forall es, fs_lookup (q ++ [t]) n <> Some (Dir es)) ->
  fs_lookup (q ++ p) n = Some (File f) ->
  p <> [t] ->
  fs_lookup (q ++ p) (alter_at g q n) = Some (File f).
Proof.
  intros Hg Hfile Ht Hp Hne. destruct p as [ | y s].
  - rewrite app_nil_r in *.
    rewrite (fs_lookup_alter_at _ _ _ _ Hp). now rewrite Hfile.
  - destruct (String.eqb_spec y t) as [-> | Hy].
    + destruct s as [ | z s]; [contradiction | ].
      rewrite (fs_lookup_below_file _ _ _ _ _ Ht) in Hp. discriminate.
    + now rewrite (fs_lookup_alter_other t g q y s Hg Hy).
Qed.

Lemma file_kept_after_put q t c n p f :
  (forall es, fs_lookup (q ++ [t]) n <> Some (Dir es)) ->
  fs_lookup (q ++ p) n = Some (File f) ->
  p <> [t] ->
  fs_lookup (q ++ p) (alter_at (dir_put t c) q n) = Some (File f).
Proof.
  apply file_kept_after; [apply only_entry_put | reflexivity].
Qed.

Lemma file_kept_after_remove q t n p f :
  (forall es, fs_lookup (q ++ [t]) n <> Some (Dir es)) ->
  fs_lookup (q ++ p) n = Some (File f) ->
  p <> [t] ->
  fs_lookup (q ++ p) (alter_at (dir_remove t) q n) = Some (File f).
Proof.
  apply file_kept_after; [apply only_entry_remove | reflexivity].
Qed.

(** What is bound last is what is found. *)
Lemma fs_lookup_put q t c n es :
  fs_lookup q n = Some (Dir es) ->
  fs_lookup (q ++ [t]) (alter_at (dir_put t c) q n) = Some c.
Proof.
  intros Hq. rewrite fs_lookup_app, (fs_lookup_alter_at _ _ _ _ Hq).
  unfold dir_put. pose proof (assoc_dir_put t t c es) as H.
  rewrite String.eqb_refl in H.
  destruct (assoc t es); cbn [fs_lookup]; now rewrite H.
Qed.

Lemma fs_lookup_removed q t n es :
  fs_lookup q n = Some (Dir es) ->
  fs_lookup (q ++ [t]) (alter_at (dir_remove t) q n) = None.
Proof.
  intros Hq. rewrite fs_lookup_app, (fs_lookup_alter_at _ _ _ _ Hq).
  unfold dir_remove. cbn [fs_lookup].
  now rewrite assoc_remove, String.eqb_refl.
Qed.

Lemma alter_entry_twice x g h es :
  alter_entry x h (alter_entry x g es) = alter_entry x (fun m => h (g m)) es.
Proof.
  unfold alter_entry. rewrite map_map. apply map_ext. intros [y c].
  cbn [fst snd]. destruct (String.eqb x y) eqn:E; cbn [fst snd]; now rewrite E.
Qed.

(** Binding a name twice is binding it to the second node. *)
Lemma dir_put_twice x c1 c2 m :
  dir_put x c2 (dir_put x c1 m) = dir_put x c2 m.
Proof.
  destruct m as [f | es]; [reflexivity | ]. unfold dir_put at 2 3.
  destruct (assoc x es) as [c | ] eqn:E.
  - unfold dir_put. rewrite assoc_alter_entry, String.eqb_refl, E.
    cbn [option_map]. now rewrite alter_entry_twice.
  - unfold dir_put. rewrite assoc_app, E. cbn [assoc].
    rewrite String.eqb_refl. f_equal. unfold alter_entry.
    rewrite map_app. cbn [map fst snd]. rewrite String.eqb_refl.
    f_equal. apply (alter_entry_absent x (fun _ => c2)).
    now apply assoc_None.
Qed.

Lemma alter_at_ext g h p : 
  (forall m, g m = h m) -> forall n, alter_at g p n = alter_at h p n.
Proof.
  intros Hgh. induction p as [ | x p IH]; intros n; cbn [alter_at].
  - apply Hgh.
  - destruct n as [f | es]; [reflexivity | ]. f_equal.
    unfold alter_entry. apply map_ext. intros [y c]. cbn [fst snd].
    destruct (String.eqb x y); [now rewrite IH | reflexivity].
Qed.

Lemma alter_at_put_twice x c1 c2 p n :
  alter_at (dir_put x c2) p (alter_at (dir_put x c1) p n)
  = alter_at (dir_put x c2) p n.
Proof.
  rewrite alter_at_twice. apply alter_at_ext. intros m. apply dir_put_twice.
Qed.

(** ** Writing the bundle and reading it back *)

Lemma write_file_run d t size data es w :
  fs_lookup d (w_fs w) = Some (Dir es) ->
  (forall es', fs_lookup (d ++ [t]) (w_fs w) <> Some (Dir es')) ->
  write_file (d ++ [t]) size data w
  = (Done tt,
     set_fs (alter_at (dir_put t (File {| f_size := size;
                                          f_ctime := w_clock w;
                                          f_data := data |})) d) w).
Proof.
  intros Hd Ht. unfold write_file. unfold bind at 1, get_world.
  assert (Hp : exists x q, d ++ [t] = x :: q) by (destruct d; cbn; eauto).
  destruct Hp as (x & q & Hp).
  assert (Hdn : os_path_dirname (x :: q) = d)
    by (rewrite <- Hp; apply dirname_snoc).
  assert (Hbn : os_path_basename (x :: q) = t)
    by (rewrite <- Hp; apply basename_snoc).
  destruct (fs_lookup (d ++ [t]) (w_fs w)) as [[f | es'] | ] eqn:E;
    [ | now contradiction (Ht es') | ];
    rewrite Hp, Hdn, Hd, Hbn; reflexivity.
Qed.

Lemma set_fs_ext g h w : g (w_fs w) = h (w_fs w) -> set_fs g w = set_fs h w.
Proof. intros H. unfold set_fs. now rewrite H. Qed.

Lemma read_file_run p f w :
  fs_lookup p (w_fs w) = Some (File f) -> read_file p w = (Done f, w).
Proof. intros H. unfold read_file, bind, get_world. now rewrite H. Qed.

(** The loop of [create_tarball], started with the members [ms0] in a
    container that is already written. *)
Lemma create_tarball_loop d t es n clock : forall files contents ms0 w,
  fs_lookup d n = Some (Dir es) ->
  (forall es', fs_lookup (d ++ [t]) n <> Some (Dir es')) ->
  Forall2 (fun file f => fs_lookup (d ++ file) n = Some (File f)
                         /\ file <> [t]) files contents ->
  w_clock w = clock ->
  w_fs w = alter_at (dir_put t (File (tar_file ms0 clock))) d n ->
  let ms := ms0 ++ zip_with tar_member files contents in
  for_acc files
    (fun file_path (members : list (tarinfo blob)) =>
       f <- read_file (os_path_join d file_path) ;;
       let members :=
         members ++ [{| ti_name := file_path; ti_isfile := true;
                        ti_size := f_size f; ti_data := f_data f |}] in
       write_file (d ++ [t]) (targz_size members) (TarGz members) ;;
       ret members)
    ms0 w
  = (Done ms,
     set_fs (fun _ => alter_at (dir_put t (File (tar_file ms clock))) d n) w).
Proof.
  induction files as [ | file files IH]; intros contents ms0 w Hd Ht Hall Hclock Hfs.
  - inversion Hall; subst. cbn [zip_with for_acc]. rewrite app_nil_r.
    unfold ret. f_equal. destruct w; cbn in *. now subst.
  - inversion Hall as [ | ? f ? contents' [Hf Hne] Hall']; subst.
    cbn [zip_with for_acc].
    assert (Hread : read_file (os_path_join d file) w = (Done f, w)).
    { apply read_file_run. rewrite Hfs. unfold os_path_join.
      now apply file_kept_after_put. }
    unfold bind at 1. rewrite (bind_done _ _ _ _ _ Hread). cbv zeta.
    assert (Hd' : fs_lookup d (w_fs w)
                  = Some (dir_put t (File (tar_file ms0 (w_clock w))) (Dir es))).
    { rewrite Hfs. now apply fs_lookup_alter_at. }
    assert (Hd'' : exists es1, fs_lookup d (w_fs w) = Some (Dir es1)).
    { rewrite Hd'. unfold dir_put. destruct (assoc t es); eauto. }
    destruct Hd'' as (es1 & Hes1).
    assert (Ht' : forall es', fs_lookup (d ++ [t]) (w_fs w) <> Some (Dir es')).
    { intros es'. rewrite Hfs, (fs_lookup_put _ _ _ _ _ Hd). discriminate. }
    rewrite (bind_done _ _ _ _ _ (write_file_run d t _ _ es1 w Hes1 Ht')).
    unfold ret at 1. cbv iota.
    match goal with
    | |- for_acc _ _ _ ?w1 = _ =>
        assert (Hfs1 : w_fs w1
                       = alter_at (dir_put t (File (tar_file
                                     (ms0 ++ [tar_member file f]) (w_clock w))))
                                  d n)
          by (cbn [w_fs set_fs]; rewrite Hfs, alter_at_put_twice; reflexivity);
        pose proof (IH contents' (ms0 ++ [tar_member file f]) w1 Hd Ht Hall'
                       eq_refl Hfs1) as Hrun
    end.
    cbv zeta in Hrun. rewrite <- app_assoc in Hrun. exact Hrun.
Qed.

Lemma create_tarball_run d t es files contents w :
  fs_lookup d (w_fs w) = Some (Dir es) ->
  (forall es', fs_lookup (d ++ [t]) (w_fs w) <> Some (Dir es')) ->
  Forall2 (fun file f => fs_lookup (d ++ file) (w_fs w) = Some (File f)
                         /\ file <> [t]) files contents ->
  create_tarball files (d ++ [t]) w
  = (Done tt,
     set_fs (alter_at (dir_put t (File (tar_file
                         (zip_with tar_member files contents) (w_clock w))))
                      d) w).
Proof.
  intros Hd Ht Hall. unfold create_tarball. rewrite dirname_snoc.
  rewrite (bind_done _ _ _ _ _ (write_file_run d t _ _ es w Hd Ht)).
  match goal with
  | |- bind (for_acc _ _ _) _ ?w1 = _ =>
      pose proof (create_tarball_loop d t es (w_fs w) (w_clock w) files
                    contents [] w1 Hd Ht Hall eq_refl eq_refl) as Hrun
  end.
  cbv zeta in Hrun. cbn [app] in Hrun.
  rewrite (bind_done _ _ _ _ _ Hrun). reflexivity.
Qed.

Lemma zip_with_names files : forall contents,
  length files = length contents ->
  map (fun member : tarinfo blob => ti_name member)
      (zip_with tar_member files contents) = files.
Proof.
  induction files as [ | x files IH]; intros [ | f contents]; cbn;
    try discriminate; try reflexivity.
  intros [= H]. now rewrite IH.
Qed.

Section BundleRoundTrip.

Variable md5 : blob -> string.

(** The rows read back from the members written for [files] carry the
    names, the sizes and the digests of the contents. *)
Lemma rows_of_members files : forall contents,
  map (fun member : tarinfo blob =>
         {| df_file := ti_name member; df_size := ti_size member;
            df_md5sum := calculate_obj_md5sum md5 (ti_data member) |})
      (List.filter (fun member : tarinfo blob => ti_isfile member)
                   (zip_with tar_member files contents))
  = zip_with (fun file f => {| df_file := file; df_size := f_size f;
                               df_md5sum := md5 (f_data f) |})
             files contents.
Proof.
  induction files as [ | x files IH]; intros [ | f contents]; cbn;
    try reflexivity.
  now rewrite IH.
Qed.

(** [create_tarball] and the readers, in a tree where every file has one
    name.  The directory [d] holds the regular files [files] (none of them
    the bundle [d/t] itself) and no directory named [t].  Then
    [create_tarball] returns, and afterwards [get_tarball_md5sums] reads
    back one row per file, in order, with the file's size and the
    fingerprint of its content, [list_tarball_files] reads back [files],
    every source is as it was, and nothing was asked of the bucket or of
    Globus. *)
Lemma create_tarball_round_trip d t es files contents w :
  fs_lookup d (w_fs w) = Some (Dir es) ->
  (forall es', fs_lookup (d ++ [t]) (w_fs w) <> Some (Dir es')) ->
  Forall2 (fun file f => fs_lookup (d ++ file) (w_fs w) = Some (File f)
                         /\ file <> [t]) files contents ->
  exists w',
    create_tarball files (d ++ [t]) w = (Done tt, w')
    /\ get_tarball_md5sums md5 (d ++ [t]) w'
       = (Done (zip_with (fun file f =>
                            {| df_file := file; df_size := f_size f;
                               df_md5sum := md5 (f_data f) |})
                         files contents), w')
    /\ list_tarball_files (d ++ [t]) w' = (Done files, w')
    /\ Forall2 (fun file f => fs_lookup (d ++ file) (w_fs w') = Some (File f))
               files contents
    /\ outside w' = outside w.
Proof.
  intros Hd Ht Hall. eexists. split; [exact (create_tarball_run _ _ _ _ _ _ Hd Ht Hall) | ].
  set (tf := tar_file (zip_with tar_member files contents) (w_clock w)).
  set (w' := set_fs (alter_at (dir_put t (File tf)) d) w).
  assert (Hread : read_file (d ++ [t]) w' = (Done tf, w')).
  { apply read_file_run. cbn [w_fs set_fs w'].
    exact (fs_lookup_put _ _ _ _ _ Hd). }
  split; [ | split; [ | split]].
  - unfold get_tarball_md5sums, tarfile_open.
    rewrite (bind_done _ _ _ _ _ (bind_done _ _ _ _ _ Hread)).
    cbn [f_data tf tar_file]. unfold ret at 1. now rewrite rows_of_members.
  - unfold list_tarball_files, try_except, tarfile_open.
    rewrite (bind_done _ _ _ _ _ (bind_done _ _ _ _ _ Hread)).
    cbn [f_data tf tar_file]. unfold ret.
    rewrite zip_with_names; [reflexivity | ].
    clear -Hall. induction Hall; cbn; congruence.
  - clear Hread. subst w'. cbn [w_fs set_fs]. clearbody tf.
    induction Hall as [ | file f files contents [Hf Hne] _ IH];
      constructor; [now apply file_kept_after_put | exact IH].
  - reflexivity.
Qed.

(** The check [run_archive] makes in tarball mode compares the bundle with
    what was just read from it: it cannot fail. *)
Lemma integrity_of_own_rows tarball_path df w w' :
  get_tarball_md5sums md5 tarball_path w = (Done df, w') ->
  test_tarball_integrity md5 tarball_path (PyList (map df_md5sum df)) w'
  = (Done true, w').
Proof.
  intros H.
  assert (Hw : w' = w).
  { unfold get_tarball_md5sums, tarfile_open in H.
    apply bind_done_inv in H as (ms & w1 & H & H').
    apply bind_done_inv in H as (f & w2 & H & H'').
    unfold read_file, bind, get_world in H.
    destruct (fs_lookup tarball_path (w_fs w)) as [[f0 | ] | ]; try discriminate.
    injection H as <- <-. destruct (f_data f0); try discriminate.
    injection H'' as <- <-. now injection H' as _ <-. }
  subst w'. unfold test_tarball_integrity. rewrite (bind_done _ _ _ _ _ H).
  now rewrite bool_decide_eq_true_2.
Qed.

End BundleRoundTrip.

(** ** The steps of a run of [run_archive] on a directory *)

Lemma tarball_re_matches unique_id :
  unique_id <> EmptyString ->
  Forall (fun c => Re.nonspace c = true) (list_ascii_of_string unique_id) ->
  Re.re_match tarball_re (tarball_name unique_id) = true.
Proof.
  intros Hne Hall. unfold Re.re_match. apply prefixmatch_spec.
  exists (list_ascii_of_string (tarball_name unique_id)), [].
  split; [now rewrite app_nil_r | ].
  unfold tarball_name, tarball_re.
  change "dhslabarchive."%string with ("dhslabarchive" +:+ ".")%string.
  change ".tar.gz"%string with ("." +:+ "tar" +:+ "." +:+ "gz")%string.
  rewrite !list_ascii_of_string_app. cbn [Re.Seq].
  rewrite <- !app_assoc.
  apply Re.lang_cat; [apply lang_lit | ].
  apply Re.lang_cat; [now apply Re.lang_cls | ].
  apply Re.lang_cat.
  { apply lang_plus_cls; [ | exact Hall].
    destruct unique_id; [easy | discriminate]. }
  apply Re.lang_cat; [now apply Re.lang_cls | ].
  apply Re.lang_cat; [apply lang_lit | ].
  apply Re.lang_cat; [now apply Re.lang_cls | ].
  rewrite <- (app_nil_r (list_ascii_of_string "gz")).
  apply Re.lang_cat; [apply lang_lit | apply Re.lang_eps].
Qed.

Lemma drawn_id_nonspace w :
  drawn_id w <> EmptyString
  /\ Forall (fun c => Re.nonspace c = true) (list_ascii_of_string (drawn_id w)).
Proof.
  unfold drawn_id. split.
  - assert (Hlen : length (firstn 20 (w_rng w ++ repeat 0%nat 20)) = 20%nat).
    { rewrite length_firstn, length_app, repeat_length. lia. }
    destruct (firstn 20 (w_rng w ++ repeat 0%nat 20)); discriminate.
  - rewrite list_ascii_of_string_of_list_ascii.
    apply List.Forall_forall. intros c Hc.
    apply in_map_iff in Hc as (i & <- & _). apply choice_alphabet_nonspace.
Qed.

Lemma drawn_tarball_is_own_artifact w :
  own_artifact (tarball_name (drawn_id w)) = true.
Proof.
  unfold own_artifact. apply orb_true_iff. left.
  apply tarball_re_matches; apply drawn_id_nonspace.
Qed.

Lemma sidecar_is_not_tarball a b : sidecar_name a <> tarball_name b.
Proof.
  unfold sidecar_name, tarball_name. intros H.
  apply (f_equal (fun s => rev (list_ascii_of_string s))) in H.
  rewrite !list_ascii_of_string_app, !rev_app_distr in H. discriminate.
Qed.

Lemma Forall_exists_Forall2 {A B : Type} (P : A -> B -> Prop) (l : list A) :
  (forall a, In a l -> exists b, P a b) -> exists k, Forall2 P l k.
Proof.
  induction l as [ | a l IH]; intros H.
  - exists []. constructor.
  - destruct (H a (or_introl eq_refl)) as (b & Hb).
    destruct IH as (k & Hk); [intros a' Ha'; apply H; now right | ].
    exists (b :: k). now constructor.
Qed.

Section ArchiveSteps.

Variable md5 : blob -> string.

Lemma get_files_Done_dir filepath w df w' :
  get_files md5 filepath w = (Done df, w') ->
  exists es, fs_lookup filepath (w_fs w) = Some (Dir es).
Proof.
  unfold get_files. intros H.
  apply bind_done_inv in H as (isfile & w1 & Hisfile & H).
  unfold os_path_isfile, bind, get_world, ret in Hisfile.
  injection Hisfile as <- <-.
  destruct (fs_lookup filepath (w_fs w)) as [[f | es] | ] eqn:E.
  - apply bind_done_inv in H as (size & w2 & _ & H). discriminate.
  - eauto.
  - apply bind_done_inv in H as (isdir & w2 & Hisdir & H).
    unfold os_path_isdir, bind, get_world, ret in Hisdir.
    rewrite E in Hisdir. injection Hisdir as <- <-. discriminate.
Qed.

Lemma write_file_Done_not_dir p size data w w' :
  write_file p size data w = (Done tt, w') ->
  forall es, fs_lookup p (w_fs w) <> Some (Dir es).
Proof.
  unfold write_file, bind, get_world. intros H es E. rewrite E in H.
  discriminate.
Qed.

Lemma rows_have_contents filepath w df :
  get_files md5 filepath w = (Done df, w) ->
  exists contents, Forall2 (describes md5 filepath (w_fs w)) df contents.
Proof.
  intros Hdf.
  destruct (get_files_rows md5 _ _ _ _ Hdf) as [_ Hrows].
  exact (Forall_exists_Forall2 (describes md5 filepath (w_fs w)) df Hrows).
Qed.

(** The enumerated files are regular files of the tree, none of them the
    bundle that is about to be written. *)
Lemma sources_of_rows filepath w df contents :
  get_files md5 filepath w = (Done df, w) ->
  Forall2 (describes md5 filepath (w_fs w)) df contents ->
  Forall2 (fun file f =>
             fs_lookup (filepath ++ file) (w_fs w) = Some (File f)
             /\ file <> [tarball_name (drawn_id w)])
          (map df_file df) contents.
Proof.
  intros Hr Hcontents.
  assert (Hgen : forall rows k,
            (forall r0, In r0 rows -> In r0 df) ->
            Forall2 (describes md5 filepath (w_fs w)) rows k ->
            Forall2 (fun file f =>
                       fs_lookup (filepath ++ file) (w_fs w) = Some (File f)
                       /\ file <> [tarball_name (drawn_id w)])
                    (map df_file rows) k).
  { intros rows k Hsub Hk.
    induction Hk as [ | r0 f rows k (Hf & _) _ IH]; cbn [map]; constructor.
    - split; [exact Hf | ]. intros E.
      destruct (get_files_lists_no_artifact md5 _ _ _ _ Hr _
                  (in_map df_file _ _ (Hsub r0 (or_introl eq_refl))))
        as (r1 & name & E1 & Hname).
      rewrite E in E1.
      change [tarball_name ?x] with ([] ++ [tarball_name x]) in E1.
      apply app_inj_tail in E1 as [_ <-].
      now rewrite drawn_tarball_is_own_artifact in Hname.
    - apply IH. intros r1 Hr1. apply Hsub. now right. }
  exact (Hgen df contents (fun _ H => H) Hcontents).
Qed.

Lemma bundle_md5sum filepath es df contents w :
  fs_lookup filepath (w_fs w) = Some (Dir es) ->
  calculate_file_md5sum md5 (filepath ++ [tarball_name (drawn_id w)])
                        (bundled filepath df contents w)
  = (Done (md5 (TarGz (zip_with tar_member (map df_file df) contents))),
     bundled filepath df contents w).
Proof.
  intros Hdir. unfold calculate_file_md5sum.
  erewrite bind_done.
  2:{ apply read_file_run. unfold bundled. cbn [w_fs set_fs set_rng].
      exact (fs_lookup_put _ _ _ _ _ Hdir). }
  cbn [f_size f_data tar_file]. unfold targz_size.
  destruct (Z.eqb_spec (20 + Z.of_nat (length (zip_with tar_member
              (map df_file df) contents))) 0); [lia | reflexivity].
Qed.

Lemma md5sums_of_rows filepath n df contents :
  Forall2 (describes md5 filepath n) df contents ->
  map df_md5sum
      (zip_with (fun file f => {| df_file := file; df_size := f_size f;
                                  df_md5sum := md5 (f_data f) |})
                (map df_file df) contents)
  = map df_md5sum df.
Proof.
  induction 1 as [ | r f df contents (_ & _ & Hsum & _) _ IH]; cbn;
    [reflexivity | ].
  now rewrite IH, Hsum.
Qed.

(** The bundle just written passes the check against the enumeration. *)
Lemma bundle_is_intact filepath es df contents w :
  fs_lookup filepath (w_fs w) = Some (Dir es) ->
  Forall2 (describes md5 filepath (w_fs w)) df contents ->
  test_tarball_integrity md5 (filepath ++ [tarball_name (drawn_id w)])
                         (PyList (map df_md5sum df))
                         (bundled filepath df contents w)
  = (Done true, bundled filepath df contents w).
Proof.
  intros Hdir Hcontents. unfold test_tarball_integrity.
  assert (Hrows :
    get_tarball_md5sums md5 (filepath ++ [tarball_name (drawn_id w)])
                        (bundled filepath df contents w)
    = (Done (zip_with (fun file f =>
                         {| df_file := file; df_size := f_size f;
                            df_md5sum := md5 (f_data f) |})
                      (map df_file df) contents),
       bundled filepath df contents w)).
  { unfold get_tarball_md5sums, tarfile_open.
    erewrite bind_done.
    2:{ erewrite bind_done.
        2:{ apply read_file_run. unfold bundled. cbn [w_fs set_fs set_rng].
            exact (fs_lookup_put _ _ _ _ _ Hdir). }
        reflexivity. }
    unfold ret. now rewrite rows_of_members. }
  rewrite (bind_done _ _ _ _ _ Hrows), (md5sums_of_rows _ _ _ _ Hcontents).
  now rewrite bool_decide_eq_true_2.
Qed.

(** A run of [run_archive] on a directory that returns the manifest [m]:
    what it has enumerated, the manifest, the world [bundled] in which the
    bundle is written and checked, and the steps that follow. *)
Lemma archive_steps cfg filepath archivepath force overwrite keep w m w' :
  run_archive md5 cfg filepath archivepath false force overwrite keep w
  = (Done m, w') ->
  exists es df contents,
    fs_lookup filepath (w_fs w) = Some (Dir es)
    /\ get_files md5 filepath w = (Done df, w)
    /\ df <> []
    /\ size_sum df <= 2000000000000
    /\ Forall2 (describes md5 filepath (w_fs w)) df contents
    /\ (forall es', fs_lookup (filepath ++ [tarball_name (drawn_id w)]) (w_fs w)
                    <> Some (Dir es'))
    /\ m = manifest_of md5 cfg filepath archivepath df contents w
    /\ after_check cfg filepath archivepath keep (drawn_id w)
                   (map df_file df) m (bundled filepath df contents w)
       = (Done m, w').
Proof.
  intros H. unfold run_archive in H.
  apply bind_done_inv in H as (ts & w0 & Hts & H).
  injection Hts as <- <-.
  apply bind_done_inv in H as (found & w1 & Hglob & H).
  destruct (glob_glob_total filepath sidecar_glob w) as (l & Hl).
  rewrite Hl in Hglob. injection Hglob as <- <-.
  apply bind_done_inv in H as (tb & w2 & Htb & H).
  assert (Htb' : tb = inl false /\ w2 = w).
  { destruct l as [ | p ps]; [now injection Htb as <- <- | ].
    destruct force, overwrite; cbn [negb andb] in Htb; try discriminate.
    now injection Htb as <- <-. }
  destruct Htb' as [-> ->]. clear Htb. cbn [truthy] in H.
  apply bind_done_inv in H as ([[[unique_id tarball] root] fileDf] & w3 & Hprep & H).
  apply bind_done_inv in Hprep as (uid & w4 & Hid & Hprep).
  rewrite random_choices_run in Hid. injection Hid as <- <-.
  fold (drawn_id w) in Hprep.
  apply bind_done_inv in Hprep as (df & w5 & Hdf & Hprep).
  destruct (length df =? 0)%nat eqn:Hlen; [discriminate | ].
  destruct (size_sum df >? 2000000000000) eqn:Hsize; [discriminate | ].
  apply bind_done_inv in Hprep as ([] & w6 & Htar & Hprep).
  injection Hprep as <- <- <- <- <-.
  unfold os_path_abspath, os_path_join in *.
  (* the enumeration *)
  set (w4 := set_rng (skipn 20) w) in *.
  destruct (fs_reader_get_files md5 filepath w) as (r & Hr & Hr').
  rewrite (Hr' w4 eq_refl) in Hdf. injection Hdf as -> <-.
  destruct (get_files_Done_dir _ _ _ _ Hr) as (es & Hdir).
  destruct (get_files_rows md5 _ _ _ _ Hr) as [_ Hrows].
  destruct (Forall_exists_Forall2 (describes md5 filepath (w_fs w)) df Hrows)
    as (contents & Hcontents).
  (* the bundle *)
  assert (Hnodir : forall es', fs_lookup (filepath ++ [tarball_name (drawn_id w)])
                                         (w_fs w) <> Some (Dir es')).
  { unfold create_tarball in Htar.
    apply bind_done_inv in Htar as ([] & w7 & Hfirst & _).
    exact (write_file_Done_not_dir _ _ _ _ _ Hfirst). }
  pose proof (sources_of_rows _ _ _ _ Hr Hcontents) as Hsources.
  change (w_fs w) with (w_fs w4) in Hsources.
  assert (Htar' : create_tarball (map df_file df)
                    (filepath ++ [tarball_name (drawn_id w)]) w4
                  = (Done tt, w6)) by exact Htar.
  rewrite (create_tarball_run filepath _ es _ contents w4 Hdir Hnodir Hsources)
    in Htar'.
  injection Htar' as <-. clear Htar.
  change (set_fs _ w4) with (bundled filepath df contents w) in *.
  (* its fingerprint and the check *)
  apply bind_done_inv in H as (tarball_md5sum & w7 & Hsum & H).
  pose proof (bundle_md5sum filepath es df contents w Hdir) as Hsum'.
  assert (Hsum2 :
    calculate_file_md5sum md5 (filepath ++ [tarball_name (drawn_id w)])
                          (bundled filepath df contents w)
    = (Done tarball_md5sum, w7)) by exact Hsum.
  rewrite Hsum' in Hsum2. injection Hsum2 as <- <-. clear Hsum.
  apply bind_done_inv in H as (intact & w8 & Hintact & H).
  assert (Hw8 : w8 = bundled filepath df contents w).
  { unfold test_tarball_integrity in Hintact.
    apply bind_done_inv in Hintact as (rows & w9 & Hrows' & Hintact).
    assert (w9 = bundled filepath df contents w).
    { unfold get_tarball_md5sums, tarfile_open in Hrows'.
      apply bind_done_inv in Hrows' as (ms & v1 & Hopen & Hrows').
      apply bind_done_inv in Hopen as (f & v2 & Hread & Hopen).
      unfold read_file, bind, get_world in Hread.
      destruct (fs_lookup _ _) as [[f0 | ] | ]; try discriminate.
      injection Hread as <- <-. destruct (f_data f0); try discriminate.
      injection Hopen as <- <-. now injection Hrows' as _ <-. }
    subst w9. destruct (bool_decide _); now injection Hintact as _ <-. }
  subst w8.
  destruct intact; cbn [negb] in H.
  2:{ apply bind_done_inv in H as (u & w9 & _ & H). discriminate. }
  exists es, df, contents.
  split; [exact Hdir | ]. split; [exact Hr | ].
  split; [now destruct df | ]. split; [lia | ].
  split; [exact Hcontents | ]. split; [exact Hnodir | ].
  rewrite basename_snoc in H.
  assert (Hm : m = manifest_of md5 cfg filepath archivepath df contents w).
  { destruct (String.eqb (mode cfg) "dry-run").
    - now injection H as <- _.
    - apply bind_done_inv in H as ([] & w9 & _ & H).
      apply bind_done_inv in H as ([] & w10 & _ & H).
      apply bind_done_inv in H as ([] & w11 & _ & H).
      now injection H as <- _. }
  split; [exact Hm | ]. rewrite Hm at 1. exact H.
Qed.

Lemma glob_nothing filepath es pattern w :
  fs_lookup filepath (w_fs w) = Some (Dir es) ->
  (forall name, In name (map fst es) -> Re.fnmatch pattern name = false) ->
  glob_glob filepath pattern w = (Done [], w).
Proof.
  intros Hdir Hnone. unfold glob_glob, bind, get_world, ret. rewrite Hdir.
  assert (E : List.filter (Re.fnmatch pattern) (map fst es) = []).
  { induction (map fst es) as [ | x l IH]; [reflexivity | ]. cbn.
    rewrite (Hnone x (or_introl eq_refl)). apply IH.
    intros name Hname. apply Hnone. now right. }
  now rewrite E.
Qed.

(** The way to the check.  [filepath] is a directory that holds no sidecar
    (or [force] is set and [overwrite] is not), its enumeration [df] is
    not empty and within the ceiling, and no directory bears the name of
    the bundle: then [run_archive] draws its id, writes the bundle, finds
    it intact and goes on with [after_check]. *)
Lemma archive_reaches_check cfg filepath archivepath force overwrite keep w
    es df contents :
  fs_lookup filepath (w_fs w) = Some (Dir es) ->
  (force = true /\ overwrite = false)
  \/ (forall name, In name (map fst es) ->
                   Re.fnmatch sidecar_glob name = false) ->
  get_files md5 filepath w = (Done df, w) ->
  df <> [] ->
  size_sum df <= 2000000000000 ->
  Forall2 (describes md5 filepath (w_fs w)) df contents ->
  (forall es', fs_lookup (filepath ++ [tarball_name (drawn_id w)]) (w_fs w)
               <> Some (Dir es')) ->
  run_archive md5 cfg filepath archivepath false force overwrite keep w
  = after_check cfg filepath archivepath keep (drawn_id w) (map df_file df)
      (manifest_of md5 cfg filepath archivepath df contents w)
      (bundled filepath df contents w).
Proof.
  intros Hdir Hguard Hdf Hne Hsize Hcontents Hnodir. unfold run_archive.
  rewrite (bind_done time_time _ w (w_clock w) w) by reflexivity.
  destruct (glob_glob_total filepath sidecar_glob w) as (l & Hl).
  rewrite (bind_done _ _ _ _ _ Hl).
  assert (Hflag :
    (match l with
     | _ :: _ =>
         if negb force && negb overwrite then sys_exit 1
         else if overwrite then
           name <- os_path_basename_of (inr l) ;;
           unique_id <- py_index (split_dot name) 1 ;;
           ret (inr (os_path_join filepath [tarball_name unique_id]))
         else ret (inl false)
     | [] => ret (inl false)
     end) w = (Done (inl false : bool + path), w)).
  { destruct Hguard as [[-> ->] | Hnone].
    - now destruct l.
    - rewrite (glob_nothing _ _ _ _ Hdir Hnone) in Hl. now injection Hl as <-. }
  rewrite (bind_done _ _ _ _ _ Hflag). cbn [truthy].
  set (w4 := set_rng (skipn 20) w).
  assert (Hprep :
    (unique_id <- random_choices alphabet 20 ;;
     let tarball := os_path_join filepath [tarball_name unique_id] in
     let filepath := os_path_abspath filepath in
     fileDf <- get_files md5 filepath ;;
     if (length fileDf =? 0)%nat then sys_exit 1
     else if size_sum fileDf >? 2000000000000 then sys_exit 1
     else
       create_tarball (map df_file fileDf) tarball ;;
       ret (unique_id, tarball, filepath, fileDf)) w
    = (Done (drawn_id w, filepath ++ [tarball_name (drawn_id w)], filepath, df),
       bundled filepath df contents w)).
  { rewrite (bind_done _ _ _ _ _ (random_choices_run alphabet 20 w)).
    cbv zeta. unfold os_path_abspath, os_path_join. fold w4.
    destruct (fs_reader_get_files md5 filepath w) as (r & Hr & Hr').
    rewrite Hdf in Hr. injection Hr as <-.
    rewrite (bind_done _ _ _ _ _ (Hr' w4 eq_refl)).
    destruct df as [ | r0 df0]; [contradiction | ]. cbn [length Nat.eqb].
    destruct (Z.gtb_spec (size_sum (r0 :: df0)) 2000000000000); [lia | ].
    pose proof (sources_of_rows _ _ _ _ Hdf Hcontents) as Hsources.
    change (w_fs w) with (w_fs w4) in Hsources, Hdir, Hnodir.
    pose proof (create_tarball_run filepath (tarball_name (drawn_id w)) es _
                  contents w4 Hdir Hnodir Hsources) as Htar.
    fold (drawn_id w).
    rewrite (bind_done _ _ _ _ _ Htar). reflexivity. }
  rewrite (bind_done _ _ _ _ _ Hprep).
  rewrite (bind_done _ _ _ _ _ (bundle_md5sum filepath es df contents w Hdir)).
  rewrite (bind_done _ _ _ _ _
             (bundle_is_intact filepath es df contents w Hdir Hcontents)).
  cbn [negb]. rewrite basename_snoc. reflexivity.
Qed.

End ArchiveSteps.

(** ** What a run of [run_archive] leaves *)

Lemma Forall2_In_l {A B : Type} (P : A -> B -> Prop) l k x :
  Forall2 P l k -> In x l -> exists y, In y k /\ P x y.
Proof.
  induction 1 as [ | a b l k Hab _ IH]; intros Hin; [destruct Hin | ].
  destruct Hin as [<- | Hin].
  - exists b. split; [now left | exact Hab].
  - destruct (IH Hin) as (y & Hy & Hxy). exists y. split; [now right | exact Hxy].
Qed.

Lemma write_file_Done_run d t size data w w' :
  write_file (d ++ [t]) size data w = (Done tt, w') ->
  exists es,
    fs_lookup d (w_fs w) = Some (Dir es)
    /\ (forall es', fs_lookup (d ++ [t]) (w_fs w) <> Some (Dir es'))
    /\ w' = set_fs (alter_at (dir_put t (File {| f_size := size;
                                                 f_ctime := w_clock w;
                                                 f_data := data |})) d) w.
Proof.
  intros H.
  pose proof (write_file_Done_not_dir _ _ _ _ _ H) as Hnodir.
  destruct (write_file_Done _ _ _ _ _ H) as (es & f & Hd & _).
  rewrite dirname_snoc in Hd. exists es.
  split; [exact Hd | ]. split; [exact Hnodir | ].
  rewrite (write_file_run d t size data es w Hd Hnodir) in H.
  now injection H as <-.
Qed.

Lemma try_except_exit_Done {A : Type} (c : M A) w a w' :
  try_except c (fun _ => sys_exit 1) w = (Done a, w') -> c w = (Done a, w').
Proof.
  unfold try_except. destruct (c w) as [[a0 | [code | e] | ] w1]; intros H;
    try discriminate; exact H.
Qed.

Lemma fs_kept_transfer_to_s3 bucket region tarball_path overwrite sc :
  keeps w_fs (transfer_to_s3 bucket region tarball_path overwrite sc).
Proof.
  unfold transfer_to_s3, check_s3_bucket, check_s3_object, head_bucket,
    head_object, upload_file, os_path_getsize, read_file.
  keeps_tac.
Qed.

Lemma fs_kept_globus file_path endpoint_id destination_path :
  keeps w_fs (globus_transfer_to_archive file_path endpoint_id destination_path).
Proof.
  unfold globus_transfer_to_archive, globus_path_exists,
    globus_create_directory, initiate_globus_transfer, globus_ls, globus_mkdir,
    globus_transfer, globus_task_wait, globus_task_show.
  keeps_tac.
Qed.

(** The transfer leaves the local files alone but for the bundle, which it
    unlinks. *)
Lemma transfer_step_fs cfg archivepath d t v v1 :
  transfer_step cfg archivepath (d ++ [t]) v = (Done tt, v1) ->
  w_fs v1 = if String.eqb (mode cfg) "glacier"
               || String.eqb (mode cfg) "ris_archive"
            then alter_at (dir_remove t) d (w_fs v)
            else w_fs v.
Proof.
  unfold transfer_step. intros H.
  assert (Hgen : forall (A : Type) (c : M A),
            keeps w_fs c ->
            try_except (c ;; os_remove (d ++ [t])) (fun _ => sys_exit 1) v
            = (Done tt, v1) ->
            w_fs v1 = alter_at (dir_remove t) d (w_fs v)).
  { intros A c Hc Hrun. apply try_except_exit_Done in Hrun.
    apply bind_done_inv in Hrun as (a & v0 & Hc0 & Hrm).
    pose proof (Hc _ _ _ Hc0) as Hfs.
    destruct (os_remove_Done _ _ _ Hrm) as [_ Hfs1].
    now rewrite dirname_snoc, basename_snoc, Hfs in Hfs1. }
  destruct (String.eqb (mode cfg) "glacier"); cbn [orb].
  - exact (Hgen _ _ (fs_kept_transfer_to_s3 _ _ _ _ _) H).
  - destruct (String.eqb (mode cfg) "ris_archive").
    + exact (Hgen _ _ (fs_kept_globus _ _ _) H).
    + now injection H as <-.
Qed.

Section ArchiveLeaves.

Variable md5 : blob -> string.

(** The enumerated sources, seen in the world where the bundle is
    written. *)
Lemma sources_in_bundled filepath es df contents w file :
  fs_lookup filepath (w_fs w) = Some (Dir es) ->
  get_files md5 filepath w = (Done df, w) ->
  Forall2 (describes md5 filepath (w_fs w)) df contents ->
  (forall es', fs_lookup (filepath ++ [tarball_name (drawn_id w)]) (w_fs w)
               <> Some (Dir es')) ->
  In file (map df_file df) ->
  exists f,
    fs_lookup (filepath ++ file) (w_fs w) = Some (File f)
    /\ fs_lookup (filepath ++ file) (w_fs (bundled filepath df contents w))
       = Some (File f)
    /\ file <> [tarball_name (drawn_id w)]
    /\ file <> [sidecar_name (drawn_id w)].
Proof.
  intros Hdir Hdf Hcontents Hnodir Hin.
  destruct (Forall2_In_l _ _ _ _ (sources_of_rows md5 _ _ _ _ Hdf Hcontents) Hin)
    as (f & _ & Hf & Hne).
  exists f. split; [exact Hf | ]. split; [ | split; [exact Hne | ]].
  - unfold bundled. cbn [w_fs set_fs set_rng].
    now apply file_kept_after_put.
  - intros E.
    destruct (get_files_lists_no_artifact md5 _ _ _ _ Hdf _ Hin)
      as (r1 & name & E1 & Hname).
    rewrite E in E1.
    change [sidecar_name ?x] with ([] ++ [sidecar_name x]) in E1.
    apply app_inj_tail in E1 as [_ <-].
    unfold drawn_id in Hname.
    now rewrite drawn_sidecar_is_own_artifact in Hname.
Qed.

(** A dry run that returns has made no call to the bucket or to Globus,
    has deleted nothing and has written no sidecar -- but it has written
    the bundle into the directory, and leaves it there. *)
Theorem dry_run_leaves_bundle cfg filepath archivepath force overwrite keep
    w m w' :
  mode cfg = "dry-run"%string ->
  run_archive md5 cfg filepath archivepath false force overwrite keep w
  = (Done m, w') ->
  outside w' = outside w
  /\ (forall file, In file (Files m) ->
        is_file (filepath ++ file) (w_fs w) = true
        /\ fs_lookup (filepath ++ file) (w_fs w')
           = fs_lookup (filepath ++ file) (w_fs w))
  /\ (exists ms,
        fs_lookup (filepath ++ [Filename m]) (w_fs w')
        = Some (File (tar_file ms (w_clock w)))
        /\ map (fun member : tarinfo blob => ti_name member) ms = Files m)
  /\ fs_lookup (filepath ++ [sidecar_name (Id m)]) (w_fs w')
     = fs_lookup (filepath ++ [sidecar_name (Id m)]) (w_fs w).
Proof.
  intros Hmode H.
  destruct (archive_steps md5 _ _ _ _ _ _ _ _ _ H)
    as (es & df & contents & Hdir & Hdf & _ & _ & Hcontents & Hnodir & Hm & Hrest).
  unfold after_check in Hrest. rewrite Hmode in Hrest.
  cbn [String.eqb Ascii.eqb Bool.eqb] in Hrest. injection Hrest as <-.
  subst m. cbn [Files Filename Id manifest_of].
  split; [reflexivity | ]. split; [ | split].
  - intros file Hin.
    destruct (sources_in_bundled _ _ _ _ _ _ Hdir Hdf Hcontents Hnodir Hin)
      as (f & Hf & Hf' & _).
    unfold is_file. rewrite Hf, Hf'. auto.
  - exists (zip_with tar_member (map df_file df) contents). split.
    + unfold bundled. cbn [w_fs set_fs set_rng].
      exact (fs_lookup_put _ _ _ _ _ Hdir).
    + apply zip_with_names. rewrite length_map.
      clear -Hcontents. induction Hcontents; cbn; congruence.
  - unfold bundled. cbn [w_fs set_fs set_rng].
    apply (fs_lookup_alter_other (tarball_name (drawn_id w)) _ filepath
             (sidecar_name (drawn_id w)) []).
    + apply only_entry_put.
    + apply sidecar_is_not_tarball.
Qed.

(** The sidecar of a run that returns (a dry run apart) holds the manifest
    that was returned, under the name made of the id; and the manifest
    says what was enumerated, where, by whom and when. *)
Theorem archive_records_manifest cfg filepath archivepath force overwrite keep
    w m w' :
  run_archive md5 cfg filepath archivepath false force overwrite keep w
  = (Done m, w') ->
  (exists df,
     get_files md5 filepath w = (Done df, w)
     /\ Files m = map df_file df
     /\ Sizes m = map df_size df
     /\ MD5Sums m = map df_md5sum df)
  /\ Id m = drawn_id w
  /\ Filename m = tarball_name (Id m)
  /\ LocalPath m = filepath
  /\ ArchivePath m = archivepath
  /\ Location m = mode cfg
  /\ Username m = username cfg
  /\ Timestamp m = w_clock w
  /\ (mode cfg <> "dry-run"%string ->
      json_load (filepath ++ [sidecar_name (Id m)]) w' = (Done m, w')).
Proof.
  intros H.
  destruct (archive_steps md5 _ _ _ _ _ _ _ _ _ H)
    as (es & df & contents & Hdir & Hdf & _ & _ & Hcontents & Hnodir & Hm & Hrest).
  split; [exists df; subst m; cbn; auto | ].
  repeat (split; [subst m; reflexivity | ]).
  intros Hmode. unfold after_check in Hrest.
  destruct (String.eqb_spec (mode cfg) "dry-run") as [ | _]; [contradiction | ].
  apply bind_done_inv in Hrest as ([] & w1 & _ & Hrest).
  apply bind_done_inv in Hrest as ([] & w2 & _ & Hrest).
  apply bind_done_inv in Hrest as ([] & w3 & Hjson & Hrest).
  injection Hrest as <-. unfold os_path_join in Hjson.
  destruct (write_file_Done_run _ _ _ _ _ _ Hjson) as (es2 & Hd2 & _ & ->).
  replace (Id m) with (drawn_id w) by now subst m.
  unfold json_load.
  erewrite bind_done.
  2:{ apply read_file_run. cbn [w_fs set_fs].
      exact (fs_lookup_put _ _ _ _ _ Hd2). }
  reflexivity.
Qed.

(** With [keep], a run that returns (a dry run apart) leaves every
    enumerated file in place, as it was; the local bundle is unlinked once
    it has been transferred. *)
Theorem keep_leaves_sources cfg filepath archivepath force overwrite w m w' :
  mode cfg <> "dry-run"%string ->
  run_archive md5 cfg filepath archivepath false force overwrite true w
  = (Done m, w') ->
  (forall file, In file (Files m) ->
     is_file (filepath ++ file) (w_fs w) = true
     /\ fs_lookup (filepath ++ file) (w_fs w')
        = fs_lookup (filepath ++ file) (w_fs w))
  /\ (mode cfg = "glacier"%string \/ mode cfg = "ris_archive"%string ->
      fs_lookup (filepath ++ [Filename m]) (w_fs w') = None).
Proof.
  intros Hmode H.
  destruct (archive_steps md5 _ _ _ _ _ _ _ _ _ H)
    as (es & df & contents & Hdir & Hdf & _ & _ & Hcontents & Hnodir & Hm & Hrest).
  unfold after_check in Hrest.
  destruct (String.eqb_spec (mode cfg) "dry-run") as [ | _]; [contradiction | ].
  apply bind_done_inv in Hrest as ([] & w1 & Htransfer & Hrest).
  apply bind_done_inv in Hrest as ([] & w2 & Hkeep & Hrest).
  apply bind_done_inv in Hrest as ([] & w3 & Hjson & Hrest).
  injection Hrest as <-. cbn [negb] in Hkeep. injection Hkeep as <-.
  unfold os_path_join in Htransfer, Hjson.
  apply transfer_step_fs in Htransfer.
  destruct (write_file_Done_run _ _ _ _ _ _ Hjson) as (es2 & Hd2 & Hnodir2 & ->).
  cbn [w_fs set_fs].
  set (t := tarball_name (drawn_id w)) in *.
  set (s := sidecar_name (drawn_id w)) in *.
  assert (Hbundle : fs_lookup (filepath ++ [t])
                              (w_fs (bundled filepath df contents w))
                    = Some (File (tar_file (zip_with tar_member
                                              (map df_file df) contents)
                                           (w_clock w)))).
  { unfold bundled. cbn [w_fs set_fs set_rng].
    exact (fs_lookup_put _ _ _ _ _ Hdir). }
  assert (Hdirb : exists esb,
            fs_lookup filepath (w_fs (bundled filepath df contents w))
            = Some (Dir esb)).
  { unfold bundled. cbn [w_fs set_fs set_rng].
    rewrite (fs_lookup_alter_at _ _ _ _ Hdir). unfold dir_put.
    destruct (assoc _ es); eauto. }
  destruct Hdirb as (esb & Hdirb).
  split.
  - intros file Hin. replace (Files m) with (map df_file df) in Hin by now subst m.
    destruct (sources_in_bundled _ _ _ _ _ _ Hdir Hdf Hcontents Hnodir Hin)
      as (f & Hf & Hf' & Hnt & Hns).
    unfold is_file. rewrite Hf. split; [reflexivity | ].
    apply file_kept_after_put; [exact Hnodir2 | | exact Hns].
    rewrite Htransfer.
    destruct (String.eqb (mode cfg) "glacier" || String.eqb (mode cfg) "ris_archive");
      [ | exact Hf'].
    apply file_kept_after_remove; [ | exact Hf' | exact Hnt].
    intros es'. fold t. rewrite Hbundle. discriminate.
  - intros Hm'. replace (Filename m) with t by now subst m.
    rewrite (fs_lookup_alter_other s _ filepath t []);
      [ | apply only_entry_put
        | intros E; symmetry in E; exact (sidecar_is_not_tarball _ _ E)].
    rewrite Htransfer.
    assert (E : (String.eqb (mode cfg) "glacier"
                 || String.eqb (mode cfg) "ris_archive") = true).
    { destruct Hm' as [-> | ->]; reflexivity. }
    rewrite E. exact (fs_lookup_removed _ _ _ _ Hdirb).
Qed.

End ArchiveLeaves.

(** ** The transfer to the bucket *)

Lemma check_s3_bucket_run bucket w :
  check_s3_bucket bucket w
  = (Done (match w_s3 w !! bucket with Some _ => true | None => false end),
     log_call (HeadBucket bucket) w).
Proof.
  unfold check_s3_bucket, try_except, head_bucket, bind, modify, get_world.
  cbn [w_s3 log_call]. now destruct (w_s3 w !! bucket).
Qed.

Lemma check_s3_object_run bucket key w :
  check_s3_object bucket key w
  = match s3_object bucket key w with
    | Some _ =>
        (Done true, set_s3 (alter (alter pop_restore key) bucket)
                           (log_call (HeadObject bucket key) w))
    | None => (Done false, log_call (HeadObject bucket key) w)
    end.
Proof.
  unfold check_s3_object, try_except, head_object. unfold bind at 1.
  unfold bind at 1, modify. unfold bind at 1, get_world.
  change (s3_object bucket key (log_call (HeadObject bucket key) w))
    with (s3_object bucket key w).
  now destruct (s3_object bucket key w).
Qed.

Lemma s3_object_log bucket key c w :
  s3_object bucket key (log_call c w) = s3_object bucket key w.
Proof. reflexivity. Qed.

Lemma s3_object_alter g bucket key b k w :
  s3_object b k (set_s3 (alter (alter g key) bucket) w)
  = if bool_decide (b = bucket /\ k = key)
    then option_map g (s3_object b k w)
    else s3_object b k w.
Proof.
  unfold s3_object. cbn [w_s3 set_s3].
  destruct (decide (b = bucket)) as [-> | Hb].
  - rewrite lookup_alter_eq. destruct (w_s3 w !! bucket) as [objs | ]; cbn.
    + destruct (decide (k = key)) as [-> | Hk].
      * rewrite bool_decide_eq_true_2 by auto. now rewrite lookup_alter_eq.
      * rewrite bool_decide_eq_false_2 by (intros [_ ?]; auto).
        now rewrite lookup_alter_ne.
    + now destruct (bool_decide _).
  - rewrite bool_decide_eq_false_2 by (intros [? _]; auto).
    now rewrite lookup_alter_ne.
Qed.

Lemma s3_object_insert o bucket key b k w :
  s3_object b k (set_s3 (alter (insert key o) bucket) w)
  = if bool_decide (b = bucket /\ k = key)
    then option_map (fun _ => o) (w_s3 w !! bucket)
    else s3_object b k w.
Proof.
  unfold s3_object. cbn [w_s3 set_s3].
  destruct (decide (b = bucket)) as [-> | Hb].
  - rewrite lookup_alter_eq. destruct (w_s3 w !! bucket) as [objs | ]; cbn.
    + destruct (decide (k = key)) as [-> | Hk].
      * rewrite bool_decide_eq_true_2 by auto. now rewrite lookup_insert_eq.
      * rewrite bool_decide_eq_false_2 by (intros [_ ?]; auto).
        now rewrite lookup_insert_ne.
    + now destruct (bool_decide _).
  - rewrite bool_decide_eq_false_2 by (intros [? _]; auto).
    now rewrite lookup_alter_ne.
Qed.

(** No bucket: [transfer_to_s3] ends the program after one [head_bucket]. *)
Lemma transfer_to_s3_no_bucket bucket region p overwrite sc w :
  w_s3 w !! bucket = None ->
  transfer_to_s3 bucket region p overwrite sc w
  = (Fail (SysExit 1), log_call (HeadBucket bucket) w).
Proof.
  intros Hb. unfold transfer_to_s3.
  rewrite (bind_done _ _ _ _ _ (check_s3_bucket_run bucket w)), Hb.
  reflexivity.
Qed.

(** The object is there and [overwrite] is not set: nothing is uploaded,
    and [None] is returned. *)
Lemma transfer_to_s3_skips bucket region p sc o w :
  s3_object bucket (os_path_basename p) w = Some o ->
  transfer_to_s3 bucket region p false sc w
  = (Done None,
     set_s3 (alter (alter pop_restore (os_path_basename p)) bucket)
       (log_call (HeadObject bucket (os_path_basename p))
          (log_call (HeadBucket bucket) w))).
Proof.
  intros Ho. unfold transfer_to_s3.
  rewrite (bind_done _ _ _ _ _ (check_s3_bucket_run bucket w)).
  assert (Hb : exists objs, w_s3 w !! bucket = Some objs).
  { unfold s3_object in Ho. destruct (w_s3 w !! bucket); [eauto | discriminate]. }
  destruct Hb as (objs & ->). cbn [negb].
  unfold bind at 1. rewrite check_s3_object_run, s3_object_log, Ho.
  reflexivity.
Qed.

(** The bucket is there, the object is not (or [overwrite] is set), and
    the file can be read: it is uploaded. *)
Lemma transfer_to_s3_uploads bucket region p overwrite sc objs f w :
  w_s3 w !! bucket = Some objs ->
  objs !! os_path_basename p = None \/ overwrite = true ->
  fs_lookup p (w_fs w) = Some (File f) ->
  exists w',
    transfer_to_s3 bucket region p overwrite sc w = (Done (Some true), w')
    /\ s3_object bucket (os_path_basename p) w'
       = Some {| o_size := f_size f; o_data := f_data f;
                 o_class := Some sc; o_restore := [] |}
    /\ (forall b k, (b, k) <> (bucket, os_path_basename p) ->
          s3_object b k w' = s3_object b k w)
    /\ w_fs w' = w_fs w
    /\ w_globus w' = w_globus w
    /\ w_clock w' = w_clock w
    /\ w_calls w'
       = w_calls w ++ [HeadBucket bucket;
                       HeadObject bucket (os_path_basename p);
                       UploadFile bucket (os_path_basename p) sc].
Proof.
  intros Hb Hfree Hf. unfold transfer_to_s3.
  rewrite (bind_done _ _ _ _ _ (check_s3_bucket_run bucket w)), Hb.
  cbn [negb].
  unfold bind at 1. rewrite check_s3_object_run, s3_object_log.
  set (key := os_path_basename p).
  set (w1 := log_call (HeadObject bucket key) (log_call (HeadBucket bucket) w)).
  assert (Hcases : exists w2,
    (match s3_object bucket key w with
     | Some _ => (Done true, set_s3 (alter (alter pop_restore key) bucket) w1)
     | None => (Done false, w1)
     end) = (Done (match s3_object bucket key w with
                   | Some _ => true | None => false end), w2)
    /\ (exists objs2, w_s3 w2 !! bucket = Some objs2)
    /\ w_fs w2 = w_fs w /\ w_globus w2 = w_globus w
    /\ w_clock w2 = w_clock w
    /\ w_calls w2 = w_calls w ++ [HeadBucket bucket; HeadObject bucket key]
    /\ (forall b k, (b, k) <> (bucket, key) ->
          s3_object b k w2 = s3_object b k w)).
  { destruct (s3_object bucket key w) as [o | ] eqn:Ho.
    - eexists. split; [reflexivity | ]. unfold w1.
      split.
      { cbn [w_s3 set_s3 log_call]. rewrite lookup_alter_eq, Hb. cbn. eauto. }
      cbn [w_fs w_globus w_clock w_calls set_s3 log_call].
      repeat (split; [reflexivity | ]).
      split; [now rewrite <- app_assoc | ].
      intros b k Hne. rewrite s3_object_alter.
      rewrite bool_decide_eq_false_2; [reflexivity | ].
      intros [-> ->]. now apply Hne.
    - eexists. split; [reflexivity | ]. unfold w1.
      cbn [w_s3 w_fs w_globus w_clock w_calls set_s3 log_call].
      split; [eauto | ]. repeat (split; [reflexivity | ]).
      split; [now rewrite <- app_assoc | ]. reflexivity. }
  destruct Hcases as (w2 & -> & (objs2 & Hb2) & Hfs2 & Hg2 & Hc2 & Hcalls2 & Hother).
  assert (Hthere :
    (match s3_object bucket key w with Some _ => true | None => false end
     && negb overwrite)%bool = false).
  { destruct Hfree as [Hnone | ->]; [ | apply andb_false_r].
    unfold s3_object, key. now rewrite Hb, Hnone. }
  rewrite Hthere.
  assert (Hsize : os_path_getsize p w2 = (Done (f_size f), w2)).
  { unfold os_path_getsize, bind, get_world. now rewrite Hfs2, Hf. }
  rewrite (bind_done _ _ _ _ _ Hsize).
  unfold try_except, upload_file.
  assert (Hread : read_file p w2 = (Done f, w2))
    by (apply read_file_run; now rewrite Hfs2).
  unfold bind at 1. rewrite (bind_done _ _ _ _ _ Hread).
  unfold bind at 1, modify. unfold bind at 1, get_world.
  cbn [w_s3 log_call]. rewrite Hb2. unfold ret.
  eexists. split; [reflexivity | ].
  split; [ | split; [ | repeat split]].
  - rewrite s3_object_insert. rewrite bool_decide_eq_true_2 by auto.
    cbn [w_s3 log_call]. now rewrite Hb2.
  - intros b k Hne. rewrite s3_object_insert.
    rewrite bool_decide_eq_false_2 by (intros [-> ->]; now apply Hne).
    rewrite s3_object_log. now rewrite (Hother b k Hne).
  - exact Hfs2.
  - exact Hg2.
  - exact Hc2.
  - cbn [w_calls set_s3 log_call]. rewrite Hcalls2, <- app_assoc. reflexivity.
Qed.

Lemma download_s3_object_writes bucket key d name region o es w :
  s3_object bucket key w = Some o ->
  fs_lookup d (w_fs w) = Some (Dir es) ->
  (forall es', fs_lookup (d ++ [name]) (w_fs w) <> Some (Dir es')) ->
  download_s3_object bucket key (d ++ [name]) region w
  = (Done tt,
     set_fs (alter_at (dir_put name (File {| f_size := o_size o;
                                             f_ctime := w_clock w;
                                             f_data := o_data o |})) d)
            (log_call (DownloadFile bucket key (d ++ [name])) w)).
Proof.
  intros Ho Hd Hnodir.
  unfold download_s3_object, try_except, download_file.
  unfold bind at 1, modify. unfold bind at 1, get_world.
  rewrite s3_object_log, Ho.
  now rewrite (write_file_run d name _ _ es
                 (log_call (DownloadFile bucket key (d ++ [name])) w) Hd Hnodir).
Qed.

(** What is uploaded is what a download gives back.  The storage class
    is one that is read back at once, the bucket is there, the key is free
    (or [overwrite] is set) and [p] is a regular file: [transfer_to_s3]
    stores it under its base name, and a download of that key into the
    directory [d] writes a file of the same size and content. *)
Theorem upload_download_round_trip bucket region p overwrite sc objs f
    d name es w :
  In sc ["STANDARD"; "STANDARD_IA"; "GLACIER_IR"]%string ->
  w_s3 w !! bucket = Some objs ->
  objs !! os_path_basename p = None \/ overwrite = true ->
  fs_lookup p (w_fs w) = Some (File f) ->
  fs_lookup d (w_fs w) = Some (Dir es) ->
  (forall es', fs_lookup (d ++ [name]) (w_fs w) <> Some (Dir es')) ->
  exists w1 w2,
    transfer_to_s3 bucket region p overwrite sc w = (Done (Some true), w1)
    /\ download_s3_object bucket (os_path_basename p) (d ++ [name]) region w1
       = (Done tt, w2)
    /\ fs_lookup (d ++ [name]) (w_fs w2)
       = Some (File {| f_size := f_size f; f_ctime := w_clock w;
                       f_data := f_data f |}).
Proof.
  intros _ Hb Hfree Hf Hd Hnodir.
  destruct (transfer_to_s3_uploads bucket region p overwrite sc objs f w
              Hb Hfree Hf)
    as (w1 & Hup & Ho & _ & Hfs & _ & Hclock & _).
  rewrite <- Hfs in Hd, Hnodir.
  exists w1. eexists. split; [exact Hup | ]. split.
  - exact (download_s3_object_writes _ _ _ _ _ _ _ _ Ho Hd Hnodir).
  - cbn [w_fs set_fs log_call o_size o_data].
    rewrite (fs_lookup_put _ _ _ _ _ Hd), Hclock. reflexivity.
Qed.

(** Without [overwrite], an object that is in the bucket already is never
    replaced: nothing is uploaded, the object keeps its content and its
    class, and [transfer_to_s3] returns [None]. *)
Theorem transfer_to_s3_never_replaces bucket region p sc o w :
  s3_object bucket (os_path_basename p) w = Some o ->
  exists w' o',
    transfer_to_s3 bucket region p false sc w = (Done None, w')
    /\ s3_object bucket (os_path_basename p) w' = Some o'
    /\ o_data o' = o_data o /\ o_size o' = o_size o /\ o_class o' = o_class o
    /\ w_fs w' = w_fs w
    /\ w_calls w'
       = w_calls w ++ [HeadBucket bucket;
                       HeadObject bucket (os_path_basename p)].
Proof.
  intros Ho. eexists. exists (pop_restore o).
  split; [exact (transfer_to_s3_skips _ _ _ _ _ _ Ho) | ].
  split.
  - rewrite s3_object_alter, bool_decide_eq_true_2 by auto.
    rewrite !s3_object_log, Ho. reflexivity.
  - cbn [w_fs w_calls set_s3 log_call pop_restore o_data o_size o_class].
    repeat split. now rewrite <- app_assoc.
Qed.

Lemma outside_kept_delete_sources filepath files :
  keeps outside (delete_sources filepath files).
Proof.
  unfold delete_sources, os_walk_bottomup, sweep_triple, remove_if_empty,
    os_listdir, os_rmdir, os_remove, os_path_isfile.
  keeps_tac.
Qed.

Lemma outside_kept_write_file p size data : keeps outside (write_file p size data).
Proof. unfold write_file. keeps_tac. Qed.

Section ArchiveToBucket.

Variable md5 : blob -> string.

(** What follows the transfer asks nothing of the bucket or of Globus. *)
Lemma after_transfer_outside filepath keep unique_id files m v1 w' :
  ((if negb keep then delete_sources filepath files else ret tt) ;;
   write_file (os_path_join filepath [sidecar_name unique_id])
              (json_size m) (Json m) ;;
   ret m) v1 = (Done m, w') ->
  outside w' = outside v1.
Proof.
  intros H.
  refine ((_ : keeps outside _) _ _ _ H).
  apply keeps_bind.
  - destruct keep; [apply keeps_ret | apply outside_kept_delete_sources].
  - intros _. apply keeps_bind; [apply outside_kept_write_file | ].
    intros _. apply keeps_ret.
Qed.

(** An archive to the bucket that returns.  The bucket is there.  If no
    object bore the name of the bundle, the bundle is now in the bucket
    under that name, in the storage class of the configuration, with the
    enumerated files as its members and the recorded fingerprint, after one
    [head_bucket], one [head_object] and one upload.  If an object bore
    that name, nothing was uploaded and the object has kept its content --
    the run goes on all the same. *)
Theorem archive_to_bucket cfg filepath archivepath force overwrite keep
    w m w' :
  mode cfg = "glacier"%string ->
  run_archive md5 cfg filepath archivepath false force overwrite keep w
  = (Done m, w') ->
  (exists objs, w_s3 w !! archivepath = Some objs)
  /\ match s3_object archivepath (Filename m) w with
     | None =>
         (exists ms,
            s3_object archivepath (Filename m) w'
            = Some {| o_size := targz_size ms; o_data := TarGz ms;
                      o_class := Some (storage_class cfg); o_restore := [] |}
            /\ map (fun member : tarinfo blob => ti_name member) ms = Files m
            /\ TarballMD5sum m = md5 (TarGz ms))
         /\ w_calls w'
            = w_calls w ++ [HeadBucket archivepath;
                            HeadObject archivepath (Filename m);
                            UploadFile archivepath (Filename m)
                                       (storage_class cfg)]
     | Some o =>
         (exists o',
            s3_object archivepath (Filename m) w' = Some o'
            /\ o_data o' = o_data o /\ o_class o' = o_class o)
         /\ w_calls w'
            = w_calls w ++ [HeadBucket archivepath;
                            HeadObject archivepath (Filename m)]
     end.
Proof.
  intros Hmode H.
  destruct (archive_steps md5 _ _ _ _ _ _ _ _ _ H)
    as (es & df & contents & Hdir & Hdf & _ & _ & Hcontents & Hnodir & Hm & Hrest).
  unfold after_check in Hrest. rewrite Hmode in Hrest.
  cbn [String.eqb Ascii.eqb Bool.eqb] in Hrest.
  apply bind_done_inv in Hrest as ([] & v1 & Htransfer & Hrest).
  apply after_transfer_outside in Hrest.
  unfold transfer_step in Htransfer. rewrite Hmode in Htransfer.
  cbn [String.eqb Ascii.eqb Bool.eqb] in Htransfer.
  apply try_except_exit_Done in Htransfer.
  apply bind_done_inv in Htransfer as (r & v0 & Hs3 & Hrm).
  pose proof (outside_kept_os_remove _ _ _ _ Hrm) as Hout.
  unfold os_path_join in *.
  set (t := tarball_name (drawn_id w)) in *.
  set (ms := zip_with tar_member (map df_file df) contents) in *.
  replace (Filename m) with t by now subst m.
  assert (Hbundle : fs_lookup (filepath ++ [t])
                              (w_fs (bundled filepath df contents w))
                    = Some (File (tar_file ms (w_clock w)))).
  { unfold bundled. cbn [w_fs set_fs set_rng].
    exact (fs_lookup_put _ _ _ _ _ Hdir). }
  assert (Hkey : os_path_basename (filepath ++ [t]) = t) by apply basename_snoc.
  assert (Hs3w : forall k, s3_object archivepath k (bundled filepath df contents w)
                           = s3_object archivepath k w) by reflexivity.
  assert (Hw' : w_s3 w' = w_s3 v0 /\ w_calls w' = w_calls v0).
  { unfold outside in Hrest, Hout.
    injection Hrest as E1 _ E3. injection Hout as F1 _ F3.
    now rewrite E1, F1, E3, F3. }
  destruct Hw' as [Hs3' Hcalls].
  assert (Hobj : forall k, s3_object archivepath k w' = s3_object archivepath k v0).
  { intros k. unfold s3_object. now rewrite Hs3'. }
  destruct (w_s3 w !! archivepath) as [objs | ] eqn:Hb.
  2:{ rewrite (transfer_to_s3_no_bucket archivepath _ _ _ _
                 (bundled filepath df contents w) Hb) in Hs3. discriminate. }
  split; [eauto | ].
  destruct (s3_object archivepath t w) as [o | ] eqn:Ho.
  - rewrite (transfer_to_s3_skips archivepath (s3_region cfg)
               (filepath ++ [t]) (storage_class cfg) o
               (bundled filepath df contents w)) in Hs3
      by now rewrite Hkey, Hs3w.
    injection Hs3 as _ <-. rewrite Hkey in *. split.
    + exists (pop_restore o). rewrite Hobj, s3_object_alter.
      rewrite bool_decide_eq_true_2 by auto.
      rewrite !s3_object_log, Hs3w, Ho. auto.
    + rewrite Hcalls. cbn [w_calls set_s3 log_call].
      now rewrite <- app_assoc.
  - destruct (transfer_to_s3_uploads archivepath (s3_region cfg)
                (filepath ++ [t]) false (storage_class cfg) objs
                (tar_file ms (w_clock w))
                (bundled filepath df contents w) Hb)
      as (v0' & Hrun & Ho' & _ & _ & _ & _ & Hc).
    { left. rewrite Hkey. unfold s3_object in Ho. now rewrite Hb in Ho. }
    { exact Hbundle. }
    rewrite Hrun in Hs3. injection Hs3 as _ <-.
    rewrite Hkey in *. split.
    + exists ms. rewrite Hobj, Ho'. split; [reflexivity | ].
      subst m. cbn [Files TarballMD5sum manifest_of]. split; [ | reflexivity].
      apply zip_with_names. rewrite length_map.
      clear -Hcontents. induction Hcontents; cbn; congruence.
    + rewrite Hcalls, Hc. reflexivity.
Qed.


End ArchiveToBucket.

(** ** The ways [run_restore] ends *)

Section RestoreEnds.

Variable md5 : blob -> string.


(** The steps of [run_restore] up to the manifest. *)
Lemma restore_reads_manifest cfg filepath keep es m w :
  fs_lookup filepath (w_fs w) = Some (Dir es) ->
  load_manifest filepath w = (Done m, w) ->
  run_restore md5 cfg filepath keep w
  = ((if String.eqb (Location m) "glacier" then
        storage_class <- check_storage_class (ArchivePath m) (Filename m)
                           (s3_region cfg) ;;
        if String.eqb storage_class "DEEP_ARCHIVE"
           || String.eqb storage_class "GLACIER" then
          restore_status <- check_restore_status (ArchivePath m) (Filename m)
                              (s3_region cfg) ;;
          finished <- py_in ongoing_false restore_status ;;
          (if finished then
             initiate_deep_archive_restore (ArchivePath m) (Filename m) 7
               "Bulk" (s3_region cfg)
           else ret tt) ;;
          wait_for_restore (ArchivePath m) (Filename m) (s3_region cfg) 120 ;;
          download_s3_object (ArchivePath m) (Filename m)
            (os_path_join filepath [Filename m]) (s3_region cfg)
        else if String.eqb storage_class "STANDARD_IA"
                || String.eqb storage_class "STANDARD"
                || String.eqb storage_class "GLACIER_IR" then
          download_s3_object (ArchivePath m) (Filename m)
            (os_path_join filepath [Filename m]) (s3_region cfg)
        else sys_exit 1
      else if String.eqb (Location m) "ris_archive" then sys_exit 1
      else ret tt) ;;
     @raise unit UnboundLocalError) w.
Proof.
  intros Hdir Hload. unfold load_manifest in Hload.
  apply bind_done_inv in Hload as (found & w1 & Hglob & Hload).
  apply bind_done_inv in Hload as (latest & w2 & Hmax & Hjson).
  unfold run_restore.
  rewrite (bind_done _ _ _ _ _ (isdir_of_dir _ _ _ Hdir)). cbn [negb].
  rewrite (bind_done _ _ _ _ _ Hglob), (bind_done _ _ _ _ _ Hmax),
    (bind_done _ _ _ _ _ Hjson).
  reflexivity.
Qed.

(** In the theorems that follow the directory is at a path without
    pattern characters and what bears a sidecar's name in it is a regular
    file: there the manifest the program loads is [load_manifest]'s.

    A bundle that went to the RIS archive cannot be restored by the
    program: it says so and ends with [sys.exit(1)], having asked nothing
    of the bucket. *)
Theorem restore_from_ris_exits cfg filepath keep es m w :
  fs_lookup filepath (w_fs w) = Some (Dir es) ->
  plain_path filepath = true ->
  (forall name es', Re.fnmatch sidecar_glob name = true ->
                    fs_lookup (filepath ++ [name]) (w_fs w) <> Some (Dir es')) ->
  load_manifest filepath w = (Done m, w) ->
  Location m = "ris_archive"%string ->
  run_restore md5 cfg filepath keep w = (Fail (SysExit 1), w).
Proof.
  intros Hdir _ _ Hload Hloc.
  rewrite (restore_reads_manifest cfg filepath keep es m w Hdir Hload), Hloc.
  reflexivity.
Qed.

Lemma check_storage_class_run bucket key region o sc w :
  s3_object bucket key w = Some o ->
  o_class o = Some sc ->
  check_storage_class bucket key region w
  = (Done sc, set_s3 (alter (alter pop_restore key) bucket)
                     (log_call (HeadObject bucket key) w)).
Proof.
  intros Ho Hclass. unfold check_storage_class.
  rewrite (bind_done _ _ _ _ _ (head_object_run _ _ _ _ Ho)).
  cbn [fst]. now rewrite Hclass.
Qed.

(** The bundle is not in the bucket: [check_storage_class] lets the
    [ClientError] of [head_object] through, and [run_restore] ends on it. *)
Theorem restore_missing_object_raises cfg filepath keep es m w :
  fs_lookup filepath (w_fs w) = Some (Dir es) ->
  plain_path filepath = true ->
  (forall name es', Re.fnmatch sidecar_glob name = true ->
                    fs_lookup (filepath ++ [name]) (w_fs w) <> Some (Dir es')) ->
  load_manifest filepath w = (Done m, w) ->
  Location m = "glacier"%string ->
  s3_object (ArchivePath m) (Filename m) w = None ->
  run_restore md5 cfg filepath keep w
  = (Fail (Raised (ClientError "404")),
     log_call (HeadObject (ArchivePath m) (Filename m)) w).
Proof.
  intros Hdir _ _ Hload Hloc Ho.
  rewrite (restore_reads_manifest cfg filepath keep es m w Hdir Hload), Hloc.
  cbn [String.eqb Ascii.eqb Bool.eqb].
  apply bind_fail. apply bind_fail.
  unfold check_storage_class. apply bind_fail.
  unfold head_object, bind, modify, get_world.
  rewrite s3_object_log, Ho. reflexivity.
Qed.

(** The response of [head_object] carries no [StorageClass] (S3 leaves it
    out for an object in the standard class): [KeyError]. *)
Theorem restore_without_storage_class_raises cfg filepath keep es m o w :
  fs_lookup filepath (w_fs w) = Some (Dir es) ->
  plain_path filepath = true ->
  (forall name es', Re.fnmatch sidecar_glob name = true ->
                    fs_lookup (filepath ++ [name]) (w_fs w) <> Some (Dir es')) ->
  load_manifest filepath w = (Done m, w) ->
  Location m = "glacier"%string ->
  s3_object (ArchivePath m) (Filename m) w = Some o ->
  o_class o = None ->
  exists w',
    run_restore md5 cfg filepath keep w = (Fail (Raised KeyError), w')
    /\ w_calls w' = w_calls w ++ [HeadObject (ArchivePath m) (Filename m)]
    /\ w_fs w' = w_fs w.
Proof.
  intros Hdir _ _ Hload Hloc Ho Hclass.
  rewrite (restore_reads_manifest cfg filepath keep es m w Hdir Hload), Hloc.
  cbn [String.eqb Ascii.eqb Bool.eqb].
  eexists. split.
  - apply bind_fail. apply bind_fail. unfold check_storage_class.
    rewrite (bind_done _ _ _ _ _ (head_object_run _ _ _ _ Ho)).
    cbn [fst]. rewrite Hclass. reflexivity.
  - split; reflexivity.
Qed.

(** A storage class the program does not know: [sys.exit(1)] after the
    one [head_object], nothing downloaded. *)
Theorem restore_unsupported_class_exits cfg filepath keep es m o sc w :
  fs_lookup filepath (w_fs w) = Some (Dir es) ->
  plain_path filepath = true ->
  (forall name es', Re.fnmatch sidecar_glob name = true ->
                    fs_lookup (filepath ++ [name]) (w_fs w) <> Some (Dir es')) ->
  load_manifest filepath w = (Done m, w) ->
  Location m = "glacier"%string ->
  s3_object (ArchivePath m) (Filename m) w = Some o ->
  o_class o = Some sc ->
  ~ In sc ["DEEP_ARCHIVE"; "GLACIER"; "STANDARD_IA"; "STANDARD";
           "GLACIER_IR"]%string ->
  exists w',
    run_restore md5 cfg filepath keep w = (Fail (SysExit 1), w')
    /\ w_calls w' = w_calls w ++ [HeadObject (ArchivePath m) (Filename m)]
    /\ w_fs w' = w_fs w.
Proof.
  intros Hdir _ _ Hload Hloc Ho Hclass Hsc.
  rewrite (restore_reads_manifest cfg filepath keep es m w Hdir Hload), Hloc.
  cbn [String.eqb Ascii.eqb Bool.eqb].
  assert (Hno : forall s, In s ["DEEP_ARCHIVE"; "GLACIER"; "STANDARD_IA";
                                "STANDARD"; "GLACIER_IR"]%string ->
                          String.eqb sc s = false).
  { intros s Hs. apply String.eqb_neq. intros ->. contradiction. }
  eexists. split.
  - apply bind_fail.
    rewrite (bind_done _ _ _ _ _
               (check_storage_class_run _ _ (s3_region cfg) _ _ _ Ho Hclass)).
    rewrite !Hno by (cbn; tauto). reflexivity.
  - split; reflexivity.
Qed.

(** A bundle that [head_object] reports in a class that can be read at
    once ([STANDARD_IA], [GLACIER_IR]; for [STANDARD] it reports none) is
    downloaded into the directory, under its own name, with the size and
    the content of the object -- and there [run_restore] stops, on the
    read of [tarball]. *)
Theorem restore_downloads_then_stops cfg filepath keep es m o sc w :
  fs_lookup filepath (w_fs w) = Some (Dir es) ->
  plain_path filepath = true ->
  (forall name es', Re.fnmatch sidecar_glob name = true ->
                    fs_lookup (filepath ++ [name]) (w_fs w) <> Some (Dir es')) ->
  load_manifest filepath w = (Done m, w) ->
  Location m = "glacier"%string ->
  s3_object (ArchivePath m) (Filename m) w = Some o ->
  o_class o = Some sc ->
  In sc ["STANDARD_IA"; "GLACIER_IR"]%string ->
  (forall es', fs_lookup (filepath ++ [Filename m]) (w_fs w) <> Some (Dir es')) ->
  exists w',
    run_restore md5 cfg filepath keep w
    = (Fail (Raised UnboundLocalError), w')
    /\ w_calls w'
       = w_calls w ++ [HeadObject (ArchivePath m) (Filename m);
                       DownloadFile (ArchivePath m) (Filename m)
                                    (filepath ++ [Filename m])]
    /\ fs_lookup (filepath ++ [Filename m]) (w_fs w')
       = Some (File {| f_size := o_size o; f_ctime := w_clock w;
                       f_data := o_data o |}).
Proof.
  intros Hdir _ _ Hload Hloc Ho Hclass Hsc Hnodir.
  rewrite (restore_reads_manifest cfg filepath keep es m w Hdir Hload), Hloc.
  cbn [String.eqb Ascii.eqb Bool.eqb].
  set (b := ArchivePath m) in *. set (k := Filename m) in *.
  set (w1 := set_s3 (alter (alter pop_restore k) b)
                    (log_call (HeadObject b k) w)).
  assert (Ho1 : s3_object b k w1 = Some (pop_restore o))
    by exact (s3_object_after_head _ _ _ _ _ Ho).
  pose proof (download_s3_object_writes b k filepath k (s3_region cfg)
                (pop_restore o) es w1 Ho1 Hdir Hnodir) as Hdown.
  eexists. split.
  - erewrite bind_done; [reflexivity | ].
    rewrite (bind_done _ _ _ _ _
               (check_storage_class_run _ _ (s3_region cfg) _ _ _ Ho Hclass)).
    assert (Hbranch :
      (String.eqb sc "DEEP_ARCHIVE" || String.eqb sc "GLACIER")%bool = false
      /\ (String.eqb sc "STANDARD_IA" || String.eqb sc "STANDARD"
          || String.eqb sc "GLACIER_IR")%bool = true).
    { destruct Hsc as [<- | [<- | []]]; split; reflexivity. }
    destruct Hbranch as [-> ->]. exact Hdown.
  - split.
    + cbn [w_calls set_fs set_s3 log_call w1]. now rewrite <- app_assoc.
    + cbn [w_fs set_fs log_call]. rewrite (fs_lookup_put _ _ _ _ _ Hdir).
      reflexivity.
Qed.

End RestoreEnds.

(** ** The sidecar [run_restore] reads *)





(** ** Listing a bundle *)

(** [list_tarball_files] never fails: it returns the names of all the
    members of a readable bundle, and the empty list for anything else
    (a missing path, a directory, a file that is no bundle). *)
Theorem list_tarball_files_never_fails tarball_path w :
  list_tarball_files tarball_path w
  = (Done (match fs_lookup tarball_path (w_fs w) with
           | Some (File f) =>
               match f_data f with
               | TarGz ms => map (fun member : tarinfo blob => ti_name member) ms
               | _ => []
               end
           | _ => []
           end), w).
Proof.
  unfold list_tarball_files, try_except, tarfile_open, read_file, bind,
    get_world, ret, raise.
  destruct (fs_lookup tarball_path (w_fs w)) as [[f | es] | ];
    try reflexivity.
  now destruct (f_data f).
Qed.

(** ** Archives that stop at the enumeration *)

Section ArchiveStops.

Variable md5 : blob -> string.





End ArchiveStops.

(** ** An archive that goes through *)

#[local] Instance no_new_dir_preorder : PreOrder no_new_dir.
Proof.
  split.
  - intros n p es' H. eauto.
  - intros a b c Hab Hbc p es' H.
    destruct (Hbc _ _ H) as (es1 & H1). exact (Hab _ _ H1).
Qed.

(** What is found once a name is unlinked was there before, and was of
    the same kind. *)
Lemma lookup_after_remove x q : forall p n m',
  fs_lookup p (alter_at (dir_remove x) q n) = Some m' ->
  exists m, fs_lookup p n = Some m /\ is_dir_node m = is_dir_node m'.
Proof.
  induction q as [ | z q IH]; intros p n m'; cbn [alter_at].
  - destruct n as [f | es]; cbn [dir_remove]; [eauto | ].
    destruct p as [ | y s]; cbn [fs_lookup].
    + intros [= <-]. eauto.
    + rewrite assoc_remove. destruct (String.eqb x y); [discriminate | ].
      destruct (assoc y es) as [c | ]; [ | discriminate]. eauto.
  - destruct n as [f | es]; [eauto | ].
    destruct p as [ | y s]; cbn [fs_lookup].
    + intros [= <-]. eauto.
    + rewrite assoc_alter_entry.
      destruct (String.eqb z y); [ | destruct (assoc y es); eauto; discriminate].
      destruct (assoc y es) as [c | ]; cbn [option_map]; [ | discriminate].
      apply IH.
Qed.

Lemma no_new_dir_remove x q n : no_new_dir n (alter_at (dir_remove x) q n).
Proof.
  intros p es' H. destruct (lookup_after_remove _ _ _ _ _ H) as (m & Hm & Hk).
  destruct m as [f | es]; [discriminate | eauto].
Qed.

Lemma no_new_dir_os_remove p : respects no_new_dir (os_remove p).
Proof.
  unfold os_remove. respects_tac.
  apply respects_modify; intros ?; cbn [w_fs set_fs]. apply no_new_dir_remove.
Qed.

Lemma alter_at_dir_remove_is_dir x r es :
  exists es', alter_at (dir_remove x) r (Dir es) = Dir es'.
Proof. destruct r; cbn; eauto. Qed.

Lemma os_remove_run d t f v :
  fs_lookup (d ++ [t]) (w_fs v) = Some (File f) ->
  os_remove (d ++ [t]) v = (Done tt, set_fs (alter_at (dir_remove t) d) v).
Proof.
  intros Hf. unfold os_remove, bind, get_world. rewrite Hf.
  rewrite dirname_snoc, basename_snoc. now destruct d.
Qed.

(** The loop that deletes the archived files never fails, and leaves the
    archived directory a directory. *)
Lemma delete_loop_runs d files : forall v es,
  fs_lookup d (w_fs v) = Some (Dir es) ->
  exists v' es',
    for_ files
      (fun file =>
         let fullpath := os_path_join d file in
         isfile <- os_path_isfile fullpath ;;
         if isfile then os_remove fullpath else ret tt) v
    = (Done tt, v')
    /\ fs_lookup d (w_fs v') = Some (Dir es').
Proof.
  induction files as [ | file files IH]; intros v es Hd; cbn [for_].
  - exists v, es. auto.
  - cbv zeta. unfold os_path_join.
    unfold bind at 1. unfold bind at 1, os_path_isfile at 1.
    unfold bind at 1, get_world at 1, ret at 1.
    destruct (fs_lookup (d ++ file) (w_fs v)) as [[f | es0] | ] eqn:Hf;
      try exact (IH v es Hd).
    assert (Hne : file <> []).
    { intros ->. rewrite app_nil_r in Hf. congruence. }
    destruct (@exists_last _ file Hne) as (r & x & ->).
    rewrite app_assoc in Hf |- *.
    rewrite (os_remove_run _ _ _ _ Hf).
    destruct (alter_at_dir_remove_is_dir x r es) as (es1 & Hes1).
    apply (IH _ es1). cbn [w_fs set_fs].
    rewrite alter_at_app, (fs_lookup_alter_at _ _ _ _ Hd). now rewrite Hes1.
Qed.

Lemma no_new_dir_sweep_triple t : respects no_new_dir (sweep_triple t).
Proof.
  unfold sweep_triple, remove_if_empty, os_listdir, os_rmdir. respects_tac;
    apply respects_modify; intros ?; cbn [w_fs set_fs]; apply no_new_dir_remove.
Qed.

Lemma prune_dir es : exists es', prune (Dir es) = Dir es'.
Proof. cbn [prune]. eauto. Qed.

(** The deletion of the sources and the sweep never fail on a well-formed
    tree; they leave the archived directory a directory and make no
    directory. *)
Lemma delete_sources_runs d files v es :
  wf_node (w_fs v) ->
  fs_lookup d (w_fs v) = Some (Dir es) ->
  exists v' es',
    delete_sources d files v = (Done tt, v')
    /\ fs_lookup d (w_fs v') = Some (Dir es')
    /\ no_new_dir (w_fs v) (w_fs v').
Proof.
  intros Hwf Hd. unfold delete_sources.
  destruct (delete_loop_runs d files v es Hd) as (v2 & es2 & Hloop & Hd2).
  assert (Hwf2 : wf_node (w_fs v2)).
  { refine ((_ : respects wf_kept _) _ _ _ Hloop Hwf).
    apply respects_for_; [typeclasses eauto | intros file].
    cbv zeta. apply respects_bind; [typeclasses eauto | | intros [ | ]].
    - apply respects_fs_reader; [typeclasses eauto | apply fs_reader_isfile].
    - apply wf_kept_os_remove.
    - apply respects_ret; typeclasses eauto. }
  assert (Hnd2 : no_new_dir (w_fs v) (w_fs v2)).
  { refine ((_ : respects no_new_dir _) _ _ _ Hloop).
    apply respects_for_; [typeclasses eauto | intros file].
    cbv zeta. apply respects_bind; [typeclasses eauto | | intros [ | ]].
    - apply respects_fs_reader; [typeclasses eauto | apply fs_reader_isfile].
    - apply no_new_dir_os_remove.
    - apply respects_ret; typeclasses eauto. }
  rewrite (bind_done _ _ _ _ _ Hloop).
  assert (Hwalk : os_walk_bottomup d v2
                  = (Done (walk_bottomup d (Dir es2)), v2)).
  { unfold os_walk_bottomup, bind, get_world, ret. now rewrite Hd2. }
  rewrite (bind_done _ _ _ _ _ Hwalk).
  destruct (cleanup_spec (Dir es2) d v2 (wf_lookup _ _ _ Hwf2 Hd2) Hd2)
    as (v3 & G & Hrun & Hfs3 & HG).
  destruct (prune_dir es2) as (es3 & Hes3).
  exists v3, es3. split; [exact Hrun | ]. split.
  - rewrite Hfs3, (fs_lookup_alter_at _ _ _ _ Hd2), HG. now rewrite Hes3.
  - transitivity (w_fs v2); [exact Hnd2 | ].
    refine ((_ : respects no_new_dir _) _ _ _ Hrun).
    apply respects_for_; [typeclasses eauto | intros t].
    apply no_new_dir_sweep_triple.
Qed.

(** The transfer to a bucket that is there goes through, whether or not it
    uploads, and the local bundle is unlinked. *)
Lemma transfer_step_glacier_runs cfg archivepath d t f objs v :
  mode cfg = "glacier"%string ->
  w_s3 v !! archivepath = Some objs ->
  fs_lookup (d ++ [t]) (w_fs v) = Some (File f) ->
  exists v1,
    transfer_step cfg archivepath (d ++ [t]) v = (Done tt, v1)
    /\ w_fs v1 = alter_at (dir_remove t) d (w_fs v).
Proof.
  intros Hmode Hb Hf. unfold transfer_step. rewrite Hmode.
  cbn [String.eqb Ascii.eqb Bool.eqb].
  assert (Hs3 : exists r v0,
            transfer_to_s3 archivepath (s3_region cfg) (d ++ [t]) false
                           (storage_class cfg) v = (Done r, v0)
            /\ w_fs v0 = w_fs v).
  { destruct (objs !! os_path_basename (d ++ [t])) as [o | ] eqn:Ho.
    - eexists _, _. split.
      + apply transfer_to_s3_skips with (o := o).
        unfold s3_object. now rewrite Hb.
      + reflexivity.
    - destruct (transfer_to_s3_uploads archivepath (s3_region cfg) (d ++ [t])
                  false (storage_class cfg) objs f v Hb (or_introl Ho) Hf)
        as (v0 & Hrun & _ & _ & Hfs & _).
      eauto. }
  destruct Hs3 as (r & v0 & Hrun & Hfs0).
  exists (set_fs (alter_at (dir_remove t) d) v0). split.
  - unfold try_except. rewrite (bind_done _ _ _ _ _ Hrun).
    rewrite <- Hfs0 in Hf. now rewrite (os_remove_run _ _ _ _ Hf).
  - cbn [w_fs set_fs]. now rewrite Hfs0.
Qed.

Section ArchiveSucceeds.

Variable md5 : blob -> string.

(** An archive to the bucket goes through.  The tree is well formed, the
    directory is at a path without pattern characters and holds no sidecar
    (or [force] is set and [overwrite] is not), its enumeration returns,
    is not empty and is within the ceiling, no directory bears the name of
    the bundle or of the sidecar to come, the storage class is one of the
    five the command line takes, and the bucket is there: then
    [run_archive] returns a manifest of the enumerated files. *)
Theorem archive_succeeds cfg filepath archivepath force overwrite keep
    w es df objs :
  wf_node (w_fs w) ->
  fs_lookup filepath (w_fs w) = Some (Dir es) ->
  (force = true /\ overwrite = false)
  \/ (forall name, In name (map fst es) ->
                   Re.fnmatch sidecar_glob name = false) ->
  get_files md5 filepath w = (Done df, w) ->
  df <> [] ->
  size_sum df <= 2000000000000 ->
  (forall es', fs_lookup (filepath ++ [tarball_name (drawn_id w)]) (w_fs w)
               <> Some (Dir es')) ->
  (forall es', fs_lookup (filepath ++ [sidecar_name (drawn_id w)]) (w_fs w)
               <> Some (Dir es')) ->
  mode cfg = "glacier"%string ->
  In (storage_class cfg) storage_classes ->
  plain_path filepath = true ->
  w_s3 w !! archivepath = Some objs ->
  exists m w',
    run_archive md5 cfg filepath archivepath false force overwrite keep w
    = (Done m, w')
    /\ Files m = map df_file df.
Proof.
  intros Hwf Hdir Hguard Hdf Hne Hsize Hnot Hnos Hmode _ _ Hb.
  destruct (rows_have_contents md5 _ _ _ Hdf) as (contents & Hcontents).
  rewrite (archive_reaches_check md5 cfg filepath archivepath force overwrite
             keep w es df contents Hdir Hguard Hdf Hne Hsize Hcontents Hnot).
  set (m := manifest_of md5 cfg filepath archivepath df contents w).
  set (B := bundled filepath df contents w).
  set (t := tarball_name (drawn_id w)) in *.
  set (s := sidecar_name (drawn_id w)) in *.
  exists m.
  (* the world where the bundle is written *)
  assert (HwfB : wf_node (w_fs B)).
  { unfold B, bundled. cbn [w_fs set_fs set_rng]. now apply wf_kept_put. }
  assert (HtB : fs_lookup (filepath ++ [t]) (w_fs B)
                = Some (File (tar_file (zip_with tar_member (map df_file df)
                                                 contents) (w_clock w)))).
  { unfold B, bundled. cbn [w_fs set_fs set_rng].
    exact (fs_lookup_put _ _ _ _ _ Hdir). }
  assert (HdB : exists esB, fs_lookup filepath (w_fs B) = Some (Dir esB)).
  { unfold B, bundled. cbn [w_fs set_fs set_rng].
    rewrite (fs_lookup_alter_at _ _ _ _ Hdir). unfold dir_put.
    destruct (assoc _ es); eauto. }
  destruct HdB as (esB & HdB).
  assert (HsB : fs_lookup (filepath ++ [s]) (w_fs B)
                = fs_lookup (filepath ++ [s]) (w_fs w)).
  { unfold B, bundled. cbn [w_fs set_fs set_rng].
    apply (fs_lookup_alter_other t _ filepath s []);
      [apply only_entry_put | apply sidecar_is_not_tarball]. }
  (* the transfer *)
  destruct (transfer_step_glacier_runs cfg archivepath filepath t _ objs B
              Hmode Hb HtB) as (v1 & Htransfer & Hfs1).
  assert (Hwf1 : wf_node (w_fs v1)).
  { rewrite Hfs1. now apply wf_kept_remove. }
  assert (Hd1 : exists es1, fs_lookup filepath (w_fs v1) = Some (Dir es1)).
  { rewrite Hfs1, (fs_lookup_alter_at _ _ _ _ HdB). cbn [dir_remove]. eauto. }
  destruct Hd1 as (es1 & Hd1).
  assert (Hs1 : forall es', fs_lookup (filepath ++ [s]) (w_fs v1)
                            <> Some (Dir es')).
  { intros es'. rewrite Hfs1.
    rewrite (fs_lookup_alter_other t _ filepath s []);
      [ | apply only_entry_remove | apply sidecar_is_not_tarball].
    rewrite HsB. apply Hnos. }
  (* the deletion, and the sidecar *)
  assert (Hclean : exists v2 es2,
            (if negb keep
             then delete_sources filepath (map df_file df) else ret tt) v1
            = (Done tt, v2)
            /\ fs_lookup filepath (w_fs v2) = Some (Dir es2)
            /\ forall es', fs_lookup (filepath ++ [s]) (w_fs v2)
                           <> Some (Dir es')).
  { destruct keep; cbn [negb].
    - exists v1, es1. auto.
    - destruct (delete_sources_runs filepath (map df_file df) v1 es1 Hwf1 Hd1)
        as (v2 & es2 & Hrun & Hd2 & Hnd).
      exists v2, es2. split; [exact Hrun | ]. split; [exact Hd2 | ].
      intros es' E. destruct (Hnd _ _ E) as (es0 & E0). exact (Hs1 _ E0). }
  destruct Hclean as (v2 & es2 & Hclean & Hd2 & Hs2).
  eexists. split; [ | reflexivity].
  unfold after_check. rewrite Hmode. cbn [String.eqb Ascii.eqb Bool.eqb].
  unfold os_path_join. fold t s.
  rewrite (bind_done _ _ _ _ _ Htransfer), (bind_done _ _ _ _ _ Hclean).
  rewrite (bind_done _ _ _ _ _ (write_file_run filepath s _ _ es2 v2 Hd2 Hs2)).
  reflexivity.
Qed.

End ArchiveSucceeds.

(** ** An archive of a bundle that is already made *)




Section ArchiveOfBundle.

Variable md5 : blob -> string.


(** In tarball mode the manifest is read off the bundle: the id is the
    second dot-separated field of its name, the directory is the one that
    holds it, the files are its regular-file members with their sizes and
    fingerprints, and nothing is enumerated. *)
Theorem archive_tarball_manifest cfg filepath archivepath force overwrite keep
    w m w' :
  run_archive md5 cfg filepath archivepath true force overwrite keep w
  = (Done m, w') ->
  exists f ms,
    fs_lookup filepath (w_fs w) = Some (File f)
    /\ f_data f = TarGz ms
    /\ nth_error (split_dot (os_path_basename filepath)) 1 = Some (Id m)
    /\ Filename m = os_path_basename filepath
    /\ LocalPath m = os_path_dirname filepath
    /\ Files m = map (fun member : tarinfo blob => ti_name member)
                     (List.filter (fun member : tarinfo blob => ti_isfile member) ms)
    /\ Sizes m = map (fun member : tarinfo blob => ti_size member)
                     (List.filter (fun member : tarinfo blob => ti_isfile member) ms)
    /\ MD5Sums m = map (fun member : tarinfo blob => md5 (ti_data member))
                       (List.filter (fun member : tarinfo blob => ti_isfile member) ms)
    /\ TarballMD5sum m = md5 (f_data f).
Proof.
  intros H. unfold run_archive in H.
  apply bind_done_inv in H as (ts & w0 & Hts & H).
  injection Hts as <- <-.
  apply bind_done_inv in H as (found & w1 & Hglob & H).
  destruct (glob_glob_total filepath sidecar_glob w) as (l & Hl).
  rewrite Hl in Hglob. injection Hglob as <- <-.
  apply bind_done_inv in H as (tb & w2 & Htb & H).
  assert (Htb' : tb = inl true /\ w2 = w).
  { destruct l as [ | p ps]; [now injection Htb as <- <- | ].
    destruct force, overwrite; cbn [negb andb] in Htb; try discriminate.
    now injection Htb as <- <-. }
  destruct Htb' as [-> ->]. clear Htb. cbn [truthy] in H.
  apply bind_done_inv in H as ([[[unique_id tarball] root] fileDf] & w3 & Hprep & H).
  apply bind_done_inv in Hprep as (uid & w4 & Hid & Hprep).
  unfold py_index in Hid. unfold os_path_abspath in *.
  destruct (nth_error (split_dot (os_path_basename filepath)) 1)
    as [id | ] eqn:Hnth; [ | discriminate].
  injection Hid as <- <-.
  apply bind_done_inv in Hprep as (df & w5 & Hdf & Hprep).
  injection Hprep as <- <- <- <- <-.
  unfold get_tarball_md5sums, tarfile_open in Hdf.
  apply bind_done_inv in Hdf as (ms & v1 & Hopen & Hdf).
  apply bind_done_inv in Hopen as (f & v2 & Hread & Hopen).
  unfold read_file, bind, get_world in Hread.
  destruct (fs_lookup filepath (w_fs w)) as [[f0 | ] | ] eqn:Hf;
    try discriminate.
  injection Hread as <- <-.
  destruct (f_data f0) as [ | | ms0] eqn:Hdata; try discriminate.
  injection Hopen as <- <-. injection Hdf as <- <-.
  apply bind_done_inv in H as (tarball_md5sum & w7 & Hsum & H).
  unfold calculate_file_md5sum in Hsum.
  rewrite (bind_done _ _ _ _ _ (read_file_run _ _ _ Hf)) in Hsum.
  destruct (f_size f0 =? 0); [discriminate | ]. injection Hsum as <- <-.
  apply bind_done_inv in H as (intact & w8 & Hintact & H).
  assert (Hm : exists m0, m = m0 /\ m0 =
    {| Id := id; Timestamp := w_clock w; Location := mode cfg;
       Filename := os_path_basename filepath;
       LocalPath := os_path_dirname filepath;
       ArchivePath := archivepath;
       Files := map df_file (map (fun member : tarinfo blob =>
                  {| df_file := ti_name member; df_size := ti_size member;
                     df_md5sum := calculate_obj_md5sum md5 (ti_data member) |})
                  (List.filter (fun member : tarinfo blob => ti_isfile member) ms0));
       Sizes := map df_size (map (fun member : tarinfo blob =>
                  {| df_file := ti_name member; df_size := ti_size member;
                     df_md5sum := calculate_obj_md5sum md5 (ti_data member) |})
                  (List.filter (fun member : tarinfo blob => ti_isfile member) ms0));
       MD5Sums := map df_md5sum (map (fun member : tarinfo blob =>
                  {| df_file := ti_name member; df_size := ti_size member;
                     df_md5sum := calculate_obj_md5sum md5 (ti_data member) |})
                  (List.filter (fun member : tarinfo blob => ti_isfile member) ms0));
       TarballMD5sum := md5 (f_data f0);
       Username := username cfg |}).
  { destruct intact; cbn [negb] in H.
    2:{ apply bind_done_inv in H as (u & w9 & _ & H). discriminate. }
    destruct (String.eqb (mode cfg) "dry-run").
    - injection H as <- _. eauto.
    - apply bind_done_inv in H as (u1 & w9 & _ & H).
      apply bind_done_inv in H as (u2 & w10 & _ & H).
      apply bind_done_inv in H as (u3 & w11 & _ & H).
      injection H as <- _. eauto. }
  destruct Hm as (m0 & -> & ->). cbn [Id Filename LocalPath Files Sizes MD5Sums TarballMD5sum].
  exists f0, ms0. rewrite !map_map. cbn [df_file df_size df_md5sum].
  unfold calculate_obj_md5sum. rewrite Hdata. repeat split; auto.
Qed.

End ArchiveOfBundle.

(** ** A transfer to the RIS archive that fails *)




Section ArchiveToRis.

Variable md5 : blob -> string.


End ArchiveToRis.

(** ** The size shown to the user *)

(** Each quotient by a constant becomes a variable tied to its dividend
    by a linear equation, for [lra]. *)
Ltac div_vars :=
  repeat match goal with
         | |- context [(?a / ?c)%Q] =>
             let ic := eval vm_compute in (Qinv c) in
             let y := fresh "y" in
             let E := fresh "E" in
             assert (E : (a / c == a * ic)%Q)
               by (unfold Qdiv; reflexivity || field);
             set (y := (a / c)%Q) in *; clearbody y
         | H : context [(?a / ?c)%Q] |- _ =>
             let ic := eval vm_compute in (Qinv c) in
             let y := fresh "y" in
             let E := fresh "E" in
             assert (E : (a / c == a * ic)%Q)
               by (unfold Qdiv; reflexivity || field);
             set (y := (a / c)%Q) in *; clearbody y
         end.

(** Below 1024^5 bytes the loop stops at the unit that brings the figure
    under 1024: for a size from 1024^k on and under 1024^(k+1), the figure
    is the size over 1024^k and the unit is the k-th of B, KB, MB, GB,
    TB. *)
Lemma readable_loop_normalises size (k : nat) :
  (k < 5)%nat ->
  (k = 0%nat \/ 1024 ^ Z.of_nat k <= size) ->
  size < 1024 ^ (Z.of_nat k + 1) ->
  snd (readable_loop byte_units (inject_Z size) "") = nth k byte_units ""%string
  /\ (fst (readable_loop byte_units (inject_Z size) "")
      == inject_Z size / inject_Z (1024 ^ Z.of_nat k))%Q.
Proof.
  intros Hk Hlow Hhigh. unfold byte_units.
  assert (Hlow' : k = 0%nat \/ (inject_Z (1024 ^ Z.of_nat k) <= inject_Z size)%Q).
  { destruct Hlow as [-> | H]; [now left | right].
    now rewrite <- Zle_Qle. }
  rewrite Zlt_Qlt in Hhigh.
  clear Hlow.
  destruct k as [ | [ | [ | [ | [ | k]]]]]; try lia; clear Hk;
    repeat match goal with
           | H : context [inject_Z (1024 ^ ?e)] |- _ =>
               let c := eval vm_compute in (inject_Z (1024 ^ e)) in
               change (inject_Z (1024 ^ e)) with c in H
           | |- context [inject_Z (1024 ^ ?e)] =>
               let c := eval vm_compute in (inject_Z (1024 ^ e)) in
               change (inject_Z (1024 ^ e)) with c
           end;
    (destruct Hlow' as [? | Hlow']; [try discriminate | ]);
    cbn [readable_loop nth];
    repeat match goal with
           | |- context [Qlt_le_dec ?x ?y] =>
               destruct (Qlt_le_dec x y); cbn [fst snd]
           end;
    first [ split; [reflexivity | div_vars; lra] | exfalso; div_vars; lra ].
Qed.

(** From 1024^5 bytes on the loop runs out of units: the figure is the
    size over 1024^5, and the unit left with it is TB. *)
Lemma readable_loop_past_terabytes size :
  1024 ^ 5 <= size ->
  size < 2 ^ 53 ->
  snd (readable_loop byte_units (inject_Z size) "") = "TB"%string
  /\ (fst (readable_loop byte_units (inject_Z size) "")
      == inject_Z size / inject_Z (1024 ^ 5))%Q.
Proof.
  intros Hlow _. rewrite Zle_Qle in Hlow. unfold byte_units.
  repeat match goal with
         | H : context [inject_Z (1024 ^ ?e)] |- _ =>
             let c := eval vm_compute in (inject_Z (1024 ^ e)) in
             change (inject_Z (1024 ^ e)) with c in H
         | |- context [inject_Z (1024 ^ ?e)] =>
             let c := eval vm_compute in (inject_Z (1024 ^ e)) in
             change (inject_Z (1024 ^ e)) with c
         end.
  cbn [readable_loop].
  repeat match goal with
         | |- context [Qlt_le_dec ?x ?y] =>
             destruct (Qlt_le_dec x y); cbn [fst snd]
         end;
    first [ split; [reflexivity | div_vars; lra] | exfalso; div_vars; lra ].
Qed.

(** The two decimals of a number below 100. *)
Lemma two_digits_spec k :
  0 <= k < 100 ->
  two_digits k
  = String (ascii_of_N (48 + Z.to_N (k / 10)))
      (String (ascii_of_N (48 + Z.to_N (k mod 10))) "").
Proof.
  intros Hk.
  assert (H : exists n, (n < 100)%nat /\ k = Z.of_nat n)
    by (exists (Z.to_nat k); lia).
  destruct H as (n & Hn & ->). clear Hk.
  do 100 (destruct n as [ | n]; [vm_compute; reflexivity | ]).
  lia.
Qed.

(** [format_2f] prints the nearest hundredth, the even one on a tie. *)
Lemma format_2f_nearest (x : Q) :
  0 <= Qnum x ->
  exists h : Z,
    2 * Z.abs (h * Zpos (Qden x) - 100 * Qnum x) <= Zpos (Qden x)
    /\ (2 * Z.abs (h * Zpos (Qden x) - 100 * Qnum x) = Zpos (Qden x) ->
        Z.even h = true)
    /\ format_2f x
       = NilZero.string_of_int (Z.to_int (h / 100)) +:+ "."
         +:+ String (ascii_of_N (48 + Z.to_N (h mod 100 / 10)))
               (String (ascii_of_N (48 + Z.to_N (h mod 10))) "").
Proof.
  intros Hx. unfold format_2f.
  set (d := Zpos (Qden x)). assert (Hd : 0 < d) by (unfold d; lia).
  rewrite (Z.abs_eq (Qnum x)) by exact Hx.
  set (n := Qnum x * 100).
  pose proof (Z.div_mod n d ltac:(lia)) as Hdm.
  pose proof (Z.mod_pos_bound n d Hd) as Hr.
  set (fl := n / d) in *. set (r := n mod d) in *.
  set (h := if 2 * r <? d then fl
            else if d <? 2 * r then fl + 1
            else if Z.even fl then fl else fl + 1).
  assert (Hfl : 0 <= fl) by (unfold fl; apply Z.div_pos; unfold n; lia).
  assert (Hh : 0 <= h
               /\ 2 * Z.abs (h * d - 100 * Qnum x) <= d
               /\ (2 * Z.abs (h * d - 100 * Qnum x) = d -> Z.even h = true)).
  { unfold h.
    destruct (Z.ltb_spec (2 * r) d) as [H1 | H1].
    - split; [lia | ]. split; [unfold n in *; lia | unfold n in *; lia].
    - destruct (Z.ltb_spec d (2 * r)) as [H2 | H2].
      + split; [lia | ]. split; [unfold n in *; lia | unfold n in *; lia].
      + destruct (Z.even fl) eqn:He.
        * split; [lia | ]. split; [unfold n in *; lia | intros _; exact He].
        * split; [lia | ]. split; [unfold n in *; lia | ].
          intros _. rewrite Z.even_add, He. reflexivity. }
  destruct Hh as (Hh0 & Hnear & Htie).
  exists h. split; [exact Hnear | ]. split; [exact Htie | ].
  destruct (Z.ltb_spec (Qnum x) 0) as [Hneg | _]; [lia | ].
  rewrite two_digits_spec by (apply Z.mod_pos_bound; lia).
  rewrite (Z.mod_mod_divide h 100 10) by (exists 10; reflexivity).
  reflexivity.
Qed.

(** A figure that equals [size / D] is printed as the hundredth nearest to
    it. *)
Lemma format_2f_of_quotient (x : Q) (size D : Z) :
  0 <= size -> 0 < D ->
  (x == inject_Z size / inject_Z D)%Q ->
  exists h : Z,
    2 * Z.abs (h * D - 100 * size) <= D
    /\ (2 * Z.abs (h * D - 100 * size) = D -> Z.even h = true)
    /\ format_2f x
       = NilZero.string_of_int (Z.to_int (h / 100)) +:+ "."
         +:+ String (ascii_of_N (48 + Z.to_N (h mod 100 / 10)))
               (String (ascii_of_N (48 + Z.to_N (h mod 10))) "").
Proof.
  intros Hsize HD Hx.
  assert (Hcross : Qnum x * D = size * Zpos (Qden x)).
  { assert (E : (x * inject_Z D == inject_Z size)%Q).
    { rewrite Hx. field. intros HD0.
      unfold Qeq, inject_Z in HD0. cbn [Qnum Qden] in HD0. lia. }
    unfold Qeq, Qmult, inject_Z in E. cbn [Qnum Qden] in E.
    rewrite Z.mul_1_r in E. rewrite E. rewrite Pos.mul_1_r. reflexivity. }
  set (d := Zpos (Qden x)) in *. assert (Hd : 0 < d) by (unfold d; lia).
  assert (Hnum : 0 <= Qnum x) by nia.
  destruct (format_2f_nearest x Hnum) as (h & Hnear & Htie & Hfmt).
  fold d in Hnear, Htie.
  assert (Hscale : Z.abs (h * d - 100 * Qnum x) * D
                   = Z.abs (h * D - 100 * size) * d).
  { rewrite <- (Z.abs_eq D) at 1 by lia. rewrite <- (Z.abs_eq d) at 2 by lia.
    rewrite <- !Z.abs_mul. f_equal. nia. }
  exists h. split; [nia | ]. split; [ | exact Hfmt].
  intros H. apply Htie. nia.
Qed.

(** Below 1024^5 bytes [readable_bytes] shows the size in the unit that
    brings the figure under 1024, to the nearest hundredth: for a size
    from 1024^k on and under 1024^(k+1), the text is the decimal numeral of
    [h / 100], a point, the two digits of [h mod 100], a space and the
    k-th of B, KB, MB, GB, TB, where [h] is the whole number nearest to
    100 * size / 1024^k (the even one of the two when the size falls
    half-way). *)
Theorem readable_bytes_normalises size (k : nat) :
  0 <= size ->
  (k < 5)%nat ->
  (k = 0%nat \/ 1024 ^ Z.of_nat k <= size) ->
  size < 1024 ^ (Z.of_nat k + 1) ->
  exists h : Z,
    2 * Z.abs (h * 1024 ^ Z.of_nat k - 100 * size) <= 1024 ^ Z.of_nat k
    /\ (2 * Z.abs (h * 1024 ^ Z.of_nat k - 100 * size) = 1024 ^ Z.of_nat k ->
        Z.even h = true)
    /\ readable_bytes size
       = (NilZero.string_of_int (Z.to_int (h / 100)) +:+ "."
          +:+ String (ascii_of_N (48 + Z.to_N (h mod 100 / 10)))
                (String (ascii_of_N (48 + Z.to_N (h mod 10))) ""))
         +:+ " " +:+ nth k byte_units ""%string.
Proof.
  intros Hsize Hk Hlow Hhigh.
  destruct (readable_loop_normalises size k Hk Hlow Hhigh) as [Hunit Hfig].
  unfold readable_bytes.
  destruct (readable_loop byte_units (inject_Z size) "") as [x u].
  cbn [fst snd] in Hunit, Hfig. subst u.
  destruct (format_2f_of_quotient x size (1024 ^ Z.of_nat k) Hsize
              ltac:(apply Z.pow_pos_nonneg; lia) Hfig)
    as (h & Hnear & Htie & Hfmt).
  exists h. split; [exact Hnear | ]. split; [exact Htie | ].
  now rewrite Hfmt.
Qed.

(** From 1024^5 bytes on the loop runs out of units: [readable_bytes]
    shows the size over 1024^5, to the nearest hundredth as above, and the
    unit with it is still TB -- 1024^5 bytes are shown as [1.00 TB].
    (Up to 2^53 the size is a float without rounding.) *)
Theorem readable_bytes_past_terabytes size :
  1024 ^ 5 <= size ->
  size < 2 ^ 53 ->
  exists h : Z,
    2 * Z.abs (h * 1024 ^ 5 - 100 * size) <= 1024 ^ 5
    /\ (2 * Z.abs (h * 1024 ^ 5 - 100 * size) = 1024 ^ 5 -> Z.even h = true)
    /\ readable_bytes size
       = (NilZero.string_of_int (Z.to_int (h / 100)) +:+ "."
          +:+ String (ascii_of_N (48 + Z.to_N (h mod 100 / 10)))
                (String (ascii_of_N (48 + Z.to_N (h mod 10))) ""))
         +:+ " TB".
Proof.
  intros Hlow Hhigh.
  destruct (readable_loop_past_terabytes size Hlow Hhigh) as [Hunit Hfig].
  unfold readable_bytes.
  destruct (readable_loop byte_units (inject_Z size) "") as [x u].
  cbn [fst snd] in Hunit, Hfig. subst u.
  destruct (format_2f_of_quotient x size (1024 ^ 5) ltac:(lia) ltac:(lia) Hfig)
    as (h & Hnear & Htie & Hfmt).
  exists h. split; [exact Hnear | ]. split; [exact Htie | ].
  now rewrite Hfmt.
Qed.

(** ** The settings of the [archive] sub-command *)

(** The bucket of the configuration file is passed over: when [-b] is not
    given, the namespace holds the built-in bucket name, the test on it
    succeeds, and an archive to the bucket goes to [dhs-lab-archive-1]
    whatever the file says. *)
Theorem bucket_of_config_file_is_ignored cli installed logged_in config w :
  cli_bucket cli = None ->
  cli_dry_run cli = false ->
  cli_glacier cli = true ->
  given (cli_storage_class cli) = false ->
  exists config',
    archive_settings (parse_archive_args cli) installed logged_in config w
    = (Done (config', "dhs-lab-archive-1"%string), w)
    /\ config' !! "s3_bucket"%string = Some "dhs-lab-archive-1"%string
    /\ config' !! "mode"%string = Some "glacier"%string.
Proof.
  intros Hb Hdry Hg Hsc. unfold archive_settings.
  cbn [args_bucket args_dry_run args_glacier args_storage_class
       args_archive_path args_endpoint args_region args_database_file
       parse_archive_args].
  rewrite Hb, Hdry, Hg, Hsc.
  change (default (default "" (default_config !! "s3_bucket"%string)) None)
    with "dhs-lab-archive-1"%string.
  change (nonempty "dhs-lab-archive-1") with true. cbv iota.
  unfold bind at 1, ret at 1. unfold config_get.
  repeat match goal with
         | |- context [nonempty ?x] => destruct (nonempty x)
         | |- context [given ?x] => destruct (given x)
         end;
    repeat first [ rewrite lookup_insert_eq
                 | rewrite lookup_insert_ne by discriminate ];
    unfold bind, ret; (eexists; split; [reflexivity | ]);
    (split;
     [ rewrite ?(lookup_insert_ne _ "mode"%string) by discriminate;
       repeat first [ apply lookup_insert_eq
                    | rewrite lookup_insert_ne by discriminate ]
     | apply lookup_insert_eq ]).
Qed.

(** A dry run is a dry run whatever else is asked: with [--dry-run] the
    mode is [dry-run] and the archive path a placeholder, [-G] or [-R]
    notwithstanding, and Globus is not looked for. *)
Theorem dry_run_flag_wins args installed logged_in config w :
  args_dry_run args = true ->
  given (args_storage_class args) = false
  \/ (exists sc, args_storage_class args = Some sc /\ sc <> ""%string
                 /\ In sc storage_classes) ->
  exists config',
    archive_settings args installed logged_in config w
    = (Done (config', "(dry run)"%string), w)
    /\ config' !! "mode"%string = Some "dry-run"%string.
Proof.
  intros Hdry Hsc. unfold archive_settings. rewrite Hdry.
  destruct Hsc as [Hsc | (sc & Hsc & Hne & Hin)].
  - rewrite Hsc. unfold bind, ret. eexists. split; [reflexivity | ].
    apply lookup_insert_eq.
  - rewrite Hsc. cbn [given default].
    assert (Hn : nonempty sc = true).
    { unfold nonempty. now destruct (String.eqb_spec sc ""). }
    rewrite Hn. rewrite bool_decide_eq_true_2.
    2:{ apply list_elem_of_In. exact Hin. }
    unfold bind, ret. eexists. split; [reflexivity | ].
    apply lookup_insert_eq.
Qed.

(** A storage class that is not one of the five is refused before any
    archive is begun. *)
Theorem unknown_storage_class_exits args installed logged_in config sc w :
  args_storage_class args = Some sc ->
  sc <> ""%string ->
  ~ In sc storage_classes ->
  archive_settings args installed logged_in config w = (Fail (SysExit 1), w).
Proof.
  intros Hsc Hne Hin. unfold archive_settings. rewrite Hsc.
  cbn [given default].
  assert (Hn : nonempty sc = true).
  { unfold nonempty. now destruct (String.eqb_spec sc ""). }
  rewrite Hn. rewrite bool_decide_eq_false_2.
  2:{ intros H. apply Hin. now apply list_elem_of_In. }
  reflexivity.
Qed.

(** * The claims on the sample worlds *)

Lemma sample_world_wf entries s3 :
  wf_node (Dir entries) -> wf_node (w_fs (sample_world entries s3)).
Proof.
  intros H. cbn [w_fs sample_world]. apply wf_node_dir. split.
  - constructor; [intros [] | constructor].
  - constructor; [exact H | constructor].
Qed.

Lemma entries_plain_wf : wf_node (Dir entries_plain).
Proof. cbn. repeat split; repeat constructor; cbn; intuition congruence. Qed.

(** C3 (what the code does).  [get_files] on a directory that holds an
    earlier sidecar and bundle, a dotted file and ordinary files: the
    artifacts are passed over, the dotted file [.notes] is listed like any
    other. *)
Theorem get_files_lists_dotted_names (md5 : blob -> string) :
  get_files md5 ["data"%string] (sample_world entries_archived empty_bucket)
  = (Done [ {| df_file := [".notes"%string]; df_size := 1;
               df_md5sum := md5 (Raw (list_byte_of_string "n")) |};
            {| df_file := ["new.txt"%string]; df_size := 3;
               df_md5sum := md5 (Raw (list_byte_of_string "new")) |} ],
     sample_world entries_archived empty_bucket).
Proof. vm_compute. reflexivity. Qed.

(** C1 (what the code does).  [/data] holds [a.txt] and [sub/b.txt] and no
    dotted name.  Archiving it to the bucket succeeds and deletes both
    files; the restore that follows fetches the bundle and then stops on
    [UnboundLocalError], having extracted nothing: [a.txt] and [sub/b.txt]
    are not back. *)
Theorem round_trip_does_not_restore :
  exists m w1 w2,
    run_archive sample_md5 sample_config ["data"%string] "bucket"
                false false false false
                (sample_world entries_plain empty_bucket)
    = (Done m, w1)
    /\ Files m = [["a.txt"%string]; ["sub"%string; "b.txt"%string]]
    /\ run_restore sample_md5 sample_config ["data"%string] false w1
       = (Fail (Raised UnboundLocalError), w2)
    /\ w_calls w2
       = w_calls w1
         ++ [HeadObject "bucket" (Filename m);
             DownloadFile "bucket" (Filename m) ["data"%string; Filename m]]
    /\ is_file ["data"%string; "a.txt"%string] (w_fs w2) = false
    /\ is_file ["data"%string; "sub"%string; "b.txt"%string] (w_fs w2) = false.
Proof.
  eexists _, _, _. split; [vm_compute; reflexivity | ].
  split; [reflexivity | ].
  split; [vm_compute; reflexivity | ].
  repeat split; vm_compute; reflexivity.
Qed.


(** C10 (what the code does).  [/data/.cache] holds one file, which the
    archive lists (the enumeration takes dotted entries in) and deletes;
    the sweep passes over the directories of a dotted name, so the
    directory is emptied and is still there. *)
Lemma emptied_dotted_directory_stays :
  exists m w',
    run_archive sample_md5 sample_config ["data"%string] "bucket"
                false false false false
                (sample_world entries_dotted empty_bucket)
    = (Done m, w')
    /\ In [".cache"%string; "x"%string] (Files m)
    /\ fs_lookup ["data"%string; ".cache"%string]
                 (w_fs (sample_world entries_dotted empty_bucket))
       = Some (Dir [("x"%string, File (text_file "xx"))])
    /\ is_file ["data"%string; ".cache"%string; "x"%string] (w_fs w') = false
    /\ fs_lookup ["data"%string; ".cache"%string] (w_fs w') = Some (Dir []).
Proof.
  eexists _, _. split; [vm_compute; reflexivity | ].
  split; [cbn; tauto | ].
  repeat split; vm_compute; reflexivity.
Qed.

(** ** The general theorems at a sample input *)

(** Nothing in the sample directories that hold a sidecar is a
    directory. *)
Lemma entries_archived_hold_files s3 name es' :
  fs_lookup (["data"%string] ++ [name])
            (w_fs (sample_world entries_archived s3)) <> Some (Dir es').
Proof.
  intros H.
  change (fs_lookup [name] (Dir entries_archived) = Some (Dir es')) in H.
  cbn in H.
  repeat (destruct (String.eqb name _); [discriminate | ]). discriminate.
Qed.

Lemma entries_archived_ris_hold_files s3 name es' :
  fs_lookup (["data"%string] ++ [name])
            (w_fs (sample_world entries_archived_ris s3)) <> Some (Dir es').
Proof.
  intros H.
  change (fs_lookup [name] (Dir entries_archived_ris) = Some (Dir es')) in H.
  cbn in H.
  repeat (destruct (String.eqb name _); [discriminate | ]). discriminate.
Qed.

Lemma duplicate_archive_refused_witness :
  fs_lookup ["data"%string] (w_fs (sample_world entries_archived empty_bucket))
  = Some (Dir entries_archived)
  /\ In (sidecar_name "abc") (map fst entries_archived)
  /\ run_archive sample_md5 sample_config ["data"%string] "bucket"
                 false false false false
                 (sample_world entries_archived empty_bucket)
     = (Fail (SysExit 1), sample_world entries_archived empty_bucket).
Proof.
  split; [reflexivity | ]. split; [left; reflexivity | ].
  apply (duplicate_archive_refused sample_md5 sample_config ["data"%string]
           "bucket" false false _ entries_archived "abc").
  - reflexivity.
  - reflexivity.
  - left. reflexivity.
Defined.

Lemma overwrite_raises_type_error_witness :
  fs_lookup ["data"%string] (w_fs (sample_world entries_archived empty_bucket))
  = Some (Dir entries_archived)
  /\ In (sidecar_name "abc") (map fst entries_archived)
  /\ run_archive sample_md5 sample_config ["data"%string] "bucket"
                 false false true false
                 (sample_world entries_archived empty_bucket)
     = (Fail (Raised TypeError), sample_world entries_archived empty_bucket).
Proof.
  split; [reflexivity | ]. split; [left; reflexivity | ].
  apply (overwrite_raises_type_error sample_md5 sample_config ["data"%string]
           "bucket" false false false _ entries_archived "abc").
  - reflexivity.
  - left. reflexivity.
Defined.

Lemma get_files_single_file_raises_witness :
  fs_lookup ["data"%string; "a.txt"%string]
            (w_fs (sample_world entries_plain empty_bucket))
  = Some (File (text_file "alpha"))
  /\ get_files sample_md5 ["data"%string; "a.txt"%string]
               (sample_world entries_plain empty_bucket)
     = (Fail (Raised ValueError), sample_world entries_plain empty_bucket).
Proof.
  split; [reflexivity | ].
  apply (get_files_single_file_raises sample_md5 _ (text_file "alpha")).
  reflexivity.
Defined.

Lemma oversize_archive_writes_nothing_witness :
  exists df,
    fst (get_files sample_md5 ["data"%string]
                   (sample_world entries_huge empty_bucket)) = Done df
    /\ size_sum df > 2000000000000
    /\ exists e w',
         run_archive sample_md5 sample_config ["data"%string] "bucket"
                     false false false false
                     (sample_world entries_huge empty_bucket)
         = (Fail e, w')
         /\ w_fs w' = w_fs (sample_world entries_huge empty_bucket)
         /\ w_s3 w' = w_s3 (sample_world entries_huge empty_bucket)
         /\ w_globus w' = w_globus (sample_world entries_huge empty_bucket)
         /\ w_calls w' = w_calls (sample_world entries_huge empty_bucket).
Proof.
  eexists. split; [vm_compute; reflexivity | ].
  split; [vm_compute; reflexivity | ].
  apply (oversize_archive_writes_nothing sample_md5 sample_config
           ["data"%string] "bucket" false false false
           (sample_world entries_huge empty_bucket)
           [{| df_file := ["huge.bin"%string]; df_size := 3000000000000;
               df_md5sum := "0" |}]).
  - vm_compute. reflexivity.
  - vm_compute. reflexivity.
Defined.

Lemma integrity_check_is_set_equality_witness :
  fs_lookup ["data"%string; "dhslabarchive.abc.tar.gz"%string]
            (w_fs (sample_world entries_archived empty_bucket))
  = Some (File {| f_size := 21; f_ctime := 50;
                  f_data := TarGz bundle_earlier |})
  /\ exists passed,
       test_tarball_integrity sample_md5
         ["data"%string; "dhslabarchive.abc.tar.gz"%string]
         (PyList ["alpha"%string; "alpha"%string])
         (sample_world entries_archived empty_bucket)
       = (Done passed, sample_world entries_archived empty_bucket)
       /\ (passed = true <->
           forall h,
             In h (map (fun m => sample_md5 (ti_data m))
                       (List.filter (fun m : tarinfo blob => ti_isfile m)
                                    bundle_earlier))
             <-> In h ["alpha"%string; "alpha"%string]).
Proof.
  split; [reflexivity | ].
  apply (integrity_check_is_set_equality sample_md5
           ["data"%string; "dhslabarchive.abc.tar.gz"%string]
           {| f_size := 21; f_ctime := 50; f_data := TarGz bundle_earlier |}
           bundle_earlier ["alpha"%string; "alpha"%string]
           (sample_world entries_archived empty_bucket)).
  - reflexivity.
  - reflexivity.
Defined.

Lemma archive_removes_sources_witness :
  wf_node (w_fs (sample_world entries_plain empty_bucket))
  /\ mode sample_config <> "dry-run"%string
  /\ exists m w',
       run_archive sample_md5 sample_config ["data"%string] "bucket"
                   false false false false
                   (sample_world entries_plain empty_bucket)
       = (Done m, w')
       /\ (exists df,
             fst (get_files sample_md5 ["data"%string]
                            (sample_world entries_plain empty_bucket)) = Done df
             /\ Files m = map df_file df /\ LocalPath m = ["data"%string])
       /\ (forall f, In f (Files m) ->
                     is_file (LocalPath m ++ f) (w_fs w') = false)
       /\ (forall q d,
             fs_lookup (LocalPath m ++ q ++ [d]) (w_fs w') = Some (Dir []) ->
             startswith_dot d = true).
Proof.
  split; [apply sample_world_wf, entries_plain_wf | ].
  split; [discriminate | ].
  eexists _, _. split; [vm_compute; reflexivity | ].
  apply (archive_removes_sources sample_md5 sample_config ["data"%string]
           "bucket" false false (sample_world entries_plain empty_bucket)).
  - apply sample_world_wf, entries_plain_wf.
  - discriminate.
  - vm_compute. reflexivity.
Defined.

Lemma restore_without_status_raises_witness :
  let w := sample_world entries_archived (bucket_with "DEEP_ARCHIVE") in
  let o := {| o_size := 21; o_data := TarGz bundle_earlier;
              o_class := Some "DEEP_ARCHIVE"%string; o_restore := [] |} in
  fs_lookup ["data"%string] (w_fs w) = Some (Dir entries_archived)
  /\ load_manifest ["data"%string] w = (Done manifest_earlier, w)
  /\ Location manifest_earlier = "glacier"%string
  /\ s3_object (ArchivePath manifest_earlier) (Filename manifest_earlier) w
     = Some o
  /\ o_restore o = []
  /\ exists w',
       run_restore sample_md5 sample_config ["data"%string] false w
       = (Fail (Raised TypeError), w')
       /\ w_calls w'
          = w_calls w ++ [HeadObject "bucket" "dhslabarchive.abc.tar.gz";
                          HeadObject "bucket" "dhslabarchive.abc.tar.gz"]
       /\ w_fs w' = w_fs w.
Proof.
  intros w o.
  split; [reflexivity | ]. split; [vm_compute; reflexivity | ].
  split; [reflexivity | ]. split; [vm_compute; reflexivity | ].
  split; [reflexivity | ].
  apply (restore_without_status_raises sample_md5 sample_config
           ["data"%string] false w entries_archived manifest_earlier o).
  - reflexivity.
  - vm_compute. reflexivity.
  - reflexivity.
  - vm_compute. reflexivity.
  - left. reflexivity.
  - reflexivity.
Defined.

(** The bundle holds [a.txt] alone; the recorded list is that of two files
    with the same content.  One file is missing from the bundle and the
    check passes all the same. *)
Example integrity_check_misses_a_missing_file :
  test_tarball_integrity sample_md5
    ["data"%string; "dhslabarchive.abc.tar.gz"%string]
    (PyList ["alpha"%string; "alpha"%string])
    (sample_world entries_archived empty_bucket)
  = (Done true, sample_world entries_archived empty_bucket).
Proof. vm_compute. reflexivity. Qed.

(** On the sample directory that holds an earlier sidecar and bundle, the
    sidecar is a regular file of the directory and is not listed. *)
Lemma get_files_omits_own_artifacts_witness :
  let w := sample_world entries_archived empty_bucket in
  is_file ["data"%string; "dhslabarchive.abc.json"%string] (w_fs w) = true
  /\ exists df,
       get_files sample_md5 ["data"%string] w = (Done df, w)
       /\ ~ In ([] ++ ["dhslabarchive.abc.json"%string]) (map df_file df).
Proof.
  intros w. split; [reflexivity | ].
  eexists. split; [vm_compute; reflexivity | ].
  apply (get_files_omits_own_artifacts sample_md5 ["data"%string] w _ w).
  - vm_compute. reflexivity.
  - vm_compute. reflexivity.
Defined.

(** On the same directory the dotted file [.notes] is listed. *)
Lemma get_files_lists_every_other_file_witness :
  let w := sample_world entries_archived empty_bucket in
  exists df,
    get_files sample_md5 ["data"%string] w = (Done df, w)
    /\ In ([] ++ [".notes"%string]) (map df_file df).
Proof.
  intros w. eexists. split; [vm_compute; reflexivity | ].
  apply (get_files_lists_every_other_file sample_md5 ["data"%string] w _ w
           [] ".notes" (text_file "n")).
  - vm_compute. reflexivity.
  - reflexivity.
  - vm_compute. reflexivity.
Defined.

(** A restore is going on when [run_restore] starts, and is over at the
    second poll: no request, two polls 120 seconds apart, the download. *)
Lemma restore_with_status_polls_witness :
  let statuses := [Some status_ongoing; Some status_ongoing;
                   Some status_ongoing; Some status_over] in
  let w := sample_world entries_archived (bucket_restoring statuses) in
  load_manifest ["data"%string] w = (Done manifest_earlier, w)
  /\ str_contains ongoing_false status_ongoing = false
  /\ str_contains ongoing_false status_over = true
  /\ exists w',
       run_restore sample_md5 sample_config ["data"%string] false w
       = (Fail (Raised UnboundLocalError), w')
       /\ w_calls w'
          = [HeadObject "bucket" "dhslabarchive.abc.tar.gz";
             HeadObject "bucket" "dhslabarchive.abc.tar.gz";
             HeadObject "bucket" "dhslabarchive.abc.tar.gz";
             Sleep 120;
             HeadObject "bucket" "dhslabarchive.abc.tar.gz";
             DownloadFile "bucket" "dhslabarchive.abc.tar.gz"
               ["data"%string; "dhslabarchive.abc.tar.gz"%string]].
Proof.
  intros statuses w.
  split; [vm_compute; reflexivity | ].
  split; [vm_compute; reflexivity | ].
  split; [vm_compute; reflexivity | ].
  apply (restore_with_status_polls sample_md5 sample_config
           ["data"%string] false w entries_archived manifest_earlier
           {| o_size := 21; o_data := TarGz bundle_earlier;
              o_class := Some "DEEP_ARCHIVE"%string; o_restore := statuses |}
           (Some status_ongoing) status_ongoing [status_ongoing] status_over).
  - reflexivity.
  - reflexivity.
  - intros name es' _. apply entries_archived_hold_files.
  - vm_compute. reflexivity.
  - reflexivity.
  - vm_compute. reflexivity.
  - left. reflexivity.
  - reflexivity.
  - constructor; [ | constructor].
    split; [discriminate | vm_compute; reflexivity].
  - vm_compute. reflexivity.
  - intros es'. vm_compute. discriminate.
Defined.

(** ** The parts of the program at a sample input *)

(** The rows of [/data] with its two files. *)
Lemma get_files_rows_describe_files_witness :
  let w := sample_world entries_plain empty_bucket in
  exists df,
    get_files sample_md5 ["data"%string] w = (Done df, w)
    /\ df <> []
    /\ forall r, In r df ->
         exists f,
           fs_lookup (["data"%string] ++ df_file r) (w_fs w) = Some (File f)
           /\ df_size r = f_size f
           /\ df_md5sum r = sample_md5 (f_data f)
           /\ f_size f <> 0.
Proof.
  intros w. eexists. split; [vm_compute; reflexivity | ].
  split; [discriminate | ].
  apply (get_files_rows_describe_files sample_md5 ["data"%string] w _ w).
  vm_compute. reflexivity.
Defined.

(** The two files of [/data] bundled into [/data/out.tar.gz]. *)
Lemma create_tarball_round_trip_witness :
  let w := sample_world entries_plain empty_bucket in
  let files := [["a.txt"%string]; ["sub"%string; "b.txt"%string]] in
  let contents := [text_file "alpha"; text_file "beta"] in
  exists w',
    create_tarball files (["data"%string] ++ ["out.tar.gz"%string]) w
    = (Done tt, w')
    /\ get_tarball_md5sums sample_md5
         (["data"%string] ++ ["out.tar.gz"%string]) w'
       = (Done (zip_with (fun file f =>
                            {| df_file := file; df_size := f_size f;
                               df_md5sum := sample_md5 (f_data f) |})
                         files contents), w')
    /\ list_tarball_files (["data"%string] ++ ["out.tar.gz"%string]) w'
       = (Done files, w')
    /\ Forall2 (fun file f =>
                  fs_lookup (["data"%string] ++ file) (w_fs w')
                  = Some (File f))
               files contents
    /\ outside w' = outside w.
Proof.
  intros w files contents.
  apply (create_tarball_round_trip sample_md5 ["data"%string] "out.tar.gz"
           entries_plain files contents w).
  - reflexivity.
  - intros es'. vm_compute. discriminate.
  - repeat constructor; discriminate.
Defined.

(** A dry run on [/data]. *)
Lemma dry_run_leaves_bundle_witness :
  let w := sample_world entries_plain empty_bucket in
  exists m w',
    run_archive sample_md5 dry_run_config ["data"%string] "(dry run)"
                false false false false w
    = (Done m, w')
    /\ Files m = [["a.txt"%string]; ["sub"%string; "b.txt"%string]]
    /\ outside w' = outside w
    /\ (forall file, In file (Files m) ->
          is_file (["data"%string] ++ file) (w_fs w) = true
          /\ fs_lookup (["data"%string] ++ file) (w_fs w')
             = fs_lookup (["data"%string] ++ file) (w_fs w))
    /\ (exists ms,
          fs_lookup (["data"%string] ++ [Filename m]) (w_fs w')
          = Some (File (tar_file ms (w_clock w)))
          /\ map (fun member : tarinfo blob => ti_name member) ms = Files m)
    /\ fs_lookup (["data"%string] ++ [sidecar_name (Id m)]) (w_fs w')
       = fs_lookup (["data"%string] ++ [sidecar_name (Id m)]) (w_fs w).
Proof.
  intros w. eexists _, _. split; [vm_compute; reflexivity | ].
  split; [reflexivity | ].
  apply (dry_run_leaves_bundle sample_md5 dry_run_config ["data"%string]
           "(dry run)" false false false w).
  - reflexivity.
  - vm_compute. reflexivity.
Defined.

(** An archive of [/data] to the bucket. *)
Lemma archive_records_manifest_witness :
  let w := sample_world entries_plain empty_bucket in
  exists m w',
    run_archive sample_md5 sample_config ["data"%string] "bucket"
                false false false false w
    = (Done m, w')
    /\ (exists df,
          get_files sample_md5 ["data"%string] w = (Done df, w)
          /\ Files m = map df_file df
          /\ Sizes m = map df_size df
          /\ MD5Sums m = map df_md5sum df)
    /\ Id m = drawn_id w
    /\ Filename m = tarball_name (Id m)
    /\ LocalPath m = ["data"%string]
    /\ ArchivePath m = "bucket"%string
    /\ Location m = mode sample_config
    /\ Username m = username sample_config
    /\ Timestamp m = w_clock w
    /\ (mode sample_config <> "dry-run"%string ->
        json_load (["data"%string] ++ [sidecar_name (Id m)]) w'
        = (Done m, w')).
Proof.
  intros w. eexists _, _. split; [vm_compute; reflexivity | ].
  apply (archive_records_manifest sample_md5 sample_config ["data"%string]
           "bucket" false false false w).
  vm_compute. reflexivity.
Defined.

(** The same archive with [keep]. *)
Lemma keep_leaves_sources_witness :
  let w := sample_world entries_plain empty_bucket in
  mode sample_config <> "dry-run"%string
  /\ exists m w',
       run_archive sample_md5 sample_config ["data"%string] "bucket"
                   false false false true w
       = (Done m, w')
       /\ Files m = [["a.txt"%string]; ["sub"%string; "b.txt"%string]]
       /\ (forall file, In file (Files m) ->
             is_file (["data"%string] ++ file) (w_fs w) = true
             /\ fs_lookup (["data"%string] ++ file) (w_fs w')
                = fs_lookup (["data"%string] ++ file) (w_fs w))
       /\ (mode sample_config = "glacier"%string
           \/ mode sample_config = "ris_archive"%string ->
           fs_lookup (["data"%string] ++ [Filename m]) (w_fs w') = None).
Proof.
  intros w. split; [discriminate | ].
  eexists _, _. split; [vm_compute; reflexivity | ].
  split; [reflexivity | ].
  apply (keep_leaves_sources sample_md5 sample_config ["data"%string]
           "bucket" false false w).
  - discriminate.
  - vm_compute. reflexivity.
Defined.

(** [/data/a.txt] sent to the empty bucket and fetched as [/data/copy]. *)
Lemma upload_download_round_trip_witness :
  let w := sample_world entries_plain empty_bucket in
  let p := ["data"%string; "a.txt"%string] in
  exists w1 w2,
    transfer_to_s3 "bucket" "us-east-1" p false "STANDARD_IA" w
    = (Done (Some true), w1)
    /\ download_s3_object "bucket" (os_path_basename p)
         (["data"%string] ++ ["copy"%string]) "us-east-1" w1
       = (Done tt, w2)
    /\ fs_lookup (["data"%string] ++ ["copy"%string]) (w_fs w2)
       = Some (File {| f_size := f_size (text_file "alpha");
                       f_ctime := w_clock w;
                       f_data := f_data (text_file "alpha") |}).
Proof.
  intros w p.
  apply (upload_download_round_trip "bucket" "us-east-1" p false
           "STANDARD_IA" ∅ (text_file "alpha") ["data"%string] "copy"
           entries_plain w).
  - right. left. reflexivity.
  - vm_compute. reflexivity.
  - left. vm_compute. reflexivity.
  - reflexivity.
  - reflexivity.
  - intros es'. vm_compute. discriminate.
Defined.

(** The bundle of the earlier archive is in the bucket already. *)
Lemma transfer_to_s3_never_replaces_witness :
  let w := sample_world entries_archived (bucket_with "DEEP_ARCHIVE") in
  let p := ["data"%string; "dhslabarchive.abc.tar.gz"%string] in
  let o := {| o_size := 21; o_data := TarGz bundle_earlier;
              o_class := Some "DEEP_ARCHIVE"%string; o_restore := [] |} in
  s3_object "bucket" (os_path_basename p) w = Some o
  /\ exists w' o',
       transfer_to_s3 "bucket" "us-east-1" p false "STANDARD_IA" w
       = (Done None, w')
       /\ s3_object "bucket" (os_path_basename p) w' = Some o'
       /\ o_data o' = o_data o /\ o_size o' = o_size o
       /\ o_class o' = o_class o
       /\ w_fs w' = w_fs w
       /\ w_calls w'
          = w_calls w ++ [HeadBucket "bucket";
                          HeadObject "bucket" (os_path_basename p)].
Proof.
  intros w p o. split; [vm_compute; reflexivity | ].
  apply (transfer_to_s3_never_replaces "bucket" "us-east-1" p "STANDARD_IA"
           o w).
  vm_compute. reflexivity.
Defined.

(** The archive of [/data] to the empty bucket uploads the bundle. *)
Lemma archive_to_bucket_witness :
  let w := sample_world entries_plain empty_bucket in
  mode sample_config = "glacier"%string
  /\ exists m w',
       run_archive sample_md5 sample_config ["data"%string] "bucket"
                   false false false false w
       = (Done m, w')
       /\ s3_object "bucket" (Filename m) w = None
       /\ (exists objs, w_s3 w !! "bucket"%string = Some objs)
       /\ match s3_object "bucket" (Filename m) w with
          | None =>
              (exists ms,
                 s3_object "bucket" (Filename m) w'
                 = Some {| o_size := targz_size ms; o_data := TarGz ms;
                           o_class := Some (storage_class sample_config);
                           o_restore := [] |}
                 /\ map (fun member : tarinfo blob => ti_name member) ms
                    = Files m
                 /\ TarballMD5sum m = sample_md5 (TarGz ms))
              /\ w_calls w'
                 = w_calls w ++ [HeadBucket "bucket";
                                 HeadObject "bucket" (Filename m);
                                 UploadFile "bucket" (Filename m)
                                            (storage_class sample_config)]
          | Some o =>
              (exists o',
                 s3_object "bucket" (Filename m) w' = Some o'
                 /\ o_data o' = o_data o /\ o_class o' = o_class o)
              /\ w_calls w'
                 = w_calls w ++ [HeadBucket "bucket";
                                 HeadObject "bucket" (Filename m)]
          end.
Proof.
  intros w. split; [reflexivity | ].
  eexists _, _. split; [vm_compute; reflexivity | ].
  split; [vm_compute; reflexivity | ].
  apply (archive_to_bucket sample_md5 sample_config ["data"%string]
           "bucket" false false false w).
  - reflexivity.
  - vm_compute. reflexivity.
Defined.



(** The archive of [/data] to the empty bucket goes through. *)
Lemma archive_succeeds_witness :
  let w := sample_world entries_plain empty_bucket in
  let df := [{| df_file := ["a.txt"%string]; df_size := 5;
                df_md5sum := "alpha" |};
             {| df_file := ["sub"%string; "b.txt"%string]; df_size := 4;
                df_md5sum := "beta" |}] in
  wf_node (w_fs w)
  /\ get_files sample_md5 ["data"%string] w = (Done df, w)
  /\ exists m w',
       run_archive sample_md5 sample_config ["data"%string] "bucket"
                   false false false false w
       = (Done m, w')
       /\ Files m = map df_file df.
Proof.
  intros w df. split; [apply sample_world_wf, entries_plain_wf | ].
  split; [vm_compute; reflexivity | ].
  apply (archive_succeeds sample_md5 sample_config ["data"%string] "bucket"
           false false false w entries_plain df ∅).
  - apply sample_world_wf, entries_plain_wf.
  - reflexivity.
  - right. intros name [<- | [<- | []]]; vm_compute; reflexivity.
  - vm_compute. reflexivity.
  - discriminate.
  - vm_compute. discriminate.
  - intros es'. vm_compute. discriminate.
  - intros es'. vm_compute. discriminate.
  - reflexivity.
  - do 4 right. left. reflexivity.
  - reflexivity.
  - vm_compute. reflexivity.
Defined.




(** The bundle of the earlier archive, archived as it is. *)
Lemma archive_tarball_manifest_witness :
  let w := sample_world entries_archived empty_bucket in
  let filepath := ["data"%string; "dhslabarchive.abc.tar.gz"%string] in
  exists m w',
    run_archive sample_md5 sample_config filepath "bucket"
                true false false false w
    = (Done m, w')
    /\ Id m = "abc"%string
    /\ exists f ms,
         fs_lookup filepath (w_fs w) = Some (File f)
         /\ f_data f = TarGz ms
         /\ nth_error (split_dot (os_path_basename filepath)) 1
            = Some (Id m)
         /\ Filename m = os_path_basename filepath
         /\ LocalPath m = os_path_dirname filepath
         /\ Files m
            = map (fun member : tarinfo blob => ti_name member)
                  (List.filter (fun member : tarinfo blob => ti_isfile member)
                               ms)
         /\ Sizes m
            = map (fun member : tarinfo blob => ti_size member)
                  (List.filter (fun member : tarinfo blob => ti_isfile member)
                               ms)
         /\ MD5Sums m
            = map (fun member : tarinfo blob => sample_md5 (ti_data member))
                  (List.filter (fun member : tarinfo blob => ti_isfile member)
                               ms)
         /\ TarballMD5sum m = sample_md5 (f_data f).
Proof.
  intros w filepath. eexists _, _. split; [vm_compute; reflexivity | ].
  split; [reflexivity | ].
  eapply (archive_tarball_manifest sample_md5 sample_config filepath "bucket"
            false false false w).
  vm_compute. reflexivity.
Defined.


(** [/data] with the sidecar of an archive made to the RIS archive. *)
Lemma restore_from_ris_exits_witness :
  let w := sample_world entries_archived_ris empty_bucket in
  load_manifest ["data"%string] w = (Done manifest_ris, w)
  /\ Location manifest_ris = "ris_archive"%string
  /\ run_restore sample_md5 ris_config ["data"%string] false w
     = (Fail (SysExit 1), w).
Proof.
  intros w. split; [vm_compute; reflexivity | ]. split; [reflexivity | ].
  apply (restore_from_ris_exits sample_md5 ris_config ["data"%string] false
           entries_archived_ris manifest_ris w).
  - reflexivity.
  - reflexivity.
  - intros name es' _. apply entries_archived_ris_hold_files.
  - vm_compute. reflexivity.
  - reflexivity.
Defined.

(** The sidecar names a bundle that the bucket does not hold. *)
Lemma restore_missing_object_raises_witness :
  let w := sample_world entries_archived empty_bucket in
  load_manifest ["data"%string] w = (Done manifest_earlier, w)
  /\ s3_object (ArchivePath manifest_earlier) (Filename manifest_earlier) w
     = None
  /\ run_restore sample_md5 sample_config ["data"%string] false w
     = (Fail (Raised (ClientError "404")),
        log_call (HeadObject "bucket" "dhslabarchive.abc.tar.gz") w).
Proof.
  intros w. split; [vm_compute; reflexivity | ].
  split; [vm_compute; reflexivity | ].
  apply (restore_missing_object_raises sample_md5 sample_config
           ["data"%string] false entries_archived manifest_earlier w).
  - reflexivity.
  - reflexivity.
  - intros name es' _. apply entries_archived_hold_files.
  - vm_compute. reflexivity.
  - reflexivity.
  - vm_compute. reflexivity.
Defined.

(** The bundle is in the bucket and [head_object] gives no storage
    class. *)
Lemma restore_without_storage_class_raises_witness :
  let w := sample_world entries_archived bucket_unclassed in
  let o := {| o_size := 21; o_data := TarGz bundle_earlier;
              o_class := None; o_restore := [] |} in
  load_manifest ["data"%string] w = (Done manifest_earlier, w)
  /\ s3_object (ArchivePath manifest_earlier) (Filename manifest_earlier) w
     = Some o
  /\ exists w',
       run_restore sample_md5 sample_config ["data"%string] false w
       = (Fail (Raised KeyError), w')
       /\ w_calls w'
          = w_calls w ++ [HeadObject (ArchivePath manifest_earlier)
                                     (Filename manifest_earlier)]
       /\ w_fs w' = w_fs w.
Proof.
  intros w o. split; [vm_compute; reflexivity | ].
  split; [vm_compute; reflexivity | ].
  apply (restore_without_storage_class_raises sample_md5 sample_config
           ["data"%string] false entries_archived manifest_earlier o w).
  - reflexivity.
  - reflexivity.
  - intros name es' _. apply entries_archived_hold_files.
  - vm_compute. reflexivity.
  - reflexivity.
  - vm_compute. reflexivity.
  - reflexivity.
Defined.

(** The bundle is in the class [INTELLIGENT_TIERING]. *)
Lemma restore_unsupported_class_exits_witness :
  let w := sample_world entries_archived (bucket_with "INTELLIGENT_TIERING") in
  let o := {| o_size := 21; o_data := TarGz bundle_earlier;
              o_class := Some "INTELLIGENT_TIERING"%string;
              o_restore := [] |} in
  load_manifest ["data"%string] w = (Done manifest_earlier, w)
  /\ s3_object (ArchivePath manifest_earlier) (Filename manifest_earlier) w
     = Some o
  /\ exists w',
       run_restore sample_md5 sample_config ["data"%string] false w
       = (Fail (SysExit 1), w')
       /\ w_calls w'
          = w_calls w ++ [HeadObject (ArchivePath manifest_earlier)
                                     (Filename manifest_earlier)]
       /\ w_fs w' = w_fs w.
Proof.
  intros w o. split; [vm_compute; reflexivity | ].
  split; [vm_compute; reflexivity | ].
  apply (restore_unsupported_class_exits sample_md5 sample_config
           ["data"%string] false entries_archived manifest_earlier o
           "INTELLIGENT_TIERING" w).
  - reflexivity.
  - reflexivity.
  - intros name es' _. apply entries_archived_hold_files.
  - vm_compute. reflexivity.
  - reflexivity.
  - vm_compute. reflexivity.
  - reflexivity.
  - cbn. intuition discriminate.
Defined.

(** The bundle is in the class [STANDARD_IA]. *)
Lemma restore_downloads_then_stops_witness :
  let w := sample_world entries_archived (bucket_with "STANDARD_IA") in
  let o := {| o_size := 21; o_data := TarGz bundle_earlier;
              o_class := Some "STANDARD_IA"%string; o_restore := [] |} in
  load_manifest ["data"%string] w = (Done manifest_earlier, w)
  /\ s3_object (ArchivePath manifest_earlier) (Filename manifest_earlier) w
     = Some o
  /\ exists w',
       run_restore sample_md5 sample_config ["data"%string] false w
       = (Fail (Raised UnboundLocalError), w')
       /\ w_calls w'
          = w_calls w ++ [HeadObject (ArchivePath manifest_earlier)
                                     (Filename manifest_earlier);
                          DownloadFile (ArchivePath manifest_earlier)
                            (Filename manifest_earlier)
                            (["data"%string] ++ [Filename manifest_earlier])]
       /\ fs_lookup (["data"%string] ++ [Filename manifest_earlier])
                    (w_fs w')
          = Some (File {| f_size := o_size o; f_ctime := w_clock w;
                          f_data := o_data o |}).
Proof.
  intros w o. split; [vm_compute; reflexivity | ].
  split; [vm_compute; reflexivity | ].
  apply (restore_downloads_then_stops sample_md5 sample_config
           ["data"%string] false entries_archived manifest_earlier o
           "STANDARD_IA" w).
  - reflexivity.
  - reflexivity.
  - intros name es' _. apply entries_archived_hold_files.
  - vm_compute. reflexivity.
  - reflexivity.
  - vm_compute. reflexivity.
  - reflexivity.
  - left. reflexivity.
  - intros es'. vm_compute. discriminate.
Defined.


(** 1536 bytes are 1.5 KB. *)
Lemma readable_bytes_normalises_witness :
  readable_bytes 1536 = "1.50 KB"%string
  /\ exists h : Z,
       2 * Z.abs (h * 1024 ^ Z.of_nat 1 - 100 * 1536) <= 1024 ^ Z.of_nat 1
       /\ (2 * Z.abs (h * 1024 ^ Z.of_nat 1 - 100 * 1536) = 1024 ^ Z.of_nat 1 ->
           Z.even h = true)
       /\ readable_bytes 1536
          = (NilZero.string_of_int (Z.to_int (h / 100)) +:+ "."
             +:+ String (ascii_of_N (48 + Z.to_N (h mod 100 / 10)))
                   (String (ascii_of_N (48 + Z.to_N (h mod 10))) ""))
            +:+ " " +:+ nth 1 byte_units ""%string.
Proof.
  split; [vm_compute; reflexivity | ].
  apply (readable_bytes_normalises 1536 1).
  - lia.
  - lia.
  - right. cbn. lia.
  - cbn. lia.
Defined.

(** Four times 1024^5 bytes are shown as four terabytes. *)
Lemma readable_bytes_past_terabytes_witness :
  readable_bytes (4 * 1024 ^ 5) = "4.00 TB"%string
  /\ exists h : Z,
       2 * Z.abs (h * 1024 ^ 5 - 100 * (4 * 1024 ^ 5)) <= 1024 ^ 5
       /\ (2 * Z.abs (h * 1024 ^ 5 - 100 * (4 * 1024 ^ 5)) = 1024 ^ 5 ->
           Z.even h = true)
       /\ readable_bytes (4 * 1024 ^ 5)
          = (NilZero.string_of_int (Z.to_int (h / 100)) +:+ "."
             +:+ String (ascii_of_N (48 + Z.to_N (h mod 100 / 10)))
                   (String (ascii_of_N (48 + Z.to_N (h mod 10))) ""))
            +:+ " TB".
Proof.
  split; [vm_compute; reflexivity | ].
  apply (readable_bytes_past_terabytes (4 * 1024 ^ 5)).
  - vm_compute. discriminate.
  - reflexivity.
Defined.

(** [archive -G] without [-b], with a configuration file that names a
    bucket of its own. *)
Lemma bucket_of_config_file_is_ignored_witness :
  config_of_file !! "s3_bucket"%string = Some "bucket-of-the-lab"%string
  /\ exists config',
       archive_settings (parse_archive_args cli_glacier_only) true true
                        config_of_file
                        (sample_world entries_plain empty_bucket)
       = (Done (config', "dhs-lab-archive-1"%string),
          sample_world entries_plain empty_bucket)
       /\ config' !! "s3_bucket"%string = Some "dhs-lab-archive-1"%string
       /\ config' !! "mode"%string = Some "glacier"%string.
Proof.
  split; [vm_compute; reflexivity | ].
  apply (bucket_of_config_file_is_ignored cli_glacier_only true true
           config_of_file (sample_world entries_plain empty_bucket));
    reflexivity.
Defined.

(** [archive --dry-run -R -s GLACIER] with Globus missing. *)
Lemma dry_run_flag_wins_witness :
  args_ris_archive (parse_archive_args cli_dry_run_ris) = true
  /\ exists config',
       archive_settings (parse_archive_args cli_dry_run_ris) false false
                        default_config
                        (sample_world entries_plain empty_bucket)
       = (Done (config', "(dry run)"%string),
          sample_world entries_plain empty_bucket)
       /\ config' !! "mode"%string = Some "dry-run"%string.
Proof.
  split; [reflexivity | ].
  apply (dry_run_flag_wins (parse_archive_args cli_dry_run_ris) false false
           default_config (sample_world entries_plain empty_bucket)).
  - reflexivity.
  - right. exists "GLACIER"%string.
    split; [reflexivity | ]. split; [discriminate | ].
    right. left. reflexivity.
Defined.
